(* ===== verification/_CoqProject ===== *)
-Q . S2P
Prelude.v
PyStr.v
PyNum.v
PyDict.v
Genotype.v
HetTally.v
HetReport.v
CalcDriver.v
VcfWf.v
Sumstats.v
Grouper.v
RandomSource.v
Whitelist.v
