(* ===== verification/Prelude.v ===== *)
(** * Verification of the Manacus hybrid-zone analysis scripts

    The repository holds two independent Python command-line tools that
    share no code and no state; each is one pass over a text file, and
    the model takes the file as the list of its lines.

    - [src/calculate_idnv_obs_het.py], the heterozygosity calculator:
      [process_vcf] streams a VCF file, normalises every genotype token
      ([simplify_genotype_str]), classifies it as missing
      ([is_genotype_missing]) or heterozygous ([is_indv_heterozygous]),
      tallies per-individual and global counters, then writes one row per
      sample and prints a summary (mean, median, stdev).
    - [src/filter_sumstats_to_whitelist.py], the whitelist filter:
      [parse_args] validates the options, [parse_sumstats] parses a Stacks
      sumstats table, drops records by minor-allele frequency and HWE
      p-value, groups the surviving records of one SNP across populations
      and keeps the SNPs seen in exactly [n_pops] populations;
      [sample_kept_sites] draws loci at random and writes one
      [locus<TAB>column] line per drawn locus; [main] chains them.

    ** Library layout (file: what it models, and its main theorems)

    - [Prelude]: the Python exceptions ([exc]) and the result monad
      [result] (stdpp's [x ← c; k]); list primitives that raise
      ([py_index], [py_setitem], [py_incr] for [l[i] += 1]); [foldM] and
      [mapM], the loops [for x in xs:] over a state that may raise; the
      hint databases [pyres] and [pyrw] and the tactic [inv_res].
    - [PyStr]: the str built-ins, on ASCII strings: [split] ([py_split]),
      [join], [strip('\n')], [startswith], [in], [isnumeric]; the
      split/join round trips.
    - [PyNum]: Python [int()] and [float()] on text ([py_int],
      [py_float]), [str()] of an int, and Python float comparisons.  A
      float is [pyfloat]: a rational, an infinity or NaN, because the
      filters' comparisons behave differently on NaN; finite values are
      exact rationals (the rounding to a double is not modelled).
      Round trip [int(str(z)) = z].
    - [PyDict]: an insertion-ordered Python dict as an association list
      ([dict_get], [dict_set], [dict_setdefault], [dict_keys]) with its
      lookup lemmas and key uniqueness ([dict_wf]).
    - [Genotype] (Module [Genotype]): the three genotype functions with
      their behaviour on every branch, against a reference normaliser,
      errors ([UnboundLocalError], [IndexError], [AssertionError]) included.
    - [HetTally] (Module [HetTally]): the loop of [process_vcf], lines
      115-149, as a state record [vcf_state] (the six locals) and a step
      per line; the sample loop equals a reference by zipping; the
      invariant hets <= vars <= sites <= total_sites holds after every
      line; exact counts of total and variant sites.
    - [HetReport] (Module [HetReport]): lines 152-178, the table rows
      (the rows written before an exception, and the exception), the
      summary with [statistics.mean], [median] and [variance] as exact
      rationals ([stdev] kept as its square); the table theorem, the
      [ZeroDivisionError] and [StatisticsError] edge cases, the bounds
      0 <= het proportions <= 1, and the spec's toy file computed.
    - [CalcDriver] (Module [CalcDriver]): [PROG], [parse_command_line],
      [main], and the clock helpers [now] and [time] as the [strftime]
      text of a clock reading passed as a parameter; [PROG] is the part of
      the path after its last ['/'], [now()] and [time()] read back with [int()], a
      missing [--vcf] raises [TypeError].
    - [VcfWf] (Module [VcfWf]): an inductive description [vcf_ok] of a
      well-formed VCF with its recogniser [vcf_okb]; the loop of
      [process_vcf] returns exactly on well-formed files (progress), and
      on them the calculator ends normally or by one of the two faults
      of its report (safety).
    - [Sumstats] (Module [Sumstats]): [SumstatsSite] and the parsing of
      one record in the code's order of conversions; the SNP key
      [f'{loc}_{col}'] is injective; the MAF and HWE filters on finite
      values and on NaN.
    - [Grouper] (Module [Grouper]): the whole of [parse_sumstats], its
      streaming grouping state [group_state] and final flush, refined
      against an abstract specification by maximal runs of one SNP
      ([parse_sumstats_refines]); the index invariant; on input whose
      records of each SNP are contiguous, exactly the SNPs with
      [n_pops] passing records are kept; [AttributeError] when nothing
      passes.
    - [RandomSource]: the interface ([Class RandomSource]) through which
      the sampler calls [random.sample] and [random.choice], its laws
      ([RandomSourceLaws]: k distinct members or ValueError; a member or
      IndexError), and a linear congruential instance that satisfies them
      and runs the examples.  No seed is modelled: the sampler's theorems
      hold for every lawful source.
    - [Whitelist] (Module [Whitelist]): [sample_kept_sites], argparse's
      conversions and defaults ([convert_filter_args]), [parse_args] on
      the converted values, [main] and [filter_cli]; end to end, a lawful
      run writes min(number_sites, #loci) lines in strictly increasing
      locus order, each a SNP stored with [n_populations] records; the
      written text reads back as its rows; a negative [--maf] passes
      [parse_args] and raises [AssertionError]; a non-positive [-n] exits.
      [Grouper] also shows that every kept record passed both filters.

    Fuel, termination and bounds: every loop of the scripts is over a
    finite list (the lines of a file, the fields of a line, the samples,
    the sampled loci), so each is a structural [Fixpoint] or [foldM]:
    termination holds by construction and no fuel is needed, which is
    why no theorem of the development is about termination; what is
    proved instead is progress (which inputs make a loop return rather
    than raise).  Counters are Python ints, unbounded, modelled as
    [nat] and [Z].

    ** What is not modelled

    File opening, gzip, reading the clock, argparse's matching of the
    command-line words to flags, and printing are I/O with no state of
    the program; the [.08f]/[.03f]/[,] formatting of printed numbers is
    not modelled.  Strings are ASCII ([String.string]); the non-ASCII
    characters on which Python's [isnumeric] and [float] differ are not
    modelled.  [random.sample] on a [dict_keys] view is modelled as
    sampling its list of keys (see the findings).
*)
From stdpp Require Export base list strings sets.
From Stdlib Require Export ZArith.

Declare Scope py_scope.
Delimit Scope py_scope with py.
Open Scope py_scope.

(** ** Python exceptions and the result monad *)

(** The exceptions the two scripts can raise on some input. *)
Inductive exc :=
| IndexError          (* l[i] with i out of range *)
| AssertionError      (* a failing [assert] *)
| UnboundLocalError   (* a local read before assignment *)
| ValueError          (* int()/float() of a malformed string *)
| ZeroDivisionError   (* x / 0 *)
| StatisticsError     (* statistics.mean/median/stdev on too few data *)
| AttributeError      (* None.split(...) *)
| KeyError            (* d[k] with k not a key *)
| TypeError
| SystemExit.         (* sys.exit(message) *)

#[export] Instance exc_eq_dec : EqDecision exc.
Proof. solve_decision. Defined.

(** A computation either returns a value or raises. *)
Inductive result (A : Type) :=
| Ok (a : A)
| Raise (e : exc).
Arguments Ok {A} a.
Arguments Raise {A} e.

#[export] Instance result_ret : MRet result := fun _ a => Ok a.
#[export] Instance result_bind : MBind result :=
  fun _ _ f c => match c with Ok a => f a | Raise e => Raise e end.
#[export] Instance result_fmap : FMap result :=
  fun _ _ f c => match c with Ok a => Ok (f a) | Raise e => Raise e end.

(** [assert b] of Python. *)
Definition py_assert (b : bool) : result unit :=
  if b then Ok () else Raise AssertionError.

Notation "'assert' b ;; k" := (mbind (fun _ : unit => k) (py_assert b))
  (at level 100, b at level 0, right associativity) : py_scope.

(** ** Python lists *)

(** [l[i]] for a non-negative index. *)
Definition py_index {A} (l : list A) (i : nat) : result A :=
  match l !! i with Some x => Ok x | None => Raise IndexError end.

(** [l[i] = x]: raises when [i] is out of range. *)
Definition py_setitem {A} (i : nat) (x : A) (l : list A) : result (list A) :=
  if decide (i < length l) then Ok (<[i := x]> l) else Raise IndexError.

(** [l[i] += 1]. *)
Definition py_incr (i : nat) (l : list nat) : result (list nat) :=
  x ← py_index l i; Ok (<[i := S x]> l).

(** [for x in xs: body] over a state that may raise. *)
Fixpoint foldM {S A} (f : S -> A -> result S) (xs : list A) (s : S) : result S :=
  match xs with
  | [] => Ok s
  | x :: xs' => s' ← f s x; foldM f xs' s'
  end.

(** [[f(x) for x in xs]] where [f] may raise: the first exception wins. *)
Fixpoint mapM {A B} (f : A -> result B) (xs : list A) : result (list B) :=
  match xs with
  | [] => Ok []
  | x :: xs' => y ← f x; ys ← mapM f xs'; Ok (y :: ys)
  end.

(** ** Generic lemmas *)

Create HintDb pyres discriminated.
Create Rewrite HintDb pyrw.

Lemma bind_Ok {A B} (c : result A) (k : A -> result B) (v : B) :
  mbind k c = Ok v <-> exists a, c = Ok a /\ k a = Ok v.
Proof.
  destruct c as [a|e]; simpl; split.
  - eauto.
  - intros (a' & [= <-] & H); exact H.
  - discriminate.
  - intros (a' & ? & _); discriminate.
Qed.

Lemma bind_Ok_l {A B} (a : A) (k : A -> result B) : mbind k (Ok a) = k a.
Proof. reflexivity. Qed.

Lemma bind_Raise_l {A B} (e : exc) (k : A -> result B) : mbind k (Raise e) = Raise e.
Proof. reflexivity. Qed.

Lemma py_assert_Ok b : py_assert b = Ok () <-> b = true.
Proof. destruct b; simpl; split; congruence. Qed.

#[export] Hint Rewrite @bind_Ok_l @bind_Raise_l : pyrw.

(** Invert every successful bind and assertion in the hypotheses. *)
Ltac inv_res :=
  repeat match goal with
  | H : mbind _ _ = Ok _ |- _ =>
      apply bind_Ok in H; destruct H as (? & ? & ?)
  | H : py_assert _ = Ok _ |- _ => apply py_assert_Ok in H
  | H : Ok _ = Ok _ |- _ => injection H as H
  | H : Raise _ = Ok _ |- _ => discriminate H
  end.

Lemma py_index_Ok {A} (l : list A) i x : py_index l i = Ok x <-> l !! i = Some x.
Proof. unfold py_index. destruct (l !! i); split; congruence. Qed.

Lemma py_index_lt {A} (l : list A) i : i < length l -> exists x, py_index l i = Ok x.
Proof.
  intros Hi. destruct (lookup_lt_is_Some_2 l i Hi) as [x Hx].
  exists x. by apply py_index_Ok.
Qed.

Lemma py_index_ge {A} (l : list A) i : length l <= i -> py_index l i = Raise IndexError.
Proof. intros Hi. unfold py_index. by rewrite lookup_ge_None_2. Qed.

Lemma py_incr_lt i (l : list nat) :
  i < length l -> py_incr i l = Ok (alter S i l).
Proof.
  intros Hi. destruct (lookup_lt_is_Some_2 l i Hi) as [x Hx].
  unfold py_incr, py_index. rewrite Hx. simpl.
  f_equal. apply list_eq. intros j. destruct (decide (i = j)) as [->|Hne].
  - rewrite list_lookup_insert_eq by done. by rewrite list_lookup_alter_eq, Hx.
  - rewrite list_lookup_insert_ne, list_lookup_alter_ne by done. done.
Qed.

Lemma py_incr_ge i (l : list nat) : length l <= i -> py_incr i l = Raise IndexError.
Proof. intros Hi. unfold py_incr. by rewrite py_index_ge. Qed.

Lemma foldM_app {S A} (f : S -> A -> result S) xs ys s :
  foldM f (xs ++ ys) s = s' ← foldM f xs s; foldM f ys s'.
Proof.
  revert s. induction xs as [|x xs IH]; intros s; simpl; [done|].
  destruct (f s x); simpl; [apply IH|done].
Qed.

(** An invariant preserved by every successful iteration holds after
    the whole loop. *)
Lemma foldM_inv {S A} (P : S -> Prop) (f : S -> A -> result S) xs s s' :
  (forall s0 x s1, P s0 -> x ∈ xs -> f s0 x = Ok s1 -> P s1) ->
  P s -> foldM f xs s = Ok s' -> P s'.
Proof.
  revert s. induction xs as [|x xs IH]; intros s Hstep Hs Hf; simpl in Hf.
  - by injection Hf as <-.
  - inv_res. apply (IH x0); [|eapply Hstep; eauto; set_solver|done].
    intros; eapply Hstep; eauto; set_solver.
Qed.

Lemma mapM_app {A B} (f : A -> result B) xs ys :
  mapM f (xs ++ ys) = (us ← mapM f xs; vs ← mapM f ys; Ok (us ++ vs)).
Proof.
  induction xs as [|x xs IH]; simpl.
  - by destruct (mapM f ys).
  - destruct (f x); simpl; [|done]. rewrite IH.
    destruct (mapM f xs); simpl; [|done]. by destruct (mapM f ys).
Qed.

Lemma mapM_length {A B} (f : A -> result B) xs ys :
  mapM f xs = Ok ys -> length ys = length xs.
Proof.
  revert ys. induction xs as [|x xs IH]; intros ys H; simpl in H; inv_res.
  - by subst.
  - subst. simpl. f_equal. by apply IH.
Qed.

(** Whether a computation returns normally. *)
Definition is_ok {A} (r : result A) : bool :=
  match r with Ok _ => true | Raise _ => false end.

Lemma is_ok_exists {A} (r : result A) : is_ok r = true <-> exists a, r = Ok a.
Proof. destruct r; simpl; split; [eauto|done|done|intros [? ?]; done]. Qed.

Lemma is_ok_bind {A B} (c : result A) (k : A -> result B) :
  is_ok (mbind k c) = match c with Ok a => is_ok (k a) | Raise _ => false end.
Proof. by destruct c. Qed.

(** A [mapM] returns exactly when every element's call does. *)
Lemma mapM_is_ok {A B} (f : A -> result B) xs :
  is_ok (mapM f xs) = forallb (fun x => is_ok (f x)) xs.
Proof.
  induction xs as [|x xs IH]; [done|]. simpl.
  destruct (f x); simpl; [|done]. rewrite <-IH. by destruct (mapM f xs).
Qed.

(** A counter that every successful iteration advances by one on the
    elements satisfying [p] ends at the number of such elements. *)
Lemma foldM_count {S A} (g : S -> nat) (p : A -> bool) (f : S -> A -> result S) xs s s' :
  (forall s0 x s1, f s0 x = Ok s1 -> g s1 = g s0 + (if p x then 1 else 0)) ->
  foldM f xs s = Ok s' -> g s' = g s + length (List.filter p xs).
Proof.
  intros Hstep. revert s. induction xs as [|x xs IH]; intros s Hf; simpl in Hf.
  - injection Hf as <-. simpl. lia.
  - inv_res. rewrite (IH _ H0), (Hstep _ _ _ H). simpl. destruct (p x); simpl; lia.
Qed.

Lemma filter_all_false {A} (f : A -> bool) (l : list A) :
  (forall x, x ∈ l -> f x = false) -> List.filter f l = [].
Proof.
  induction l as [|x l IH]; intros Hf; simpl; [done|].
  rewrite Hf by set_solver. apply IH. intros y Hy. apply Hf. set_solver.
Qed.

Lemma filter_all_true {A} (f : A -> bool) (l : list A) :
  (forall x, x ∈ l -> f x = true) -> List.filter f l = l.
Proof.
  induction l as [|x l IH]; intros Hf; simpl; [done|].
  rewrite Hf by set_solver. f_equal. apply IH. intros y Hy. apply Hf. set_solver.
Qed.

Lemma length_alter_S i (l : list nat) : length (alter S i l) = length l.
Proof. apply length_alter. Qed.

#[export] Hint Rewrite length_alter_S @length_replicate @length_drop @length_fmap : pyrw.
#[export] Hint Resolve py_incr_lt : pyres.
