(* ===== verification/PyStr.v ===== *)
(** * Python [str] built-ins used by the two scripts

    ASCII strings ([String.string]).  [py_split] is [str.split(sep)]
    for a one-character separator, [strip_nl] is [str.strip('\n')],
    [str_has] is [c in s], [String.prefix] is [str.startswith];
    [py_isnumeric] is [str.isnumeric] on ASCII text and [digits_value]
    the value [int(s)] gives to a string of decimal digits.  The main
    results are the split/join round trips. *)
From S2P Require Import Prelude.
From Stdlib Require Import Ascii.

Local Open Scope string_scope.

Definition TAB : ascii := "009"%char.
Definition NL : ascii := "010"%char.

(** [s.split(sep)]: the fields between the occurrences of [sep], empty
    fields included; never the empty list. *)
Fixpoint py_split (sep : ascii) (s : string) : list string :=
  match s with
  | EmptyString => [EmptyString]
  | String c s' =>
      let rest := py_split sep s' in
      if Ascii.eqb c sep then EmptyString :: rest
      else match rest with
           | [] => [String c EmptyString]
           | w :: ws => String c w :: ws
           end
  end.

(** [sep.join(ws)]. *)
Fixpoint py_join (sep : ascii) (ws : list string) : string :=
  match ws with
  | [] => EmptyString
  | [w] => w
  | w :: ws' => w +:+ String sep (py_join sep ws')
  end.

(** [c in s] for a one-character [c]. *)
Fixpoint str_has (c : ascii) (s : string) : bool :=
  match s with
  | EmptyString => false
  | String x s' => Ascii.eqb x c || str_has c s'
  end.

Fixpoint lstrip_char (c : ascii) (s : string) : string :=
  match s with
  | String x s' => if Ascii.eqb x c then lstrip_char c s' else s
  | EmptyString => EmptyString
  end.

Fixpoint rstrip_char (c : ascii) (s : string) : string :=
  match s with
  | EmptyString => EmptyString
  | String x s' =>
      match rstrip_char c s' with
      | EmptyString => if Ascii.eqb x c then EmptyString else String x EmptyString
      | r => String x r
      end
  end.

(** [s.strip('\n')]: newlines removed at both ends. *)
Definition strip_nl (s : string) : string := rstrip_char NL (lstrip_char NL s).

Definition is_digit (c : ascii) : bool :=
  (48 <=? nat_of_ascii c)%nat && (nat_of_ascii c <=? 57)%nat.

Fixpoint all_digits (s : string) : bool :=
  match s with
  | EmptyString => true
  | String c s' => is_digit c && all_digits s'
  end.

(** [s.isnumeric()]: non-empty and made of digits. *)
Definition py_isnumeric (s : string) : bool :=
  match s with
  | EmptyString => false
  | _ => all_digits s
  end.

Definition digit_value (c : ascii) : N := N.of_nat (nat_of_ascii c - 48).

Fixpoint digits_value_acc (acc : N) (s : string) : N :=
  match s with
  | EmptyString => acc
  | String c s' => digits_value_acc (10 * acc + digit_value c)%N s'
  end.

(** [int(s)] for a string [s] with [py_isnumeric s = true]. *)
Definition digits_value (s : string) : N := digits_value_acc 0%N s.

(** ** Lemmas *)

Lemma py_split_not_nil sep s : py_split sep s <> [].
Proof.
  induction s as [|c s IH]; simpl; [done|].
  destruct (Ascii.eqb c sep); [done|]. destruct (py_split sep s); done.
Qed.

Lemma py_split_no_sep sep s : str_has sep s = false -> py_split sep s = [s].
Proof.
  induction s as [|c s IH]; simpl; [done|].
  intros [Hc Hs]%orb_false_iff. rewrite Hc, IH by done. done.
Qed.

Lemma py_split_cons_sep sep s : py_split sep (String sep s) = EmptyString :: py_split sep s.
Proof. simpl. by rewrite Ascii.eqb_refl. Qed.

(** There is a second field exactly when the separator occurs. *)
Lemma py_split_has_sep sep s :
  str_has sep s = true -> exists w1 w2 ws, py_split sep s = w1 :: w2 :: ws.
Proof.
  induction s as [|c s IH]; simpl; [done|].
  destruct (Ascii.eqb c sep) eqn:Hc; simpl.
  - intros _. destruct (py_split sep s) as [|w ws] eqn:E.
    + by apply py_split_not_nil in E.
    + eauto.
  - intros Hs. destruct (IH Hs) as (w1 & w2 & ws & ->). eauto.
Qed.

Lemma py_join_cons_sep sep w ws :
  ws <> [] -> py_join sep (w :: ws) = w +:+ String sep (py_join sep ws).
Proof. destruct ws; done. Qed.

Lemma py_join_cons_char sep c w ws :
  py_join sep (String c w :: ws) = String c (py_join sep (w :: ws)).
Proof. destruct ws; done. Qed.

(** Round trip: joining the fields of [s.split(sep)] with [sep] gives [s]. *)
Lemma py_join_split sep s : py_join sep (py_split sep s) = s.
Proof.
  induction s as [|c s IH]; simpl; [done|].
  destruct (Ascii.eqb c sep) eqn:Hc.
  - apply Ascii.eqb_eq in Hc as ->. rewrite py_join_cons_sep by apply py_split_not_nil.
    simpl. by rewrite IH.
  - destruct (py_split sep s) as [|w ws] eqn:E; [by apply py_split_not_nil in E|].
    by rewrite py_join_cons_char, IH.
Qed.

Lemma py_split_app_sep sep w s :
  str_has sep w = false ->
  py_split sep (w +:+ String sep s) = w :: py_split sep s.
Proof.
  induction w as [|c w IH]; simpl; intros Hw.
  - by rewrite Ascii.eqb_refl.
  - apply orb_false_iff in Hw as [Hc Hw]. rewrite Hc, IH by done. done.
Qed.

(** Round trip the other way: fields free of [sep] are recovered by
    splitting their join. *)
Lemma py_split_join sep ws :
  ws <> [] -> Forall (fun w => str_has sep w = false) ws ->
  py_split sep (py_join sep ws) = ws.
Proof.
  induction ws as [|w ws IH]; intros Hne Hall; [done|].
  apply Forall_cons in Hall as [Hw Hall].
  destruct ws as [|w' ws].
  - by apply py_split_no_sep.
  - rewrite py_join_cons_sep by done. rewrite py_split_app_sep by done.
    f_equal. by apply IH.
Qed.

Lemma str_append_nil_r s : s +:+ "" = s.
Proof. induction s as [|c s IH]; [done|]. exact (f_equal (String c) IH). Qed.

Lemma str_append_assoc s t u : s +:+ (t +:+ u) = (s +:+ t) +:+ u.
Proof. induction s as [|c s IH]; [done|]. exact (f_equal (String c) IH). Qed.

Lemma all_digits_app s t : all_digits (s +:+ t) = all_digits s && all_digits t.
Proof. induction s as [|c s IH]; simpl; [done|]. by rewrite IH, andb_assoc. Qed.

Lemma str_has_app c s t : str_has c (s +:+ t) = str_has c s || str_has c t.
Proof. induction s as [|x s IH]; simpl; [done|]. by rewrite IH, orb_assoc. Qed.

Lemma py_isnumeric_app s t :
  py_isnumeric s = true -> all_digits t = true -> py_isnumeric (s +:+ t) = true.
Proof.
  destruct s as [|c s]; [done|]. intros Hs Ht. change (all_digits (String c s +:+ t) = true).
  rewrite all_digits_app. by apply andb_true_iff.
Qed.

(** No field of [s.split(sep)] contains [sep]. *)
Lemma py_split_fields sep s w : w ∈ py_split sep s -> str_has sep w = false.
Proof.
  revert w. induction s as [|c s IH]; intros w Hw; simpl in Hw.
  - apply list_elem_of_singleton in Hw as ->. done.
  - destruct (Ascii.eqb_spec c sep) as [->|Hc].
    + apply elem_of_cons in Hw as [->|Hw]; [done|by apply IH].
    + destruct (py_split sep s) as [|w0 ws] eqn:E; [by apply py_split_not_nil in E|].
      apply elem_of_cons in Hw as [->|Hw].
      * simpl. apply orb_false_iff. split; [by apply Ascii.eqb_neq|]. apply IH. set_solver.
      * apply IH. set_solver.
Qed.

Lemma py_join_snoc sep ws w :
  ws <> [] -> py_join sep (ws ++ [w]) = py_join sep ws +:+ String sep w.
Proof.
  induction ws as [|x ws IH]; intros Hne; [done|].
  destruct ws as [|y ws]; [done|]. specialize (IH ltac:(done)). simpl app in *.
  rewrite (py_join_cons_sep sep x (y :: ws ++ [w])) by done.
  rewrite IH, (py_join_cons_sep sep x (y :: ws)) by done. by rewrite <-str_append_assoc.
Qed.

(** A character that is not a digit does not occur in a digit string. *)
Lemma str_has_all_digits c s :
  is_digit c = false -> all_digits s = true -> str_has c s = false.
Proof.
  intros Hc. induction s as [|x s IH]; simpl; [done|].
  intros [Hx Hs]%andb_true_iff. rewrite IH by done.
  destruct (Ascii.eqb_spec x c); [congruence|done].
Qed.

#[export] Hint Resolve py_split_not_nil : pyres.
