(* ===== verification/PyNum.v ===== *)
(** * Python [int()], [float()] and [str()] on numbers

    [py_int] is [int(s)] for a [str] argument in base 10 (surrounding
    whitespace, one sign, digits with single underscores between
    them); [py_float] is [float(s)] (the same digit groups, a decimal
    point, an exponent, and the case-insensitive [inf], [infinity],
    [nan]).  Both raise [ValueError] on anything else.  A float is kept
    as the exact rational its decimal text denotes ([PFin]), or an
    infinity, or NaN: the rounding to binary64 is not modelled.
    [str_of_Z] is [str(z)]; the round trip [int(str(z)) = z] is proved. *)
From S2P Require Import Prelude PyStr.
From Stdlib Require Import Ascii QArith DecimalString DecimalN.

Local Close Scope Q_scope.
Local Open Scope nat_scope.
Local Open Scope string_scope.

(** Python's [str.strip()] whitespace on ASCII: [\t \n \v \f \r],
    [\x1c]-[\x1f] and the space. *)
Definition is_py_space (c : ascii) : bool :=
  let n := nat_of_ascii c in (((9 <=? n) && (n <=? 13)) || ((28 <=? n) && (n <=? 32)))%nat.

Fixpoint lstrip_ws (s : string) : string :=
  match s with
  | String c s' => if is_py_space c then lstrip_ws s' else s
  | EmptyString => EmptyString
  end.

Fixpoint rstrip_ws (s : string) : string :=
  match s with
  | EmptyString => EmptyString
  | String c s' =>
      match rstrip_ws s' with
      | EmptyString => if is_py_space c then EmptyString else String c EmptyString
      | r => String c r
      end
  end.

Definition py_strip (s : string) : string := rstrip_ws (lstrip_ws s).

(** A group of digits with single underscores between digits, as both
    [int()] and [float()] accept it: value, number of digits, rest. *)
Fixpoint scan_digits (acc : N) (n : nat) (after_us : bool) (s : string)
    : option (N * nat * string) :=
  match s with
  | String c s' =>
      if is_digit c then scan_digits (10 * acc + digit_value c)%N (S n) false s'
      else if Ascii.eqb c "_" then
        (if after_us || Nat.eqb n 0 then None else scan_digits acc n true s')
      else if after_us || Nat.eqb n 0 then None else Some (acc, n, s)
  | EmptyString => if after_us || Nat.eqb n 0 then None else Some (acc, n, EmptyString)
  end.

(** An optional sign: [true] for ['-']. *)
Definition split_sign (s : string) : bool * string :=
  match s with
  | String c s' =>
      if Ascii.eqb c "-" then (true, s') else if Ascii.eqb c "+" then (false, s') else (false, s)
  | EmptyString => (false, EmptyString)
  end.

(** [int(s)]. *)
Definition py_int (s : string) : result Z :=
  let '(neg, r) := split_sign (py_strip s) in
  match scan_digits 0 0 false r with
  | Some (v, _, EmptyString) => Ok (if neg then Z.opp (Z.of_N v) else Z.of_N v)
  | _ => Raise ValueError
  end.

(** [str(n)] for [n >= 0], and [str(z)]. *)
Definition str_of_N (n : N) : string := NilEmpty.string_of_uint (N.to_uint n).

Definition str_of_Z (z : Z) : string :=
  if Z.ltb z 0 then String "-" (str_of_N (Z.to_N (Z.opp z))) else str_of_N (Z.to_N z).

(** ** Floats *)

Inductive pyfloat :=
| PFin (q : Q)
| PInf (neg : bool)
| PNaN.

Definition ascii_lower (c : ascii) : ascii :=
  let n := nat_of_ascii c in
  if ((65 <=? n) && (n <=? 90))%nat then ascii_of_nat (n + 32)%nat else c.

Fixpoint str_lower (s : string) : string :=
  match s with
  | EmptyString => EmptyString
  | String c s' => String (ascii_lower c) (str_lower s')
  end.

(** An optional digit group (absent: value 0, no digit). *)
Definition scan_opt_digits (s : string) : N * nat * string :=
  match scan_digits 0 0 false s with Some r => r | None => (0%N, 0, s) end.

Definition scan_exponent (s : string) : option Z :=
  match s with
  | EmptyString => Some 0%Z
  | String c s' =>
      if Ascii.eqb c "e" || Ascii.eqb c "E" then
        let '(neg, r) := split_sign s' in
        match scan_digits 0 0 false r with
        | Some (v, _, EmptyString) => Some (if neg then Z.opp (Z.of_N v) else Z.of_N v)
        | _ => None
        end
      else None
  end.

(** The exact value of [int.frac e exp] written in decimal. *)
Definition decimal_value (mant : N) (nfrac : nat) (e : Z) : Q :=
  (inject_Z (Z.of_N mant) * Qpower (inject_Z 10) (e - Z.of_nat nfrac)%Z)%Q.

Definition parse_decimal (r : string) : option Q :=
  let '(ip, ni, r1) := scan_opt_digits r in
  let '(fp, nf, r2) :=
    match r1 with
    | String c r1' => if Ascii.eqb c "." then scan_opt_digits r1' else (0%N, 0, r1)
    | EmptyString => (0%N, 0, r1)
    end in
  if Nat.eqb (ni + nf) 0 then None else
  match scan_exponent r2 with
  | Some e => Some (decimal_value (ip * 10 ^ N.of_nat nf + fp)%N nf e)
  | None => None
  end.

(** [float(s)]. *)
Definition py_float (s : string) : result pyfloat :=
  let '(neg, r) := split_sign (py_strip s) in
  let w := str_lower r in
  if String.eqb w "inf" || String.eqb w "infinity" then Ok (PInf neg)
  else if String.eqb w "nan" then Ok PNaN
  else match parse_decimal r with
       | Some q => Ok (PFin (if neg then Qopp q else q))
       | None => Raise ValueError
       end.

(** [a < b], [a >= b] and [a - b] of Python floats (IEEE comparisons:
    every comparison with NaN is false). *)
Definition flt (a b : pyfloat) : bool :=
  match a, b with
  | PFin x, PFin y => negb (Qle_bool y x)
  | PInf true, PInf true => false
  | PInf true, PNaN => false
  | PInf true, _ => true
  | PFin _, PInf false => true
  | PInf false, _ => false
  | _, _ => false
  end.

Definition fle (a b : pyfloat) : bool :=
  match a, b with
  | PNaN, _ | _, PNaN => false
  | _, _ => negb (flt b a)
  end.

Definition fge (a b : pyfloat) : bool := fle b a.

Definition fsub (a b : pyfloat) : pyfloat :=
  match a, b with
  | PFin x, PFin y => PFin (x - y)
  | PNaN, _ | _, PNaN => PNaN
  | PInf s, PInf t => if Bool.eqb s t then PNaN else PInf s
  | PInf s, PFin _ => PInf s
  | PFin _, PInf t => PInf (negb t)
  end.

Definition flit (q : Q) : pyfloat := PFin q.

(** ** Round trip [int(str(z)) = z] *)

(** The value of a decimal digit list read left to right from [acc]. *)
Fixpoint uint_acc (acc : N) (u : Decimal.uint) : N :=
  match u with
  | Decimal.Nil => acc
  | Decimal.D0 l => uint_acc (10 * acc + 0) l
  | Decimal.D1 l => uint_acc (10 * acc + 1) l
  | Decimal.D2 l => uint_acc (10 * acc + 2) l
  | Decimal.D3 l => uint_acc (10 * acc + 3) l
  | Decimal.D4 l => uint_acc (10 * acc + 4) l
  | Decimal.D5 l => uint_acc (10 * acc + 5) l
  | Decimal.D6 l => uint_acc (10 * acc + 6) l
  | Decimal.D7 l => uint_acc (10 * acc + 7) l
  | Decimal.D8 l => uint_acc (10 * acc + 8) l
  | Decimal.D9 l => uint_acc (10 * acc + 9) l
  end%N.

Lemma uint_acc_pos u p : uint_acc (N.pos p) u = N.pos (Pos.of_uint_acc u p).
Proof.
  revert p. induction u; intros p; cbn [uint_acc Pos.of_uint_acc]; try reflexivity;
    rewrite <-IHu; f_equal; lia.
Qed.

Lemma uint_acc_0 u : uint_acc 0 u = N.of_uint u.
Proof.
  induction u; cbn [uint_acc]; try exact IHu; try reflexivity; apply uint_acc_pos.
Qed.

Lemma scan_digits_uint u acc n :
  exists m, scan_digits acc (S n) false (NilEmpty.string_of_uint u) =
            Some (uint_acc acc u, m, EmptyString).
Proof.
  revert acc n. induction u; intros acc n; simpl; try (by eexists); apply IHu.
Qed.

Lemma to_uint_not_nil n : N.to_uint n <> Decimal.Nil.
Proof.
  intros H. pose proof (Unsigned.of_to n) as E. rewrite H in E. simpl in E.
  subst n. discriminate H.
Qed.

Lemma scan_digits_str_of_N n :
  exists m, scan_digits 0 0 false (str_of_N n) = Some (n, m, EmptyString).
Proof.
  unfold str_of_N. pose proof (to_uint_not_nil n) as Hn.
  assert (E : uint_acc 0 (N.to_uint n) = n) by (rewrite uint_acc_0; apply Unsigned.of_to).
  revert E Hn. generalize (N.to_uint n). intros u E Hn. subst n.
  destruct u; [done|..]; simpl; apply scan_digits_uint.
Qed.

Fixpoint no_ws (s : string) : bool :=
  match s with
  | EmptyString => true
  | String c s' => negb (is_py_space c) && no_ws s'
  end.

Lemma py_strip_no_ws s : no_ws s = true -> py_strip s = s.
Proof.
  intros H. unfold py_strip.
  assert (lstrip_ws s = s) as ->.
  { destruct s as [|c s]; [done|]. simpl in *. apply andb_true_iff in H as [Hc _].
    by destruct (is_py_space c). }
  induction s as [|c s IH]; [done|]. simpl in *. apply andb_true_iff in H as [Hc Hs].
  rewrite IH by done. destruct s; [by destruct (is_py_space c)|done].
Qed.

Lemma no_ws_str_of_N n : no_ws (str_of_N n) = true.
Proof. unfold str_of_N. induction (N.to_uint n); simpl; done. Qed.

Lemma split_sign_str_of_N n : split_sign (str_of_N n) = (false, str_of_N n).
Proof.
  unfold str_of_N. pose proof (to_uint_not_nil n) as Hn.
  destruct (N.to_uint n); [done|..]; reflexivity.
Qed.

(** [int(str(z)) == z]: the decimal text of an integer parses back
    to it. *)
Theorem py_int_str_of_Z (z : Z) : py_int (str_of_Z z) = Ok z.
Proof.
  unfold py_int, str_of_Z. destruct (Z.ltb_spec z 0) as [Hz|Hz].
  - rewrite py_strip_no_ws by apply no_ws_str_of_N. simpl.
    destruct (scan_digits_str_of_N (Z.to_N (- z))) as [m ->]. f_equal. lia.
  - rewrite py_strip_no_ws by apply no_ws_str_of_N. rewrite split_sign_str_of_N.
    destruct (scan_digits_str_of_N (Z.to_N z)) as [m ->]. f_equal. lia.
Qed.

Lemma all_digits_str_of_N n : all_digits (str_of_N n) = true.
Proof. unfold str_of_N. induction (N.to_uint n); simpl; done. Qed.

(** Only digits and a leading ['-'] occur in [str(z)]. *)
Lemma str_has_str_of_Z c z :
  is_digit c = false -> c <> "-"%char -> str_has c (str_of_Z z) = false.
Proof.
  intros Hc Hm. assert (H : forall n, str_has c (str_of_N n) = false).
  { intros n. pose proof (all_digits_str_of_N n) as Hd. revert Hd.
    generalize (str_of_N n). intros s. induction s as [|x s IH]; simpl; [done|].
    intros [Hx Hs]%andb_true_iff. rewrite IH by done.
    destruct (Ascii.eqb_spec x c); [congruence|done]. }
  unfold str_of_Z. destruct (Z.ltb z 0); cbn [str_has]; [|apply H].
  rewrite H, orb_false_r. apply Ascii.eqb_neq. congruence.
Qed.

(** ** [int()] of a digit string *)

Lemma digits_value_acc_app acc s t :
  digits_value_acc acc (s +:+ t) = digits_value_acc (digits_value_acc acc s) t.
Proof. revert acc. induction s as [|c s IH]; intros acc; [done|]. apply IH. Qed.

Lemma digits_value_acc_uint acc u :
  digits_value_acc acc (NilEmpty.string_of_uint u) = uint_acc acc u.
Proof. revert acc. induction u; intros acc; try done; apply IHu. Qed.

Lemma digits_value_str_of_N n : digits_value (str_of_N n) = n.
Proof.
  unfold digits_value, str_of_N. rewrite digits_value_acc_uint, uint_acc_0.
  apply Unsigned.of_to.
Qed.

Lemma scan_digits_all_digits acc n s :
  all_digits s = true -> n + String.length s <> 0 ->
  scan_digits acc n false s = Some (digits_value_acc acc s, n + String.length s, EmptyString).
Proof.
  revert acc n. induction s as [|c s IH]; intros acc n Hd Hn; simpl in *.
  - rewrite Nat.add_0_r. destruct (Nat.eqb_spec n 0); [lia|done].
  - apply andb_true_iff in Hd as [Hc Hs]. rewrite Hc, IH by (done || lia).
    f_equal. f_equal. f_equal. lia.
Qed.

Lemma no_ws_all_digits s : all_digits s = true -> no_ws s = true.
Proof.
  induction s as [|c s IH]; [done|]. simpl. intros [Hc Hs]%andb_true_iff.
  rewrite IH by done. unfold is_digit in Hc. unfold is_py_space.
  apply andb_true_iff in Hc as [H1 H2]. apply Nat.leb_le in H1, H2.
  destruct (nat_of_ascii c) as [|k] eqn:E; [lia|].
  repeat (destruct k as [|k]; [lia|]). done.
Qed.

(** [int(s)] of a non-empty digit string is its decimal value. *)
Lemma py_int_digits s : py_isnumeric s = true -> py_int s = Ok (Z.of_N (digits_value s)).
Proof.
  destruct s as [|c s']; [done|]. intros Hd. unfold py_int.
  rewrite py_strip_no_ws by (by apply no_ws_all_digits).
  assert (Hsign : split_sign (String c s') = (false, String c s')).
  { simpl in Hd. apply andb_true_iff in Hd as [Hc _]. simpl.
    destruct (Ascii.eqb_spec c "-") as [->|]; [done|].
    destruct (Ascii.eqb_spec c "+") as [->|]; done. }
  rewrite Hsign, scan_digits_all_digits by (done || simpl; lia). done.
Qed.

(** [float] comparisons on finite values are those of the rationals. *)
Lemma flt_fin x y : flt (PFin x) (PFin y) = true <-> (x < y)%Q.
Proof.
  simpl. rewrite negb_true_iff. split.
  - intros H. apply Qnot_le_lt. intros Hle. apply Qle_bool_iff in Hle. congruence.
  - intros H. destruct (Qle_bool y x) eqn:E; [|done].
    apply Qle_bool_iff in E. exfalso. by apply (Qlt_not_le x y).
Qed.

Lemma fge_fin x y : fge (PFin x) (PFin y) = Qle_bool y x.
Proof. unfold fge, fle. simpl. by rewrite negb_involutive. Qed.
