(* ===== verification/PyDict.v ===== *)
(** * Python [dict] with its insertion order

    A dict is the list of its items in insertion order: [d[k] = v]
    ([dict_set]) overwrites an existing key in place and appends a new
    one; [d.setdefault(k, v)] ([dict_setdefault]) appends only a new key;
    [d[k] = f(d[k])] is [dict_alter].  The order matters to the
    whitelist filter: [random.sample] and [random.choice] draw from the
    keys in this order.  The invariant [dict_wf] (no key twice) holds for
    every dict these operations build. *)
From S2P Require Import Prelude.

Section Dict.
Context {K V : Type} `{EqDecision K}.

Definition dict := list (K * V).

Definition dict_keys (d : dict) : list K := map fst d.

Definition dict_wf (d : dict) : Prop := NoDup (dict_keys d).

(** [d.get(k)] *)
Fixpoint dict_get (k : K) (d : dict) : option V :=
  match d with
  | [] => None
  | (k', v) :: d' => if decide (k = k') then Some v else dict_get k d'
  end.

(** [d[k] = v] *)
Fixpoint dict_set (k : K) (v : V) (d : dict) : dict :=
  match d with
  | [] => [(k, v)]
  | (k', v') :: d' => if decide (k = k') then (k, v) :: d' else (k', v') :: dict_set k v d'
  end.

(** [d[k] = f(d[k])] for a key that is present; no change otherwise. *)
Fixpoint dict_alter (f : V -> V) (k : K) (d : dict) : dict :=
  match d with
  | [] => []
  | (k', v') :: d' => if decide (k = k') then (k', f v') :: d' else (k', v') :: dict_alter f k d'
  end.

(** [d.setdefault(k, v)] (its return value is not used by the code). *)
Definition dict_setdefault (k : K) (v : V) (d : dict) : dict :=
  match dict_get k d with Some _ => d | None => d ++ [(k, v)] end.

(** ** Lemmas *)

Lemma dict_get_set_eq k v d : dict_get k (dict_set k v d) = Some v.
Proof.
  induction d as [|[k' v'] d IH]; simpl; [by rewrite decide_True|].
  case_decide; simpl; [by rewrite decide_True|]. by rewrite decide_False.
Qed.

Lemma dict_get_set_ne k k' v d : k' <> k -> dict_get k' (dict_set k v d) = dict_get k' d.
Proof.
  intros Hne. induction d as [|[k0 v0] d IH]; simpl; [by rewrite decide_False|].
  case_decide; simpl.
  - subst. rewrite !decide_False by done. done.
  - case_decide; [done|]. apply IH.
Qed.

Lemma dict_get_alter k k' f d :
  dict_get k' (dict_alter f k d) = if decide (k' = k) then f <$> dict_get k' d else dict_get k' d.
Proof.
  induction d as [|[k0 v0] d IH]; simpl; [by case_decide|].
  destruct (decide (k = k0)) as [->|Hne]; simpl.
  - by destruct (decide (k' = k0)).
  - rewrite IH. destruct (decide (k' = k0)) as [->|]; [by rewrite decide_False|done].
Qed.

Lemma dict_get_setdefault k k' v d :
  dict_get k' (dict_setdefault k v d) =
  match dict_get k' d with
  | Some w => Some w
  | None => if decide (k' = k) then Some v else None
  end.
Proof.
  unfold dict_setdefault. destruct (dict_get k d) as [w|] eqn:Hk.
  - destruct (dict_get k' d) eqn:Hk'; [done|]. case_decide; subst; congruence.
  - induction d as [|[k0 v0] d IH]; simpl in *.
    + by repeat case_decide.
    + destruct (decide (k = k0)); [discriminate|].
      destruct (decide (k' = k0)); [done|]. by apply IH.
Qed.

Lemma dict_keys_set k v d :
  dict_keys (dict_set k v d) = if decide (k ∈ dict_keys d) then dict_keys d else dict_keys d ++ [k].
Proof.
  induction d as [|[k0 v0] d IH]; simpl; [done|].
  destruct (decide (k = k0)) as [->|Hne]; simpl.
  - destruct (decide (k0 ∈ k0 :: dict_keys d)); [done|set_solver].
  - rewrite IH. destruct (decide (k ∈ dict_keys d));
      destruct (decide (k ∈ k0 :: dict_keys d)); try done; set_solver.
Qed.

Lemma dict_keys_alter f k d : dict_keys (dict_alter f k d) = dict_keys d.
Proof. induction d as [|[k0 v0] d IH]; simpl; [done|]. case_decide; simpl; congruence. Qed.

Lemma dict_get_Some_keys k d v : dict_get k d = Some v -> k ∈ dict_keys d.
Proof.
  induction d as [|[k0 v0] d IH]; simpl; [done|]. case_decide; subst; set_solver.
Qed.

Lemma dict_get_None_keys k d : dict_get k d = None -> k ∉ dict_keys d.
Proof.
  induction d as [|[k0 v0] d IH]; simpl; [set_solver|].
  case_decide; [done|]. intros Hget. apply IH in Hget. set_solver.
Qed.

Lemma dict_wf_set k v d : dict_wf d -> dict_wf (dict_set k v d).
Proof.
  unfold dict_wf. rewrite dict_keys_set. case_decide; [done|].
  intros Hd. apply NoDup_app. split_and!; [done| |apply NoDup_singleton]. set_solver.
Qed.

Lemma dict_wf_alter f k d : dict_wf d -> dict_wf (dict_alter f k d).
Proof. unfold dict_wf. by rewrite dict_keys_alter. Qed.

Lemma dict_wf_setdefault k v d : dict_wf d -> dict_wf (dict_setdefault k v d).
Proof.
  unfold dict_wf, dict_setdefault. destruct (dict_get k d) eqn:Hk; [done|].
  apply dict_get_None_keys in Hk. intros Hd. unfold dict_keys. rewrite map_app. simpl.
  apply NoDup_app. split_and!; [done| |apply NoDup_singleton]. set_solver.
Qed.

Lemma dict_keys_get k d : k ∈ dict_keys d -> exists v, dict_get k d = Some v.
Proof.
  induction d as [|[k0 v0] d IH]; simpl; [set_solver|].
  intros Hk. case_decide; [eauto|]. apply IH. set_solver.
Qed.

Lemma dict_keys_nil (d : dict) : dict_keys d = [] <-> d = [].
Proof. unfold dict_keys. destruct d; simpl; split; congruence. Qed.

End Dict.

Arguments dict : clear implicits.
