(* ===== verification/Genotype.v ===== *)
(** * Genotype normaliser and classifier of the calculator

    [src/calculate_idnv_obs_het.py], lines 33-87: [simplify_genotype_str]
    turns a VCF genotype token into the Python list [[a0, a1]] of allele
    indices ([None] for a missing allele), [is_genotype_missing] and
    [is_indv_heterozygous] classify it.  The list is kept as a list (not
    a pair) so that the length assertion of [is_indv_heterozygous] is a
    real check.  The results: the output always has length 2; a
    closed-form description of the normaliser on every branch (the
    [UnboundLocalError] when the token has no separator, the
    [IndexError] when a third allele is numeric); the classifier on
    every branch, its assertion included. *)
From S2P Require Import Prelude PyStr.
From Stdlib Require Import Ascii.

Local Open Scope string_scope.

Module Genotype.

(** One allele: [None] or the [int] of a digit string. *)
Abbreviation allele := (option N) (only parsing).

(** [indv_genos[i] = int(allele)] when [allele.isnumeric()]. *)
Definition set_allele (alleles : list string) (indv_genos : list allele) (i : nat)
    : result (list allele) :=
  allele ← py_index alleles i;
  if py_isnumeric allele then py_setitem i (Some (digits_value allele)) indv_genos
  else Ok indv_genos.

(** [simplify_genotype_str(genotype_field)]. *)
Definition simplify_genotype_str (genotype_field : string) : result (list allele) :=
  let indv_genos := [None; None] in
  genotype ← py_index (py_split ":" genotype_field) 0;
  alleles ← (if str_has "/" genotype then Ok (py_split "/" genotype)
             else if str_has "|" genotype then Ok (py_split "|" genotype)
             else Raise UnboundLocalError);
  indv_genos ← foldM (set_allele alleles) (seq 0 (length alleles)) indv_genos;
  Ok indv_genos.

(** [is_genotype_missing(genotype)]: [None in genotype]. *)
Definition is_genotype_missing (genotype : list allele) : bool :=
  bool_decide (None ∈ genotype).

(** [is_indv_heterozygous(genotype)]. *)
Definition is_indv_heterozygous (genotype : list allele) : result bool :=
  let missing := is_genotype_missing genotype in
  assert (negb missing) ;;
  assert (Nat.eqb (length genotype) 2) ;;
  a0 ← py_index genotype 0;
  a1 ← py_index genotype 1;
  Ok (if decide (a0 = a1) then false else true).

(** ** Reference description *)

(** The allele a field denotes. *)
Definition allele_of (w : string) : allele :=
  if py_isnumeric w then Some (digits_value w) else None.

(** The fields of the genotype part of a token, split on the separator
    the code picks; [None] when neither separator occurs. *)
Definition allele_fields (genotype_field : string) : option (list string) :=
  let genotype := default "" (head (py_split ":" genotype_field)) in
  if str_has "/" genotype then Some (py_split "/" genotype)
  else if str_has "|" genotype then Some (py_split "|" genotype)
  else None.

(** What [simplify_genotype_str] computes, without the index loop. *)
Definition simplify_spec (genotype_field : string) : result (list allele) :=
  match allele_fields genotype_field with
  | None => Raise UnboundLocalError
  | Some (w0 :: w1 :: ws) =>
      if existsb py_isnumeric ws then Raise IndexError
      else Ok [allele_of w0; allele_of w1]
  | Some _ => Raise UnboundLocalError
  end.

(** ** The normaliser *)

Lemma py_index_split_0 sep s :
  py_index (py_split sep s) 0 = Ok (default "" (head (py_split sep s))).
Proof. destruct (py_split sep s) eqn:E; [by apply py_split_not_nil in E|done]. Qed.


Lemma set_allele_at alleles g i w :
  alleles !! i = Some w ->
  set_allele alleles g i =
  if py_isnumeric w then py_setitem i (Some (digits_value w)) g else Ok g.
Proof. intros Hw. unfold set_allele. by rewrite (proj2 (py_index_Ok _ _ _) Hw). Qed.

Lemma set_allele_lt alleles g i w :
  alleles !! i = Some w -> i < length g ->
  set_allele alleles g i =
  Ok (if py_isnumeric w then <[i := Some (digits_value w)]> g else g).
Proof.
  intros Hw Hi. rewrite (set_allele_at _ _ _ w) by done.
  unfold py_setitem. destruct (py_isnumeric w); [|done]. by rewrite decide_True.
Qed.

(** Past the two slots of [indv_genos], a numeric field raises and any
    other field is skipped. *)
Lemma foldM_set_allele_tail pre ws (g : list allele) :
  length g = 2 -> 2 <= length pre ->
  foldM (set_allele (pre ++ ws)) (seq (length pre) (length ws)) g =
  if existsb py_isnumeric ws then Raise IndexError else Ok g.
Proof.
  revert pre. induction ws as [|w ws IH]; intros pre Hg Hpre; [done|].
  cbn [length seq foldM].
  rewrite (set_allele_at _ _ _ w) by (by apply list_lookup_middle).
  simpl. destruct (py_isnumeric w); simpl.
  - unfold py_setitem. rewrite decide_False by lia. done.
  - replace (pre ++ w :: ws)%list with ((pre ++ [w]) ++ ws)%list by (by rewrite <-app_assoc).
    replace (S (length pre)) with (length (pre ++ [w])%list) by (rewrite length_app; simpl; lia).
    apply IH; [done|rewrite length_app; simpl; lia].
Qed.

Lemma foldM_set_allele w0 w1 ws :
  foldM (set_allele (w0 :: w1 :: ws)) (seq 0 (length (w0 :: w1 :: ws))) [None; None] =
  if existsb py_isnumeric ws then Raise IndexError else Ok [allele_of w0; allele_of w1].
Proof.
  cbn [length seq foldM].
  rewrite (set_allele_lt _ _ _ w0), bind_Ok_l by first [done | simpl; lia].
  rewrite (set_allele_lt _ _ _ w1), bind_Ok_l
    by first [done | destruct (py_isnumeric w0); simpl; lia].
  unfold allele_of.
  destruct (py_isnumeric w0), (py_isnumeric w1);
    apply (foldM_set_allele_tail [w0; w1] ws); simpl; lia.
Qed.

(** Closed form of the normaliser (used by every other lemma on it). *)
Lemma simplify_genotype_str_closed (genotype_field : string) :
  simplify_genotype_str genotype_field = simplify_spec genotype_field.
Proof.
  unfold simplify_genotype_str, simplify_spec, allele_fields.
  rewrite py_index_split_0. simpl.
  set (gt := default "" (head (py_split ":" genotype_field))).
  destruct (str_has "/" gt) eqn:Hs; [|destruct (str_has "|" gt) eqn:Hp]; simpl; [..|done].
  - destruct (py_split_has_sep _ _ Hs) as (w0 & w1 & ws & ->).
    rewrite foldM_set_allele. by destruct (existsb py_isnumeric ws).
  - destruct (py_split_has_sep _ _ Hp) as (w0 & w1 & ws & ->).
    rewrite foldM_set_allele. by destruct (existsb py_isnumeric ws).
Qed.

(** C16: the index loop of [simplify_genotype_str] computes the closed
    form [simplify_spec] on every token, errors included. *)
Theorem simplify_genotype_str_spec (genotype_field : string) :
  simplify_genotype_str genotype_field = simplify_spec genotype_field.
Proof. apply simplify_genotype_str_closed. Qed.

(** C24: the normaliser always returns a two-slot list, as the
    assertion [len(genotype) == 2] of [is_indv_heterozygous] expects. *)
Lemma simplify_genotype_str_length genotype_field g :
  simplify_genotype_str genotype_field = Ok g -> length g = 2.
Proof.
  rewrite simplify_genotype_str_closed. unfold simplify_spec.
  destruct (allele_fields genotype_field) as [[|w0 [|w1 ws]]|]; try discriminate.
  destruct (existsb py_isnumeric ws); [discriminate|]. by intros [= <-].
Qed.

Lemma simplify_genotype_str_Ok genotype_field g :
  simplify_genotype_str genotype_field = Ok g ->
  exists w0 w1, g = [allele_of w0; allele_of w1].
Proof.
  rewrite simplify_genotype_str_closed. unfold simplify_spec.
  destruct (allele_fields genotype_field) as [[|w0 [|w1 ws]]|]; try discriminate.
  destruct (existsb py_isnumeric ws); [discriminate|]. intros [= <-]. eauto.
Qed.

(** ** The classifier *)

Lemma is_genotype_missing_pair (a0 a1 : allele) :
  is_genotype_missing [a0; a1] = bool_decide (a0 = None \/ a1 = None).
Proof.
  unfold is_genotype_missing. apply bool_decide_ext.
  rewrite !elem_of_cons, elem_of_nil. naive_solver.
Qed.

(** C17: on two called alleles, [is_indv_heterozygous] returns whether
    they differ. *)
Theorem is_indv_heterozygous_called (x y : N) :
  is_indv_heterozygous [Some x; Some y] = Ok (negb (N.eqb x y)).
Proof.
  unfold is_indv_heterozygous. rewrite is_genotype_missing_pair.
  rewrite bool_decide_eq_false_2 by naive_solver. simpl.
  destruct (decide (Some x = Some y)) as [E|E]; destruct (N.eqb_spec x y); simpl; congruence.
Qed.

(** C21: the assertion of [is_indv_heterozygous] fires on every
    missing genotype. *)
Theorem is_indv_heterozygous_missing (g : list allele) :
  is_genotype_missing g = true -> is_indv_heterozygous g = Raise AssertionError.
Proof. intros Hm. unfold is_indv_heterozygous. by rewrite Hm. Qed.

(** ** Tokens with two called alleles *)

Lemma is_digit_not_sep c :
  is_digit c = true -> c <> "/"%char /\ c <> "|"%char /\ c <> ":"%char.
Proof.
  intros Hd. repeat split; intros ->; vm_compute in Hd; discriminate.
Qed.

Lemma all_digits_no_sep s c :
  all_digits s = true -> c = "/"%char \/ c = "|"%char \/ c = ":"%char ->
  str_has c s = false.
Proof.
  induction s as [|x s IH]; simpl; [done|].
  intros [Hx Hs]%andb_true_iff Hc. apply orb_false_iff. split; [|by apply IH].
  apply Ascii.eqb_neq. intros ->. apply is_digit_not_sep in Hx. naive_solver.
Qed.

Lemma py_isnumeric_all_digits s : py_isnumeric s = true -> all_digits s = true.
Proof. by destruct s. Qed.

(** C22: a token ["a/b"] or ["a|b"] with decimal allele indices, followed or
    not by the other FORMAT fields, normalises to the two indices. *)
Theorem simplify_genotype_str_called (a b rest : string) (sep : ascii) :
  py_isnumeric a = true -> py_isnumeric b = true ->
  sep = "/"%char \/ sep = "|"%char ->
  rest = "" \/ (exists r, rest = String ":" r) ->
  simplify_genotype_str (a +:+ String sep (b +:+ rest)) =
  Ok [Some (digits_value a); Some (digits_value b)].
Proof.
  intros Ha Hb Hsep Hrest.
  apply py_isnumeric_all_digits in Ha as Ha', Hb as Hb'.
  assert (Hgt : default "" (head (py_split ":" (a +:+ String sep (b +:+ rest)))) =
                a +:+ String sep b).
  { destruct Hrest as [->|[r ->]].
    - rewrite str_append_nil_r. rewrite py_split_no_sep; [done|].
      rewrite str_has_app. simpl. rewrite !all_digits_no_sep by naive_solver.
      destruct Hsep as [->| ->]; done.
    - replace (a +:+ String sep (b +:+ String ":" r))
        with ((a +:+ String sep b) +:+ String ":" r)
        by (by rewrite <-str_append_assoc).
      rewrite py_split_app_sep; [done|].
      rewrite str_has_app. simpl. rewrite !all_digits_no_sep by naive_solver.
      destruct Hsep as [->| ->]; done. }
  rewrite simplify_genotype_str_closed. unfold simplify_spec, allele_fields.
  rewrite Hgt.
  assert (Hs : py_split sep (a +:+ String sep b) = [a; b]).
  { rewrite py_split_app_sep, py_split_no_sep by (apply all_digits_no_sep; naive_solver).
    done. }
  destruct Hsep as [-> | ->]; rewrite !str_has_app; simpl;
    rewrite ?(all_digits_no_sep a), ?(all_digits_no_sep b) by naive_solver; simpl;
    rewrite Hs; simpl; unfold allele_of; by rewrite Ha, Hb.
Qed.

(** C23: a genotype part with neither ['/'] nor ['|'] (a haploid call, or
    the missing call ["."] that VCF allows) reaches the loop with
    [alleles] unbound: [UnboundLocalError]. *)
Theorem simplify_genotype_str_no_sep (genotype_field : string) :
  let gt := default "" (head (py_split ":" genotype_field)) in
  str_has "/" gt = false -> str_has "|" gt = false ->
  simplify_genotype_str genotype_field = Raise UnboundLocalError.
Proof.
  intros gt Hs Hp. rewrite simplify_genotype_str_closed. unfold simplify_spec, allele_fields.
  fold gt. by rewrite Hs, Hp.
Qed.

Lemma simplify_genotype_str_no_sep_witness :
  simplify_genotype_str ".:0" = Raise UnboundLocalError.
Proof. apply simplify_genotype_str_no_sep; reflexivity. Defined.

(** A numeric third allele raises; a non-numeric one is ignored. *)
Example simplify_genotype_str_triploid :
  simplify_genotype_str "0/1/2" = Raise IndexError /\
  simplify_genotype_str "0/1/." = Ok [Some 0%N; Some 1%N].
Proof. split; reflexivity. Qed.

Lemma simplify_genotype_str_length_witness :
  simplify_genotype_str "1|0:7" = Ok [Some 1%N; Some 0%N] /\
  length [Some 1%N; Some 0%N] = 2.
Proof.
  split; [reflexivity|]. apply (simplify_genotype_str_length "1|0:7"). reflexivity.
Defined.

(** The token ["./1"] is missing and the classifier refuses it. *)
Lemma is_indv_heterozygous_missing_witness :
  simplify_genotype_str "./1" = Ok [None; Some 1%N] /\
  is_indv_heterozygous [None; Some 1%N] = Raise AssertionError.
Proof.
  split; [reflexivity|]. apply is_indv_heterozygous_missing. reflexivity.
Defined.

(** The token ["0/1:10,5:15"] normalises to its two indices. *)
Lemma simplify_genotype_str_called_witness :
  simplify_genotype_str "0/1:10,5:15" = Ok [Some 0%N; Some 1%N].
Proof.
  apply (simplify_genotype_str_called "0" "1" ":10,5:15" "/"); [done|done|by left|].
  right. by exists "10,5:15".
Defined.

End Genotype.
