(* ===== verification/HetTally.v ===== *)
(** * The tally loop of the heterozygosity calculator

    [src/calculate_idnv_obs_het.py], [process_vcf], lines 101-149: the
    six local tallies become the record [vcf_state]; one line of the
    VCF is one call of [process_line]; the loop over the file is
    [process_lines].  The inner loop [for i in range(len(samples))] is
    [foldM (tally_sample ...) (seq 0 n)] over the three per-individual
    lists, which it updates with [l[i] += 1] ([py_incr]). *)
From S2P Require Import Prelude PyStr Genotype.
From Stdlib Require Import Ascii.
Import Genotype.

Local Open Scope string_scope.

Module HetTally.

(** The per-individual lists [per_indv_sites], [per_indv_vars],
    [per_indv_hets], which the sample loop mutates in place. *)
Record indv_tallies := mk_tallies {
  per_indv_sites : list nat;
  per_indv_vars : list nat;
  per_indv_hets : list nat
}.

(** The locals of [process_vcf] that the loop over lines updates. *)
Record vcf_state := mk_vcf_state {
  total_sites : nat;
  variant_sites : nat;
  samples : list string;
  tallies : indv_tallies
}.

(** Lines 102-107. *)
Definition vcf_init : vcf_state := mk_vcf_state 0 0 [] (mk_tallies [] [] []).

(** One iteration of the sample loop, lines 140-149. *)
Definition tally_sample (variant : bool) (genos : list string)
    (t : indv_tallies) (i : nat) : result indv_tallies :=
  genotype ← py_index genos i;
  genotype ← simplify_genotype_str genotype;
  let missing := is_genotype_missing genotype in
  if missing then Ok t else (
  sites ← py_incr i (per_indv_sites t);
  if negb variant then Ok (mk_tallies sites (per_indv_vars t) (per_indv_hets t)) else (
  vars ← py_incr i (per_indv_vars t);
  heterozygous ← is_indv_heterozygous genotype;
  if (heterozygous : bool) then (
    hets ← py_incr i (per_indv_hets t);
    Ok (mk_tallies sites vars hets))
  else Ok (mk_tallies sites vars (per_indv_hets t)))).

(** The header line [#CHROM ...], lines 118-125: the samples are the
    fields from the tenth on; the per-individual lists restart at 0
    (the global counters do not). *)
Definition process_header (st : vcf_state) (line : string) : vcf_state :=
  let smp := drop 9 (py_split TAB (strip_nl line)) in
  mk_vcf_state (total_sites st) (variant_sites st) smp
    (mk_tallies (map (fun _ => 0) smp) (map (fun _ => 0) smp) (map (fun _ => 0) smp)).

(** ['.' not in {ref, alt}], line 136. *)
Definition is_variant (ref alt : string) : bool :=
  negb (String.eqb ref "." || String.eqb alt ".").

(** A data line, lines 127-149. *)
Definition process_record (st : vcf_state) (line : string) : result vcf_state :=
  let total := S (total_sites st) in
  let fields := py_split TAB (strip_nl line) in
  ref ← py_index fields 3;
  alt ← py_index fields 4;
  let genos := drop 9 fields in
  assert (Nat.eqb (length genos) (length (samples st))) ;;
  let variant := is_variant ref alt in
  let nvar := if variant then S (variant_sites st) else variant_sites st in
  t ← foldM (tally_sample variant genos) (seq 0 (length (samples st))) (tallies st);
  Ok (mk_vcf_state total nvar (samples st) t).

(** The body of [for line in infh], lines 116-149. *)
Definition process_line (st : vcf_state) (line : string) : result vcf_state :=
  if String.prefix "##" line then Ok st
  else if String.prefix "#CHROM" line then Ok (process_header st line)
  else process_record st line.

(** The whole loop over the lines of the file, lines 115-149. *)
Definition process_lines (lines : list string) : result vcf_state :=
  foldM process_line lines vcf_init.

(** ** Reference definition of the sample loop *)

Definition bump (b : bool) (n : nat) : nat := if b then S n else n.

(** Heterozygous call of a normalised genotype. *)
Definition het_ref (g : list allele) : bool :=
  match g with
  | [a0; a1] => if decide (a0 = a1) then false else true
  | _ => false
  end.

Definition counts_site (g : list allele) : bool := negb (is_genotype_missing g).
Definition counts_var (variant : bool) (g : list allele) : bool := counts_site g && variant.
Definition counts_het (variant : bool) (g : list allele) : bool :=
  counts_var variant g && het_ref g.

(** What one data line adds to every individual, given the normalised
    genotypes [gs] of the line in sample order. *)
Definition tally_ref (variant : bool) (gs : list (list allele)) (t : indv_tallies)
    : indv_tallies :=
  mk_tallies
    (zip_with (fun n g => bump (counts_site g) n) (per_indv_sites t) gs)
    (zip_with (fun n g => bump (counts_var variant g) n) (per_indv_vars t) gs)
    (zip_with (fun n g => bump (counts_het variant g) n) (per_indv_hets t) gs).

(** The lists after the first [m] iterations of the sample loop. *)
Definition upd_upto (m : nat) (sel : list allele -> bool) (gs : list (list allele))
    (l : list nat) : list nat :=
  imap (fun i n => if decide (i < m) then bump (sel (gs !!! i)) n else n) l.

Definition tally_upto (m : nat) (variant : bool) (gs : list (list allele))
    (t : indv_tallies) : indv_tallies :=
  mk_tallies (upd_upto m counts_site gs (per_indv_sites t))
    (upd_upto m (counts_var variant) gs (per_indv_vars t))
    (upd_upto m (counts_het variant) gs (per_indv_hets t)).

Definition tallies_len (n : nat) (t : indv_tallies) : Prop :=
  length (per_indv_sites t) = n /\ length (per_indv_vars t) = n /\
  length (per_indv_hets t) = n.

(** ** Lemmas on the sample loop *)

Lemma upd_upto_0 sel gs l : upd_upto 0 sel gs l = l.
Proof.
  apply list_eq. intros i. unfold upd_upto. rewrite list_lookup_imap.
  destruct (l !! i); simpl; done.
Qed.

Lemma upd_upto_step m sel gs g l :
  length gs = m ->
  upd_upto (S m) sel (gs ++ [g]) l = alter (bump (sel g)) m (upd_upto m sel gs l).
Proof.
  intros Hgs. apply list_eq. intros i. unfold upd_upto.
  destruct (decide (i = m)) as [->|Hne].
  - rewrite list_lookup_alter_eq, !list_lookup_imap.
    destruct (l !! m); simpl; [|done].
    rewrite decide_True, decide_False by lia.
    by rewrite list_lookup_total_middle.
  - rewrite list_lookup_alter_ne by done. rewrite !list_lookup_imap.
    destruct (l !! i); simpl; [|done].
    destruct (decide (i < m)).
    + rewrite decide_True by lia. by rewrite lookup_total_app_l by lia.
    + by rewrite decide_False by lia.
Qed.

Lemma upd_upto_full sel gs l :
  length gs = length l ->
  upd_upto (length l) sel gs l = zip_with (fun n g => bump (sel g) n) l gs.
Proof.
  intros Hlen. apply list_eq. intros i. unfold upd_upto.
  rewrite list_lookup_imap, lookup_zip_with.
  destruct (l !! i) as [n|] eqn:Hl; simpl; [|done].
  assert (i < length l) by (by eapply lookup_lt_Some).
  rewrite decide_True by done.
  rewrite (list_lookup_lookup_total_lt gs i) by lia. done.
Qed.

Lemma length_upd_upto m sel gs l : length (upd_upto m sel gs l) = length l.
Proof. apply length_imap. Qed.

Lemma alter_bump_false m (l : list nat) : alter (bump false) m l = l.
Proof. by apply list_alter_id. Qed.

Lemma py_incr_bump m (l : list nat) :
  m < length l -> py_incr m l = Ok (alter (bump true) m l).
Proof. intros Hm. by rewrite py_incr_lt. Qed.

(** On a genotype the normaliser produced, the assertion of
    [is_indv_heterozygous] holds whenever the code reaches it. *)
Lemma is_indv_heterozygous_het_ref x g :
  simplify_genotype_str x = Ok g -> is_genotype_missing g = false ->
  is_indv_heterozygous g = Ok (het_ref g).
Proof.
  intros Hs Hm. apply simplify_genotype_str_Ok in Hs as (w0 & w1 & ->).
  unfold is_indv_heterozygous. rewrite Hm. done.
Qed.

(** One iteration of the loop, in closed form. *)
Lemma tally_sample_step variant genos t m x :
  genos !! m = Some x -> m < length (per_indv_sites t) ->
  m < length (per_indv_vars t) -> m < length (per_indv_hets t) ->
  tally_sample variant genos t m =
  (g ← simplify_genotype_str x;
   Ok (mk_tallies (alter (bump (counts_site g)) m (per_indv_sites t))
         (alter (bump (counts_var variant g)) m (per_indv_vars t))
         (alter (bump (counts_het variant g)) m (per_indv_hets t)))).
Proof.
  intros Hx Hs Hv Hh. unfold tally_sample.
  rewrite (proj2 (py_index_Ok _ _ _) Hx), bind_Ok_l.
  destruct (simplify_genotype_str x) as [g|e] eqn:Hg; simpl; [|done].
  unfold counts_het, counts_var, counts_site.
  destruct (is_genotype_missing g) eqn:Hm; simpl.
  - by rewrite !alter_bump_false; destruct t.
  - rewrite (py_incr_bump m (per_indv_sites t)) by done. simpl.
    destruct variant; simpl.
    + rewrite (py_incr_bump m (per_indv_vars t)) by done. simpl.
      rewrite (is_indv_heterozygous_het_ref x g) by done. simpl.
      destruct (het_ref g); simpl.
      * by rewrite (py_incr_bump m (per_indv_hets t)) by done.
      * by rewrite alter_bump_false.
    + by rewrite !alter_bump_false.
Qed.

Lemma tally_upto_0 variant gs t : tally_upto 0 variant gs t = t.
Proof. unfold tally_upto. rewrite !upd_upto_0. by destruct t. Qed.


(** The first [m] iterations normalise the first [m] genotypes and
    update the first [m] slots. *)
Lemma tally_loop_upto variant genos t m :
  m <= length genos -> tallies_len (length genos) t ->
  foldM (tally_sample variant genos) (seq 0 m) t =
  (gs ← mapM simplify_genotype_str (take m genos); Ok (tally_upto m variant gs t)).
Proof.
  intros Hm Ht. induction m as [|m IH]; [simpl; by rewrite tally_upto_0|].
  destruct (lookup_lt_is_Some_2 genos m) as [x Hx]; [lia|].
  rewrite seq_S, foldM_app, IH by lia. rewrite (take_S_r _ _ x Hx), mapM_app.
  destruct (mapM simplify_genotype_str (take m genos)) as [gs|e] eqn:Hgs; simpl; [|done].
  pose proof (mapM_length _ _ _ Hgs) as Hlen. rewrite length_take in Hlen.
  destruct Ht as (Hs & Hv & Hh).
  rewrite (tally_sample_step _ _ _ _ x) by first [done | simpl; rewrite ?length_upd_upto; lia].
  destruct (simplify_genotype_str x) as [g|e]; simpl; [|done].
  unfold tally_upto. simpl. rewrite !upd_upto_step by lia. done.
Qed.

(** The sample loop against the reference update (used by the closed form of a data line). *)
Lemma tally_loop_zip variant genos t :
  tallies_len (length genos) t ->
  foldM (tally_sample variant genos) (seq 0 (length genos)) t =
  (gs ← mapM simplify_genotype_str genos; Ok (tally_ref variant gs t)).
Proof.
  intros Ht. rewrite tally_loop_upto by done. rewrite take_ge by done.
  destruct (mapM simplify_genotype_str genos) as [gs|e] eqn:Hgs; simpl; [|done].
  apply mapM_length in Hgs. destruct Ht as (Hs & Hv & Hh).
  unfold tally_upto, tally_ref. f_equal. f_equal.
  - rewrite <-Hs. apply upd_upto_full. lia.
  - rewrite <-Hv. apply upd_upto_full. lia.
  - rewrite <-Hh. apply upd_upto_full. lia.
Qed.

(** C2: the index loop over the samples of one line computes the
    reference [tally_ref] of the normalised genotypes, or raises the
    exception of the first genotype the normaliser rejects. *)
Theorem tally_loop_ref variant genos t :
  tallies_len (length genos) t ->
  foldM (tally_sample variant genos) (seq 0 (length genos)) t =
  (gs ← mapM simplify_genotype_str genos; Ok (tally_ref variant gs t)).
Proof. apply tally_loop_zip. Qed.

(** ** A data line in closed form *)

Definition line_fields (line : string) : list string := py_split TAB (strip_nl line).

(** What [process_record] does to a state whose lists have one slot per
    sample: [IndexError] on fewer than five fields, [AssertionError]
    when the genotype count differs from the sample count, the first
    exception of the normaliser, or the reference update. *)
Definition record_spec (st : vcf_state) (line : string) : result vcf_state :=
  let fields := line_fields line in
  match fields !! 3, fields !! 4 with
  | Some ref, Some alt =>
      let genos := drop 9 fields in
      let variant := is_variant ref alt in
      if Nat.eqb (length genos) (length (samples st)) then
        gs ← mapM simplify_genotype_str genos;
        Ok (mk_vcf_state (S (total_sites st)) (bump variant (variant_sites st))
              (samples st) (tally_ref variant gs (tallies st)))
      else Raise AssertionError
  | _, _ => Raise IndexError
  end.

(** Closed form of a data line (used by the invariant). *)
Lemma process_record_closed st line :
  tallies_len (length (samples st)) (tallies st) ->
  process_record st line = record_spec st line.
Proof.
  intros Ht. unfold process_record, record_spec. fold (line_fields line).
  unfold py_index. destruct (line_fields line !! 3) as [ref|]; simpl; [|done].
  destruct (line_fields line !! 4) as [alt|]; simpl; [|done].
  unfold py_assert. destruct (Nat.eqb_spec (length (drop 9 (line_fields line)))
    (length (samples st))) as [Hlen|]; simpl; [|done].
  rewrite <-Hlen. rewrite tally_loop_zip by (by rewrite Hlen).
  by destruct (mapM simplify_genotype_str _).
Qed.

(** C5: [process_record] computes [record_spec] on every line, once the
    per-individual lists have one slot per sample. *)
Theorem process_record_spec st line :
  tallies_len (length (samples st)) (tallies st) ->
  process_record st line = record_spec st line.
Proof. apply process_record_closed. Qed.

(** ** The invariant of the tallies *)

(** The lists have one slot per sample, and for every individual
    hets <= vars <= sites <= total_sites and vars <= variant_sites. *)
Definition vcf_wf (st : vcf_state) : Prop :=
  tallies_len (length (samples st)) (tallies st) /\
  variant_sites st <= total_sites st /\
  forall i s v h,
    per_indv_sites (tallies st) !! i = Some s ->
    per_indv_vars (tallies st) !! i = Some v ->
    per_indv_hets (tallies st) !! i = Some h ->
    h <= v /\ v <= s /\ s <= total_sites st /\ v <= variant_sites st.

Lemma bump_mono (b1 b2 : bool) m n :
  m <= n -> (b1 = true -> b2 = true) -> bump b1 m <= bump b2 n.
Proof. unfold bump. destruct b1, b2; intuition (try discriminate); lia. Qed.

Lemma bump_le_S b m n : m <= n -> bump b m <= S n.
Proof. unfold bump. destruct b; lia. Qed.

Lemma vcf_init_wf : vcf_wf vcf_init.
Proof. split; [done|]. split; [simpl; lia|]. simpl. intros i s v h H. done. Qed.

Lemma lookup_zeros (l : list string) i n :
  map (fun _ => 0) l !! i = Some n -> n = 0.
Proof. rewrite list_lookup_fmap. by destruct (l !! i); intros [=]. Qed.

Lemma process_header_wf st line : vcf_wf st -> vcf_wf (process_header st line).
Proof.
  intros (_ & Hvt & _). unfold process_header, vcf_wf, tallies_len; simpl.
  rewrite !length_map. split_and!; [done..|].
  intros i s v h Hs Hv Hh.
  apply lookup_zeros in Hs, Hv, Hh. subst. lia.
Qed.

Lemma tally_ref_len variant gs t n :
  tallies_len n t -> length gs = n -> tallies_len n (tally_ref variant gs t).
Proof.
  intros (Hs & Hv & Hh) Hgs. unfold tally_ref, tallies_len; simpl.
  rewrite !length_zip_with. lia.
Qed.

(** The reference update keeps the per-individual order of the counters. *)
Lemma tally_ref_wf st variant gs :
  vcf_wf st -> length gs = length (samples st) ->
  vcf_wf (mk_vcf_state (S (total_sites st)) (bump variant (variant_sites st))
            (samples st) (tally_ref variant gs (tallies st))).
Proof.
  intros (Ht & Hvt & Hpt) Hgs. split; [by apply tally_ref_len|].
  split; [simpl; by apply bump_le_S|].
  intros i s v h. simpl. rewrite !lookup_zip_with_Some.
  intros (s0 & g & -> & Hs & Hg) (v0 & g' & -> & Hv & Hg') (h0 & g'' & -> & Hh & Hg'').
  simplify_eq. destruct (Hpt i s0 v0 h0 Hs Hv Hh) as (H1 & H2 & H3 & H4).
  unfold counts_het, counts_var.
  split_and!.
  - apply bump_mono; [done|]. by intros [? _]%andb_true_iff.
  - apply bump_mono; [done|]. by intros [? _]%andb_true_iff.
  - by apply bump_le_S.
  - apply bump_mono; [done|]. by intros [_ ?]%andb_true_iff.
Qed.

Lemma process_record_wf st line st' :
  vcf_wf st -> process_record st line = Ok st' -> vcf_wf st'.
Proof.
  intros Hwf. rewrite process_record_closed by apply Hwf. unfold record_spec.
  destruct (line_fields line !! 3), (line_fields line !! 4); try discriminate.
  destruct (Nat.eqb_spec (length (drop 9 (line_fields line))) (length (samples st)))
    as [Hlen|]; [|discriminate].
  intros H. inv_res. subst. apply tally_ref_wf; [done|].
  apply mapM_length in H. lia.
Qed.

Lemma process_line_wf st line st' :
  vcf_wf st -> process_line st line = Ok st' -> vcf_wf st'.
Proof.
  unfold process_line. intros Hwf.
  destruct (String.prefix "##" line); [by intros [= <-]|].
  destruct (String.prefix "#CHROM" line); [intros [= <-]; by apply process_header_wf|].
  by apply process_record_wf.
Qed.

Lemma process_lines_inv lines st :
  process_lines lines = Ok st -> vcf_wf st.
Proof.
  unfold process_lines. apply foldM_inv; [|apply vcf_init_wf].
  intros s0 x s1 H _. by apply process_line_wf.
Qed.

(** C1: after any prefix of a VCF file that the calculator reads without
    raising, every individual has hets <= vars <= sites <= total_sites
    and vars <= variant_sites <= total_sites, with one counter per
    sample. *)
Theorem process_lines_wf lines st :
  process_lines lines = Ok st -> vcf_wf st.
Proof. apply process_lines_inv. Qed.

(** ** Counting the sites *)

(** A line that is neither metadata ([##]) nor the header ([#CHROM]). *)
Definition is_data_line (line : string) : bool :=
  negb (String.prefix "##" line) && negb (String.prefix "#CHROM" line).

Definition line_is_variant (line : string) : bool :=
  match line_fields line !! 3, line_fields line !! 4 with
  | Some ref, Some alt => is_variant ref alt
  | _, _ => false
  end.

Lemma process_record_counts st line st' :
  process_record st line = Ok st' ->
  total_sites st' = S (total_sites st) /\
  variant_sites st' = bump (line_is_variant line) (variant_sites st).
Proof.
  unfold process_record, line_is_variant. fold (line_fields line). intros H. inv_res.
  apply py_index_Ok in H, H0. rewrite H, H0. by subst.
Qed.

Lemma process_line_counts st line st' :
  process_line st line = Ok st' ->
  total_sites st' = total_sites st + (if is_data_line line then 1 else 0) /\
  variant_sites st' = variant_sites st +
    (if is_data_line line && line_is_variant line then 1 else 0).
Proof.
  unfold process_line, is_data_line.
  destruct (String.prefix "##" line); simpl; [intros [= <-]; lia|].
  destruct (String.prefix "#CHROM" line); simpl; [intros [= <-]; simpl; lia|].
  intros (-> & ->)%process_record_counts. unfold bump.
  destruct (line_is_variant line); lia.
Qed.

(** C7: when the calculator reads a file without raising, [total_sites]
    is the number of data lines and [variant_sites] the number of data
    lines whose REF and ALT are both not ["."]. *)
Theorem process_lines_counts lines st :
  process_lines lines = Ok st ->
  total_sites st = length (List.filter is_data_line lines) /\
  variant_sites st =
    length (List.filter (fun l => is_data_line l && line_is_variant l) lines).
Proof.
  unfold process_lines. intros H. split.
  - apply (foldM_count total_sites is_data_line) in H; [done|].
    intros ? ? ? Hs. apply (process_line_counts _ _ _ Hs).
  - apply (foldM_count variant_sites (fun l => is_data_line l && line_is_variant l)) in H;
      [done|].
    intros ? ? ? Hs. apply (process_line_counts _ _ _ Hs).
Qed.

(** ** A small VCF: three samples, two variant and two invariant sites *)

Definition tab_join (ws : list string) : string := py_join TAB ws.

Definition toy_vcf : list string := [
  "##fileformat=VCFv4.2";
  tab_join ["#CHROM"; "POS"; "ID"; "REF"; "ALT"; "QUAL"; "FILTER"; "INFO"; "FORMAT";
            "S1"; "S2"; "S3"];
  tab_join ["1"; "10"; "."; "A"; "G"; "."; "PASS"; "."; "GT:DP"; "0/1:3"; "1/1:5"; "./.:0"];
  tab_join ["1"; "20"; "."; "A"; "."; "."; "PASS"; "."; "GT"; "0/0"; "0/0"; "0/0"];
  tab_join ["1"; "30"; "."; "C"; "T"; "."; "PASS"; "."; "GT"; "0|1"; "./1"; "0/0"];
  tab_join ["1"; "40"; "."; "T"; "."; "."; "PASS"; "."; "GT"; "0/0"; "./."; "0/0"]].

(** The counts of the toy file, computed by hand: S1 is genotyped at the
    four sites, two of them variant and both heterozygous, and so on. *)
Example toy_vcf_tallies :
  process_lines toy_vcf =
  Ok (mk_vcf_state 4 2 ["S1"; "S2"; "S3"] (mk_tallies [4; 2; 3] [2; 1; 1] [2; 0; 0])).
Proof. vm_compute. reflexivity. Qed.

(** A comment line that is neither [##] nor [#CHROM] is read as a data
    line: its single field raises [IndexError] at [fields[3]]. *)
Example process_line_comment :
  process_line vcf_init "#a comment" = Raise IndexError.
Proof. reflexivity. Qed.

Lemma process_lines_wf_witness :
  exists st, process_lines toy_vcf = Ok st /\ vcf_wf st.
Proof.
  eexists. split; [vm_compute; reflexivity|].
  apply (process_lines_wf toy_vcf). vm_compute. reflexivity.
Defined.

Lemma process_lines_counts_witness :
  exists st, process_lines toy_vcf = Ok st /\ total_sites st = 4 /\ variant_sites st = 2.
Proof.
  eexists. split; [vm_compute; reflexivity|].
  apply (process_lines_counts toy_vcf). vm_compute. reflexivity.
Defined.

Definition toy_state : vcf_state :=
  mk_vcf_state 0 0 ["S1"; "S2"; "S3"] (mk_tallies [0; 0; 0] [0; 0; 0] [0; 0; 0]).

Lemma process_record_spec_witness :
  process_record toy_state (toy_vcf !!! 2) = record_spec toy_state (toy_vcf !!! 2).
Proof. apply process_record_spec. split_and!; reflexivity. Defined.

Lemma tally_loop_ref_witness :
  foldM (tally_sample true ["0/1"; "1/1"; "./."]) (seq 0 3) (tallies toy_state) =
  Ok (mk_tallies [1; 1; 0] [1; 1; 0] [1; 0; 0]).
Proof.
  rewrite (tally_loop_ref true ["0/1"; "1/1"; "./."]) by (split_and!; reflexivity).
  vm_compute. reflexivity.
Defined.

End HetTally.
