(* ===== verification/HetReport.v ===== *)
(** * The report of the calculator

    [src/calculate_idnv_obs_het.py], [process_vcf] lines 152-178: after
    the loop over the lines, one table row per sample with its two
    proportions (lines 160-168), then the percentage of variant sites
    and the mean, median and standard deviation of the per-individual
    heterozygous counts (lines 170-178).  Python's [/] on two ints and
    the three functions of [statistics] are modelled by their exact
    rational values with the exceptions they raise; the rounding to a
    double and the [.08f] / [.03f] formatting are not modelled.  The
    standard deviation is kept as its square, the sample variance, whose
    square root [statistics.stdev] prints. *)
From S2P Require Import Prelude PyNum HetTally.
From stdpp Require Import sorting.
From Stdlib Require Import QArith Qround Qpower Lqa.
Import HetTally.

Local Close Scope Q_scope.

Module HetReport.

(** ** Python arithmetic and [statistics] on ints *)

(** [a / b] on two ints: [ZeroDivisionError] when [b == 0]. *)
Definition py_div (a b : nat) : result Q :=
  if Nat.eqb b 0 then Raise ZeroDivisionError
  else Ok (Qred (Z.of_nat a # Pos.of_nat b)).

Definition sum_Q (xs : list nat) : Q := inject_Z (Z.of_nat (sum_list xs)).

(** [statistics.mean]: [StatisticsError] on no data. *)
Definition stat_mean (xs : list nat) : result Q :=
  match xs with
  | [] => Raise StatisticsError
  | _ => py_div (sum_list xs) (length xs)
  end.

(** [statistics.median]: the middle of the sorted data, or the mean of
    the two middle values for an even count. *)
Definition stat_median (xs : list nat) : result Q :=
  let data := merge_sort Nat.le xs in
  let n := length data in
  if Nat.eqb n 0 then Raise StatisticsError
  else if Nat.odd n then Ok (inject_Z (Z.of_nat (data !!! (n / 2))))
  else
    let lo := inject_Z (Z.of_nat (data !!! (n / 2 - 1))) in
    let hi := inject_Z (Z.of_nat (data !!! (n / 2))) in
    Ok (Qred ((lo + hi) / 2)%Q).

(** [statistics.variance], the square of [statistics.stdev]:
    [StatisticsError] below two data points. *)
Definition stat_variance (xs : list nat) : result Q :=
  let n := length xs in
  if Nat.ltb n 2 then Raise StatisticsError else
  let m := Qred (sum_Q xs / inject_Z (Z.of_nat n)) in
  Ok (Qred (fold_right (fun x acc => (inject_Z (Z.of_nat x) - m) ^ 2 + acc)%Q 0%Q xs
            / inject_Z (Z.of_nat (n - 1)))).

(** ** The table, lines 160-168 *)

(** The values of one row, in the order of its columns. *)
Record het_row := mk_row {
  row_sample : string;
  row_total_sites : nat;
  row_variant_sites : nat;
  row_indv_sites : nat;
  row_indv_vars : nat;
  row_indv_hets : nat;
  row_prop_hets_total : Q;
  row_prop_hets_vars : Q
}.

(** One iteration of the row loop, lines 161-167. *)
Definition indv_row (st : vcf_state) (i : nat) : result het_row :=
  sample ← py_index (samples st) i;
  indv_total_sites ← py_index (per_indv_sites (tallies st)) i;
  indv_var_sites ← py_index (per_indv_vars (tallies st)) i;
  indv_hets ← py_index (per_indv_hets (tallies st)) i;
  prop_hets_total ← py_div indv_hets indv_total_sites;
  prop_hets_vars ← py_div indv_hets indv_var_sites;
  Ok (mk_row sample (total_sites st) (variant_sites st) indv_total_sites
         indv_var_sites indv_hets prop_hets_total prop_hets_vars).

(** The loop: the rows written before the first exception, and that
    exception if one stops it. *)
Fixpoint table_loop (st : vcf_state) (idx : list nat) : list het_row * option exc :=
  match idx with
  | [] => ([], None)
  | i :: idx' =>
      match indv_row st i with
      | Ok r => let '(rows, e) := table_loop st idx' in (r :: rows, e)
      | Raise e => ([], Some e)
      end
  end.

Definition write_table (st : vcf_state) : list het_row * option exc :=
  table_loop st (seq 0 (length (samples st))).

(** ** The summary, lines 170-178 *)

Record het_summary := mk_summary {
  prop_variant : Q;
  mean_hets : Q;
  median_hets : Q;
  variance_hets : Q
}.

Definition report_summary (st : vcf_state) : result het_summary :=
  prop ← py_div (variant_sites st) (total_sites st);
  m ← stat_mean (per_indv_hets (tallies st));
  md ← stat_median (per_indv_hets (tallies st));
  sd ← stat_variance (per_indv_hets (tallies st));
  Ok (mk_summary prop m md sd).

(** Lines 152-178: the rows written, and how the function ends. *)
Definition process_report (st : vcf_state) : list het_row * result het_summary :=
  let '(rows, e) := write_table st in
  (rows, match e with Some e => Raise e | None => report_summary st end).

(** [process_vcf] on the lines of the file: an exception of the loop
    stops it before the output file is opened. *)
Definition process_vcf (lines : list string) : list het_row * result het_summary :=
  match process_lines lines with
  | Ok st => process_report st
  | Raise e => ([], Raise e)
  end.

(** ** What a row holds *)

(** Row [r] is the row of sample [i]: its counts are the tallies of [i]
    and its two proportions the quotients of its counts. *)
Definition row_ok (st : vcf_state) (i : nat) (r : het_row) : Prop :=
  samples st !! i = Some (row_sample r) /\
  per_indv_sites (tallies st) !! i = Some (row_indv_sites r) /\
  per_indv_vars (tallies st) !! i = Some (row_indv_vars r) /\
  per_indv_hets (tallies st) !! i = Some (row_indv_hets r) /\
  row_total_sites r = total_sites st /\ row_variant_sites r = variant_sites st /\
  0 < row_indv_vars r /\
  (row_prop_hets_total r * inject_Z (Z.of_nat (row_indv_sites r))
     == inject_Z (Z.of_nat (row_indv_hets r)))%Q /\
  (row_prop_hets_vars r * inject_Z (Z.of_nat (row_indv_vars r))
     == inject_Z (Z.of_nat (row_indv_hets r)))%Q.

(** ** Lemmas *)

Lemma pos_of_nat_Z (n : nat) : n <> 0 -> Z.pos (Pos.of_nat n) = Z.of_nat n.
Proof. intros Hn. by rewrite <-positive_nat_Z, Nat2Pos.id. Qed.

Lemma py_div_Ok a b q :
  py_div a b = Ok q -> b <> 0 /\ (q * inject_Z (Z.of_nat b) == inject_Z (Z.of_nat a))%Q.
Proof.
  unfold py_div. destruct (Nat.eqb_spec b 0) as [|Hb]; [done|]. intros [= <-].
  split; [done|]. rewrite Qred_correct. unfold Qeq, Qmult. cbn [Qnum Qden inject_Z].
  rewrite Pos.mul_1_r, (pos_of_nat_Z b Hb). lia.
Qed.

Lemma py_div_nonzero a b : b <> 0 -> exists q, py_div a b = Ok q.
Proof. unfold py_div. destruct (Nat.eqb_spec b 0); [done|]. by eexists. Qed.

Lemma wf_lookups st i :
  vcf_wf st -> i < length (samples st) ->
  exists x s v h, samples st !! i = Some x /\ per_indv_sites (tallies st) !! i = Some s /\
    per_indv_vars (tallies st) !! i = Some v /\ per_indv_hets (tallies st) !! i = Some h /\
    h <= v <= s.
Proof.
  intros (Hlen & _ & Hc) Hi. destruct Hlen as (Hs & Hv & Hh).
  destruct (lookup_lt_is_Some_2 (samples st) i) as [x Hx]; [done|].
  destruct (lookup_lt_is_Some_2 (per_indv_sites (tallies st)) i) as [s' Hs']; [lia|].
  destruct (lookup_lt_is_Some_2 (per_indv_vars (tallies st)) i) as [v Hv']; [lia|].
  destruct (lookup_lt_is_Some_2 (per_indv_hets (tallies st)) i) as [h Hh']; [lia|].
  destruct (Hc _ _ _ _ Hs' Hv' Hh') as (? & ? & _). exists x, s', v, h. split_and!; done || lia.
Qed.

Lemma indv_row_Ok st i r : vcf_wf st -> indv_row st i = Ok r -> row_ok st i r.
Proof.
  intros (_ & _ & Hc) H. unfold indv_row, py_index in H.
  destruct (samples st !! i) as [x|] eqn:Hx; [|done].
  destruct (per_indv_sites (tallies st) !! i) as [s'|] eqn:Hs; [|done].
  destruct (per_indv_vars (tallies st) !! i) as [v|] eqn:Hv; [|done].
  destruct (per_indv_hets (tallies st) !! i) as [h|] eqn:Hh; [|done].
  simpl in H. inv_res. subst r.
  apply py_div_Ok in H as [_ Ht]. apply py_div_Ok in H0 as [Hv0 Hvq].
  unfold row_ok; simpl. split_and!; done || lia.
Qed.

Lemma indv_row_zero st i :
  vcf_wf st -> i < length (samples st) -> per_indv_vars (tallies st) !! i = Some 0 ->
  indv_row st i = Raise ZeroDivisionError.
Proof.
  intros Hwf Hi Hv0. destruct (wf_lookups st i Hwf Hi) as (x & s' & v & h & Hx & Hs & Hv & Hh & Hle).
  rewrite Hv0 in Hv. injection Hv as <-.
  unfold indv_row, py_index. rewrite Hx, Hs, Hv0, Hh. simpl.
  unfold py_div. destruct (Nat.eqb s' 0); done.
Qed.

Lemma indv_row_pos st i v :
  vcf_wf st -> i < length (samples st) -> per_indv_vars (tallies st) !! i = Some v -> v <> 0 ->
  exists r, indv_row st i = Ok r /\ row_ok st i r.
Proof.
  intros Hwf Hi Hv0 Hnz. destruct (wf_lookups st i Hwf Hi) as (x & s' & v' & h & Hx & Hs & Hv & Hh & Hle).
  rewrite Hv0 in Hv. injection Hv as <-.
  destruct (py_div_nonzero h s') as [q1 Hq1]; [lia|].
  destruct (py_div_nonzero h v) as [q2 Hq2]; [lia|].
  assert (Hr : indv_row st i = Ok (mk_row x (total_sites st) (variant_sites st) s' v h q1 q2)).
  { unfold indv_row, py_index. rewrite Hx, Hs, Hv0, Hh. simpl. by rewrite Hq1, Hq2. }
  eexists. split; [exact Hr|]. by apply indv_row_Ok.
Qed.

Section Loop.
Variable st : vcf_state.
Hypothesis Hwf : vcf_wf st.

(** No sample from [a] to [a + n] has zero variant sites: the [n] rows
    are written and the loop ends normally. *)
Lemma table_loop_full a n :
  a + n <= length (samples st) ->
  (forall j v, a <= j < a + n -> per_indv_vars (tallies st) !! j = Some v -> v <> 0) ->
  exists rows, table_loop st (seq a n) = (rows, None) /\ length rows = n /\
    forall j r, rows !! j = Some r -> row_ok st (a + j) r.
Proof.
  revert a. induction n as [|n IH]; intros a Hlen Hnz; [by exists []|].
  destruct (wf_lookups st a Hwf) as (_ & _ & v & _ & _ & _ & Hv & _); [lia|].
  destruct (indv_row_pos st a v Hwf) as (r & Hr & Hok); [lia|done|apply (Hnz a); [lia|done]|].
  destruct (IH (S a)) as (rows & Hl & Hn & Hrows); [lia|intros; apply (Hnz j); auto; lia|].
  exists (r :: rows). simpl. rewrite Hr, Hl. split_and!; [done|by f_equal|].
  intros [|j] r'; simpl; [intros [= <-]; by rewrite Nat.add_0_r|].
  intros Hj. rewrite <-Nat.add_succ_comm. by apply Hrows.
Qed.

(** Sample [i] is the first from [a] with zero variant sites: the rows
    of the samples before it are written, then [ZeroDivisionError]. *)
Lemma table_loop_stop a n i :
  a <= i < a + n -> a + n <= length (samples st) ->
  per_indv_vars (tallies st) !! i = Some 0 ->
  (forall j v, a <= j < i -> per_indv_vars (tallies st) !! j = Some v -> v <> 0) ->
  exists rows, table_loop st (seq a n) = (rows, Some ZeroDivisionError) /\
    length rows = i - a /\ forall j r, rows !! j = Some r -> row_ok st (a + j) r.
Proof.
  revert a. induction n as [|n IH]; intros a Hi Hlen Hv0 Hnz; [lia|]. simpl.
  destruct (decide (a = i)) as [->|Hai].
  - rewrite (indv_row_zero st i Hwf) by (done || lia). exists []. split_and!; [done|simpl; lia|intros ? ? Hj; by rewrite lookup_nil in Hj].
  - destruct (wf_lookups st a Hwf) as (_ & _ & v & _ & _ & _ & Hv & _); [lia|].
    destruct (indv_row_pos st a v Hwf) as (r & Hr & Hok); [lia|done|apply (Hnz a); auto; lia|].
    destruct (IH (S a)) as (rows & Hl & Hn & Hrows); [lia|lia|done|intros; apply (Hnz j); auto; lia|].
    rewrite Hr, Hl. exists (r :: rows). split_and!; [done|simpl; lia|].
    intros [|j] r'; simpl; [intros [= <-]; by rewrite Nat.add_0_r|].
    intros Hj. rewrite <-Nat.add_succ_comm. by apply Hrows.
Qed.

(** Every row written is the row of its sample. *)
Lemma table_loop_rows idx rows e :
  table_loop st idx = (rows, e) -> forall r, r ∈ rows -> exists i, row_ok st i r.
Proof.
  revert rows e. induction idx as [|i idx IH]; simpl; intros rows e Hl r Hr.
  - injection Hl as <- _. by apply elem_of_nil in Hr.
  - destruct (indv_row st i) as [r0|e0] eqn:Hi; [|injection Hl as <- _; by apply elem_of_nil in Hr].
    destruct (table_loop st idx) as [rows' e'] eqn:Ht. injection Hl as <- _.
    apply elem_of_cons in Hr as [->|Hr]; [exists i; by apply indv_row_Ok|].
    by apply (IH rows' e').
Qed.

End Loop.

(** The two proportions of a row lie in [[0, 1]] and the one over the
    individual's variant sites is the larger. *)
Lemma row_ok_bounds st i r :
  vcf_wf st -> row_ok st i r ->
  (0 <= row_prop_hets_total r <= row_prop_hets_vars r /\ row_prop_hets_vars r <= 1)%Q.
Proof.
  intros (_ & _ & Hc) (_ & Hs & Hv & Hh & _ & _ & Hv0 & Ht & Hvq).
  destruct (Hc _ _ _ _ Hs Hv Hh) as (Hhv & Hvs & _).
  destruct r as [x t vt s' v h pt pv]; simpl in *.
  assert (Hpt : (pt == inject_Z (Z.of_nat h) / inject_Z (Z.of_nat s'))%Q).
  { rewrite <-Ht. field. intros Hq. apply Qeq_alt in Hq. unfold Qcompare in Hq. simpl in Hq.
    apply Z.compare_eq in Hq. lia. }
  assert (Hpv : (pv == inject_Z (Z.of_nat h) / inject_Z (Z.of_nat v))%Q).
  { rewrite <-Hvq. field. intros Hq. apply Qeq_alt in Hq. unfold Qcompare in Hq. simpl in Hq.
    apply Z.compare_eq in Hq. lia. }
  rewrite Hpt, Hpv. unfold Qle, Qdiv, Qmult, Qinv. simpl.
  destruct (Z.of_nat s') eqn:Es; [lia| |lia]. destruct (Z.of_nat v) eqn:Ev; [lia| |lia].
  simpl. split_and!; nia.
Qed.

Lemma sq_sum_nonneg (m : Q) (xs : list nat) :
  (0 <= fold_right (fun x acc => (inject_Z (Z.of_nat x) - m) ^ 2 + acc) 0 xs)%Q.
Proof.
  induction xs as [|x xs IH]; cbn [fold_right]; [lra|].
  pose proof (Qsqr_nonneg (inject_Z (Z.of_nat x) - m)).
  revert IH H. generalize ((inject_Z (Z.of_nat x) - m) ^ 2)%Q. intros. lra.
Qed.

Lemma stat_mean_Ok xs : xs <> [] ->
  exists q, stat_mean xs = Ok q /\
    (q * inject_Z (Z.of_nat (length xs)) == inject_Z (Z.of_nat (sum_list xs)))%Q.
Proof.
  intros Hne. destruct (py_div_nonzero (sum_list xs) (length xs)) as [q Hq]; [by destruct xs|].
  exists q. split; [by destruct xs|]. by apply py_div_Ok in Hq as [_ ?].
Qed.

Lemma stat_median_Ok xs : xs <> [] -> exists q, stat_median xs = Ok q.
Proof.
  intros Hne. unfold stat_median. cbv zeta.
  rewrite (Permutation_length (merge_sort_Permutation Nat.le xs)).
  destruct (Nat.eqb_spec (length xs) 0) as [Hl|]; [by destruct xs|].
  destruct (Nat.odd _); by eexists.
Qed.

Lemma stat_variance_Ok xs : 2 <= length xs -> exists q, stat_variance xs = Ok q /\ (0 <= q)%Q.
Proof.
  intros Hl. unfold stat_variance. destruct (Nat.ltb_spec (length xs) 2); [lia|].
  eexists. split; [done|]. rewrite Qred_correct.
  apply Qle_shift_div_l; [|rewrite Qmult_0_l; apply sq_sum_nonneg].
  unfold Qlt. simpl. lia.
Qed.

Lemma vars_lookup_lt st i v :
  vcf_wf st -> per_indv_vars (tallies st) !! i = Some v -> i < length (samples st).
Proof. intros ((_ & Hv & _) & _) Hi. apply lookup_lt_Some in Hi. lia. Qed.

(** ** Which exceptions the report can raise *)

Lemma py_div_Raise a b e : py_div a b = Raise e -> e = ZeroDivisionError.
Proof. unfold py_div. by destruct (Nat.eqb b 0); intros [=]. Qed.

Lemma indv_row_Raise st i e :
  vcf_wf st -> i < length (samples st) -> indv_row st i = Raise e -> e = ZeroDivisionError.
Proof.
  intros Hwf Hi. destruct (wf_lookups st i Hwf Hi) as (x & s' & v & h & Hx & Hs & Hv & Hh & _).
  unfold indv_row, py_index. rewrite Hx, Hs, Hv, Hh. simpl.
  destruct (py_div h s') eqn:E1; simpl; [|intros [= <-]; by eapply py_div_Raise].
  destruct (py_div h v) eqn:E2; simpl; [done|intros [= <-]; by eapply py_div_Raise].
Qed.

(** On a well-formed state the table stops only on a division by zero. *)
Lemma write_table_Raise st rows e :
  vcf_wf st -> write_table st = (rows, Some e) -> e = ZeroDivisionError.
Proof.
  intros Hwf. unfold write_table.
  assert (Hidx : forall i, i ∈ seq 0 (length (samples st)) -> i < length (samples st)).
  { intros i Hi. apply elem_of_seq in Hi. lia. }
  revert rows Hidx. generalize (seq 0 (length (samples st))) as idx.
  induction idx as [|i idx IH]; intros rows Hidx; simpl; [done|].
  destruct (indv_row st i) eqn:Hi.
  - destruct (table_loop st idx) as [rows' e'] eqn:Ht. intros [= _ ->].
    apply (IH rows'); [set_solver|done].
  - intros [= _ <-]. eapply indv_row_Raise; [done| |done]. apply Hidx. set_solver.
Qed.

Lemma stat_mean_Raise xs e : stat_mean xs = Raise e -> e = ZeroDivisionError \/ e = StatisticsError.
Proof. unfold stat_mean. destruct xs; [intros [= <-]; by right|]. intros H. left. by eapply py_div_Raise. Qed.

Lemma stat_median_Raise xs e : stat_median xs = Raise e -> e = StatisticsError.
Proof. unfold stat_median. cbv zeta. destruct (Nat.eqb _ 0); [by intros [=]|]. by destruct (Nat.odd _). Qed.

Lemma stat_variance_Raise xs e : stat_variance xs = Raise e -> e = StatisticsError.
Proof. unfold stat_variance. cbv zeta. by destruct (Nat.ltb _ 2); intros [=]. Qed.

(** The summary raises only a division by zero or [StatisticsError]. *)
Lemma report_summary_Raise st e :
  report_summary st = Raise e -> e = ZeroDivisionError \/ e = StatisticsError.
Proof.
  unfold report_summary.
  destruct (py_div _ _) eqn:E; simpl; [|intros [= <-]; left; by eapply py_div_Raise].
  destruct (stat_mean _) eqn:E1; simpl; [|intros [= <-]; by eapply stat_mean_Raise].
  destruct (stat_median _) eqn:E2; simpl; [|intros [= <-]; right; by eapply stat_median_Raise].
  destruct (stat_variance _) eqn:E3; simpl; [done|intros [= <-]; right; by eapply stat_variance_Raise].
Qed.

(** ** The report *)

(** C12: when no individual has zero called genotypes at variant sites,
    [process_vcf] writes one row per sample, in header order, each with
    the sample's counts and the two quotients [hets/sites] and
    [hets/vars], and then ends as the summary does. *)
Theorem process_vcf_table lines st :
  process_lines lines = Ok st ->
  (forall i v, per_indv_vars (tallies st) !! i = Some v -> v <> 0) ->
  exists rows, process_vcf lines = (rows, report_summary st) /\
    length rows = length (samples st) /\
    forall i r, rows !! i = Some r -> row_ok st i r.
Proof.
  intros Hl Hnz. pose proof (process_lines_inv _ _ Hl) as Hwf.
  destruct (table_loop_full st Hwf 0 (length (samples st))) as (rows & Ht & Hn & Hrows);
    [lia|intros j v _; apply Hnz|].
  exists rows. unfold process_vcf, process_report, write_table. by rewrite Hl, Ht.
Qed.

(** C13: the table is not guarded against division by zero.  If sample
    [i] is the first with no called genotype at a variant site,
    [process_vcf] writes the rows of the [i] samples before it and
    raises [ZeroDivisionError]: no summary is printed. *)
Theorem process_vcf_zero_division lines st i :
  process_lines lines = Ok st ->
  per_indv_vars (tallies st) !! i = Some 0 ->
  (forall j v, j < i -> per_indv_vars (tallies st) !! j = Some v -> v <> 0) ->
  exists rows, process_vcf lines = (rows, Raise ZeroDivisionError) /\
    length rows = i /\ forall j r, rows !! j = Some r -> row_ok st j r.
Proof.
  intros Hl Hv0 Hnz. pose proof (process_lines_inv _ _ Hl) as Hwf.
  pose proof (vars_lookup_lt st i 0 Hwf Hv0).
  destruct (table_loop_stop st Hwf 0 (length (samples st)) i) as (rows & Ht & Hn & Hrows);
    [lia|lia|done|intros j v [_ ?]; by apply Hnz|].
  exists rows. unfold process_vcf, process_report, write_table. rewrite Hl, Ht.
  split_and!; [done|lia|done].
Qed.

(** C26: every row [process_vcf] writes has
    [0 <= prop_hets_total <= prop_hets_vars <= 1]. *)
Theorem process_vcf_rows_bounds lines rows res :
  process_vcf lines = (rows, res) ->
  forall r, r ∈ rows ->
    (0 <= row_prop_hets_total r <= row_prop_hets_vars r /\ row_prop_hets_vars r <= 1)%Q.
Proof.
  unfold process_vcf. destruct (process_lines lines) as [st|e] eqn:Hl;
    [|intros [= <- _] r Hr; by apply elem_of_nil in Hr].
  pose proof (process_lines_inv _ _ Hl) as Hwf.
  unfold process_report. destruct (write_table st) as [rows' e] eqn:Ht. intros [= <- _] r Hr.
  destruct (table_loop_rows st Hwf _ _ _ Ht r Hr) as [i Hok]. by eapply row_ok_bounds.
Qed.

(** C14: the summary's edge cases raise instead of being reported: on a
    file without data lines the percentage of variant sites divides by
    zero, and with fewer than two individuals [statistics.stdev] (or,
    with none, [statistics.mean]) raises [StatisticsError]. *)
Theorem report_summary_errors st :
  vcf_wf st ->
  (total_sites st = 0 -> report_summary st = Raise ZeroDivisionError) /\
  (total_sites st <> 0 -> length (samples st) < 2 -> report_summary st = Raise StatisticsError).
Proof.
  intros Hwf. destruct Hwf as ((_ & _ & Hh) & _). unfold report_summary, py_div.
  split; [intros ->; done|]. intros Ht Hn.
  destruct (Nat.eqb_spec (total_sites st) 0); [done|]. simpl.
  destruct (per_indv_hets (tallies st)) as [|h [|h' hs]] eqn:Hhs; simpl in *; [done| |lia].
  unfold py_div, stat_median. simpl. done.
Qed.

(** C27: otherwise the summary is printed: the proportion of variant
    sites is in [[0, 1]], the mean is the sum of the heterozygous counts
    over the number of individuals, and the variance is non-negative,
    so the square root that [stdev] takes exists. *)
Theorem report_summary_ok st :
  vcf_wf st -> total_sites st <> 0 -> 2 <= length (samples st) ->
  exists sm, report_summary st = Ok sm /\
    (0 <= prop_variant sm <= 1)%Q /\
    (mean_hets sm * inject_Z (Z.of_nat (length (samples st)))
       == inject_Z (Z.of_nat (sum_list (per_indv_hets (tallies st)))))%Q /\
    (0 <= variance_hets sm)%Q.
Proof.
  intros Hwf Ht Hn. pose proof Hwf as ((_ & _ & Hh) & Hvt & _).
  assert (Hne : per_indv_hets (tallies st) <> []) by (intros Hx; rewrite Hx in Hh; simpl in Hh; lia).
  destruct (py_div_nonzero (variant_sites st) (total_sites st) Ht) as [p Hp].
  destruct (stat_mean_Ok _ Hne) as (m & Hm & Hmq).
  destruct (stat_median_Ok _ Hne) as [md Hmd].
  destruct (stat_variance_Ok (per_indv_hets (tallies st))) as (sd & Hsd & Hsd0); [lia|].
  exists (mk_summary p m md sd). unfold report_summary. rewrite Hp, Hm, Hmd, Hsd.
  split; [done|]. simpl. rewrite <-Hh. split_and!; [..|done|done].
  - apply py_div_Ok in Hp as [_ Hp]. apply (Qmult_le_r _ _ (inject_Z (Z.of_nat (total_sites st)))).
    { unfold Qlt. simpl. lia. }
    rewrite Hp, Qmult_0_l. unfold Qle. simpl. lia.
  - apply py_div_Ok in Hp as [_ Hp]. apply (Qmult_le_r _ _ (inject_Z (Z.of_nat (total_sites st)))).
    { unfold Qlt. simpl. lia. }
    rewrite Hp, Qmult_1_l. unfold Qle. simpl. lia.
Qed.

(** ** The toy VCF of [HetTally] *)

(** The state after the four data lines of [toy_vcf]. *)
Definition toy_final : vcf_state :=
  mk_vcf_state 4 2 ["S1"; "S2"; "S3"] (mk_tallies [4; 2; 3] [2; 1; 1] [2; 0; 0]).

(** The acceptance test of the calculator: on the toy file of three
    samples and four sites, two of them variant, the rows hold the
    hand-computed counts and proportions (S1: 2/4 and 2/2; S2 and S3:
    0), and the summary is the variant proportion 1/2, mean 2/3,
    median 0 and variance 4/3. *)
Example process_vcf_toy :
  process_vcf toy_vcf =
  ([mk_row "S1" 4 2 4 2 2 (1 # 2) 1; mk_row "S2" 4 2 2 1 0 0 0; mk_row "S3" 4 2 3 1 0 0 0],
   Ok (mk_summary (1 # 2) (2 # 3) 0 (4 # 3))).
Proof. vm_compute. reflexivity. Qed.

Lemma process_vcf_table_witness :
  exists rows, process_vcf toy_vcf = (rows, report_summary toy_final) /\ length rows = 3.
Proof.
  destruct (process_vcf_table toy_vcf toy_final) as (rows & H & Hl & _).
  - vm_compute. reflexivity.
  - intros i v Hv. apply list_elem_of_lookup_2 in Hv. vm_compute in Hv.
    repeat (apply elem_of_cons in Hv as [->|Hv]; [lia|]). by apply elem_of_nil in Hv.
  - exists rows. by split.
Defined.

(** The first three lines of [toy_vcf]: S3 has no called genotype. *)
Definition toy_final3 : vcf_state :=
  mk_vcf_state 1 1 ["S1"; "S2"; "S3"] (mk_tallies [1; 1; 0] [1; 1; 0] [1; 0; 0]).

Lemma process_vcf_zero_division_witness :
  exists rows, process_vcf (firstn 3 toy_vcf) = (rows, Raise ZeroDivisionError) /\ length rows = 2.
Proof.
  destruct (process_vcf_zero_division (firstn 3 toy_vcf) toy_final3 2) as (rows & H & Hl & _).
  - vm_compute. reflexivity.
  - reflexivity.
  - intros j v Hj Hv. destruct j as [|[|j]]; simpl in Hv; [injection Hv as <-; lia|injection Hv as <-; lia|lia].
  - exists rows. by split.
Defined.

Lemma process_vcf_rows_bounds_witness :
  (0 <= 1 # 2 <= 1 /\ (1 : Q) <= 1)%Q.
Proof.
  apply (process_vcf_rows_bounds toy_vcf
           [mk_row "S1" 4 2 4 2 2 (1 # 2) 1; mk_row "S2" 4 2 2 1 0 0 0; mk_row "S3" 4 2 3 1 0 0 0]
           (Ok (mk_summary (1 # 2) (2 # 3) 0 (4 # 3)))
           ltac:(vm_compute; reflexivity)
           (mk_row "S1" 4 2 4 2 2 (1 # 2) 1)).
  apply elem_of_cons. by left.
Defined.

Lemma report_summary_errors_witness :
  report_summary (mk_vcf_state 4 2 ["S1"] (mk_tallies [4] [2] [1])) = Raise StatisticsError.
Proof.
  destruct (report_summary_errors (mk_vcf_state 4 2 ["S1"] (mk_tallies [4] [2] [1])))
    as [_ Herr].
  - split; [split_and!; reflexivity|]. split; [simpl; lia|].
    intros [|i] s v h; simpl; [intros [= <-] [= <-] [= <-]; lia|done].
  - apply Herr; simpl; lia.
Defined.

Lemma report_summary_ok_witness :
  exists sm, report_summary toy_final = Ok sm /\ (0 <= variance_hets sm)%Q.
Proof.
  destruct (report_summary_ok toy_final) as (sm & H & _ & _ & Hv).
  - split; [split_and!; reflexivity|]. split; [simpl; lia|].
    intros i s v h Hs Hv Hh.
    destruct i as [|[|[|i]]]; simpl in *; simplify_eq; lia.
  - simpl. lia.
  - simpl. lia.
  - by exists sm.
Defined.



End HetReport.
