(* ===== verification/CalcDriver.v ===== *)
(** * The driver of the calculator

    [src/calculate_idnv_obs_het.py], lines 5, 7-31 and 180-190: the
    program name [PROG], [parse_command_line] on the values argparse
    produced, the clock helpers [now] and [time], and [main].  The clock
    reading is a parameter ([datetime]); [strftime] is modelled on the
    fields the format uses: [%m %d %H %M %S] zero-padded to two digits,
    [%Y] the decimal year without padding (glibc's output, which Python
    uses on Linux).  The results: [PROG] is the part of the path after
    its last ['/']; [now()] and [time()] read back with [int()] give the clock
    fields and the integer [YYYYMMDD]; a missing [--vcf] raises
    [TypeError]. *)
From S2P Require Import Prelude PyStr PyNum HetTally HetReport.
From Stdlib Require Import Ascii.
Import HetTally HetReport.

Local Open Scope string_scope.

Module CalcDriver.

(** [PROG = sys.argv[0].split('/')[-1]]; the split is never empty. *)
Definition prog_name (argv0 : string) : string :=
  default "" (last (py_split "/" argv0)).

(** ** The command line and [main] *)

(** The options after argparse: [--vcf] is not [required], so it may be
    [None]; [--outdir] defaults to ["."]. *)
Record calc_args := mk_calc_args {
  vcf : option string;
  outdir : string
}.

(** [os.path.exists]: [TypeError] on [None], as [os.stat(None)] raises
    it and [exists] only catches [OSError] and [ValueError]. *)
Definition os_path_exists (path_exists : string -> bool) (p : option string) : result bool :=
  match p with Some p => Ok (path_exists p) | None => Raise TypeError end.

Definition parse_command_line (a : calc_args) (path_exists : string -> bool) : result calc_args :=
  e ← os_path_exists path_exists (vcf a);
  if negb e then Raise SystemExit else
  if negb (path_exists (outdir a)) then Raise SystemExit else
  Ok a.

(** [main()]: the checks, then [process_vcf] on the file's lines. *)
Definition calc_main (a : calc_args) (path_exists : string -> bool) (lines : list string)
    : list het_row * result het_summary :=
  match parse_command_line a path_exists with
  | Ok _ => process_vcf lines
  | Raise e => ([], Raise e)
  end.

(** ** The clock helpers *)

(** A reading of [datetime.datetime.now()]. *)
Record datetime := mk_datetime {
  dt_year : N; dt_month : N; dt_day : N;
  dt_hour : N; dt_minute : N; dt_second : N
}.

(** The ranges [datetime] guarantees of its fields. *)
Definition dt_valid (dt : datetime) : Prop :=
  (1 <= dt_year dt <= 9999 /\ 1 <= dt_month dt <= 12 /\ 1 <= dt_day dt <= 31 /\
   dt_hour dt < 24 /\ dt_minute dt < 60 /\ dt_second dt < 60)%N.

Definition digit_char (d : N) : ascii := ascii_of_N (48 + d).

(** [%m], [%d], [%H], [%M], [%S]: two digits, zero-padded. *)
Definition pad2 (n : N) : string :=
  String (digit_char (n / 10)) (String (digit_char (n mod 10)) EmptyString).

(** [now()]: [strftime("%Y-%m-%d %H:%M:%S")]. *)
Definition now (dt : datetime) : string :=
  str_of_N (dt_year dt) +:+ "-" +:+ pad2 (dt_month dt) +:+ "-" +:+ pad2 (dt_day dt) +:+
  " " +:+ pad2 (dt_hour dt) +:+ ":" +:+ pad2 (dt_minute dt) +:+ ":" +:+ pad2 (dt_second dt).

(** [time()]: [strftime("%Y%m%d")]. *)
Definition time (dt : datetime) : string :=
  str_of_N (dt_year dt) +:+ pad2 (dt_month dt) +:+ pad2 (dt_day dt).

(** ** Lemmas *)

Lemma digit_char_ok d :
  (d < 10)%N -> is_digit (digit_char d) = true /\ digit_value (digit_char d) = d.
Proof.
  intros Hd. assert (d = 0 \/ d = 1 \/ d = 2 \/ d = 3 \/ d = 4 \/ d = 5 \/ d = 6 \/
    d = 7 \/ d = 8 \/ d = 9)%N as Hc by lia.
  repeat destruct Hc as [->|Hc]; [..|subst]; split; reflexivity.
Qed.

Lemma pad2_bounds n : (n < 100)%N -> (n / 10 < 10)%N /\ (n mod 10 < 10)%N.
Proof. intros Hn. split; [apply N.Div0.div_lt_upper_bound; lia|apply N.mod_lt; lia]. Qed.

Lemma pad2_numeric n : (n < 100)%N -> py_isnumeric (pad2 n) = true.
Proof.
  intros [H1 H2]%pad2_bounds. unfold pad2. cbn [py_isnumeric all_digits].
  by rewrite (proj1 (digit_char_ok _ H1)), (proj1 (digit_char_ok _ H2)).
Qed.

Lemma digits_value_acc_pad2 acc n :
  (n < 100)%N -> digits_value_acc acc (pad2 n) = (100 * acc + n)%N.
Proof.
  intros Hn. destruct (pad2_bounds n Hn) as [H1 H2]. unfold pad2. cbn [digits_value_acc].
  rewrite (proj2 (digit_char_ok _ H1)), (proj2 (digit_char_ok _ H2)).
  pose proof (N.Div0.div_mod n 10). lia.
Qed.

Lemma py_isnumeric_all_digits_pad2 n : (n < 100)%N -> all_digits (pad2 n) = true.
Proof. intros Hn. pose proof (pad2_numeric n Hn). by destruct (pad2 n). Qed.

Lemma py_isnumeric_str_of_N n : py_isnumeric (str_of_N n) = true.
Proof.
  pose proof (all_digits_str_of_N n) as Hd. unfold py_isnumeric.
  destruct (str_of_N n) eqn:E; [|done].
  unfold str_of_N in E. pose proof (to_uint_not_nil n). by destruct (N.to_uint n).
Qed.

Lemma py_int_pad2 n : (n < 100)%N -> py_int (pad2 n) = Ok (Z.of_N n).
Proof.
  intros Hn. rewrite py_int_digits by (by apply pad2_numeric).
  unfold digits_value. by rewrite digits_value_acc_pad2.
Qed.

Lemma py_int_str_of_N n : py_int (str_of_N n) = Ok (Z.of_N n).
Proof. rewrite py_int_digits by apply py_isnumeric_str_of_N. by rewrite digits_value_str_of_N. Qed.

Lemma str_has_pad2 c n : is_digit c = false -> (n < 100)%N -> str_has c (pad2 n) = false.
Proof.
  intros Hc Hn. apply str_has_all_digits; [done|].
  pose proof (pad2_numeric n Hn) as H. by destruct (pad2 n).
Qed.

Lemma str_has_str_of_N c n : is_digit c = false -> str_has c (str_of_N n) = false.
Proof. intros Hc. apply str_has_all_digits; [done|apply all_digits_str_of_N]. Qed.

(** [c] does not occur in a text made of padded fields, decimal numbers
    and other characters. *)
Ltac str_has_false :=
  repeat first [ rewrite str_has_app | progress cbn [str_has]
               | rewrite str_has_pad2 by (done || lia) | rewrite str_has_str_of_N by done ];
  reflexivity.

(** [w1 +:+ "c" +:+ w2 +:+ "c" +:+ w3] splits on [c] into its three
    fields when they are free of [c]. *)
Lemma py_split_3 c w1 w2 w3 :
  str_has c w1 = false -> str_has c w2 = false -> str_has c w3 = false ->
  py_split c (w1 +:+ String c (w2 +:+ String c w3)) = [w1; w2; w3].
Proof.
  intros H1 H2 H3. rewrite !py_split_app_sep by done. by rewrite py_split_no_sep.
Qed.

(** ** The command line *)

(** C28: [--vcf] is optional in the parser although the tool cannot run
    without it: with the option left out, [main] writes nothing and
    raises [TypeError] from [os.path.exists(None)] instead of a usage
    error. *)
Theorem calc_main_no_vcf a path_exists lines :
  vcf a = None -> calc_main a path_exists lines = ([], Raise TypeError).
Proof. intros Hv. unfold calc_main, parse_command_line, os_path_exists. by rewrite Hv. Qed.

(** C31: [PROG = sys.argv[0].split('/')[-1]] is the part of the path
    after its last ['/']: it contains no ['/'], and the path is [PROG]
    itself or some directory part followed by ['/'] and [PROG]. *)
Theorem prog_name_suffix argv0 :
  str_has "/" (prog_name argv0) = false /\
  (argv0 = prog_name argv0 \/ exists dir, argv0 = dir +:+ String "/" (prog_name argv0)).
Proof.
  unfold prog_name. pose proof (py_join_split "/" argv0) as Hj.
  pose proof (py_split_not_nil "/" argv0) as Hne.
  destruct (py_split "/" argv0) as [|w0 ws0] eqn:E; [done|].
  destruct (exists_last Hne) as [pre [w Hpw]]. rewrite <-E, Hpw in *. rewrite last_snoc. simpl.
  split; [apply (py_split_fields "/" argv0); rewrite Hpw; set_solver|].
  destruct pre as [|x pre]; [left; done|right].
  exists (py_join "/" (x :: pre)). rewrite <-py_join_snoc by done. done.
Qed.

(** ** The clock *)

(** C29: [now()] reads back: split on the space, then on ['-'] and
    [':'], its fields give with [int()] the year, month, day, hour,
    minute and second of the clock reading. *)
Theorem now_roundtrip dt :
  dt_valid dt ->
  exists date clock, py_split " " (now dt) = [date; clock] /\
    mapM py_int (py_split "-" date) =
      Ok [Z.of_N (dt_year dt); Z.of_N (dt_month dt); Z.of_N (dt_day dt)] /\
    mapM py_int (py_split ":" clock) =
      Ok [Z.of_N (dt_hour dt); Z.of_N (dt_minute dt); Z.of_N (dt_second dt)].
Proof.
  intros (_ & Hm & Hd & Hh & Hmi & Hs).
  set (date := str_of_N (dt_year dt) +:+ String "-" (pad2 (dt_month dt) +:+ String "-" (pad2 (dt_day dt)))).
  set (clock := pad2 (dt_hour dt) +:+ String ":" (pad2 (dt_minute dt) +:+ String ":" (pad2 (dt_second dt)))).
  assert (Hnow : now dt = date +:+ String " " clock).
  { unfold now, date, clock. rewrite <-!str_append_assoc. reflexivity. }
  exists date, clock. split_and!.
  - rewrite Hnow, py_split_app_sep, py_split_no_sep; [done|unfold clock; str_has_false|].
    unfold date. str_has_false.
  - unfold date. rewrite py_split_3 by str_has_false.
    simpl. rewrite py_int_str_of_N, !py_int_pad2 by lia. done.
  - unfold clock. rewrite py_split_3 by str_has_false.
    simpl. rewrite !py_int_pad2 by lia. done.
Qed.

(** C30: [time()] read back with [int()] is the integer [YYYYMMDD] of the
    date, so the stamps of two dates compare as the dates do. *)
Theorem time_int dt :
  dt_valid dt ->
  py_int (time dt) = Ok (Z.of_N (10000 * dt_year dt + 100 * dt_month dt + dt_day dt)).
Proof.
  intros (_ & Hm & Hd & _).
  rewrite py_int_digits.
  - unfold digits_value, time. rewrite !digits_value_acc_app.
    change (digits_value_acc 0 (str_of_N (dt_year dt))) with (digits_value (str_of_N (dt_year dt))).
    rewrite digits_value_str_of_N, !digits_value_acc_pad2 by lia. do 2 f_equal. lia.
  - unfold time. apply py_isnumeric_app; [apply py_isnumeric_str_of_N|].
    rewrite all_digits_app. apply andb_true_iff.
    split; apply (py_isnumeric_all_digits_pad2); lia.
Qed.

(** ** Examples *)

Definition toy_clock : datetime := mk_datetime 2024 3 7 9 5 0.

Example toy_clock_text :
  now toy_clock = "2024-03-07 09:05:00" /\ time toy_clock = "20240307" /\
  prog_name "/usr/local/bin/calculate_idnv_obs_het.py" = "calculate_idnv_obs_het.py".
Proof. split_and!; reflexivity. Qed.

Lemma calc_main_no_vcf_witness :
  calc_main (mk_calc_args None ".") (fun _ => true) toy_vcf = ([], Raise TypeError).
Proof. apply calc_main_no_vcf. reflexivity. Defined.



Lemma now_roundtrip_witness :
  exists date clock, py_split " " (now toy_clock) = [date; clock] /\
    mapM py_int (py_split "-" date) = Ok [2024%Z; 3%Z; 7%Z] /\
    mapM py_int (py_split ":" clock) = Ok [9%Z; 5%Z; 0%Z].
Proof. apply (now_roundtrip toy_clock). unfold dt_valid; simpl; lia. Defined.

Lemma time_int_witness : py_int (time toy_clock) = Ok 20240307%Z.
Proof. apply (time_int toy_clock). unfold dt_valid; simpl; lia. Defined.

End CalcDriver.
