(* ===== verification/VcfWf.v ===== *)
(** * Well-formed VCF input and the progress of the calculator

    Which files [process_vcf] reads to the end.  [vcf_ok n lines] is an
    inductive description of a well-formed VCF, the sample count [n]
    being that of the last [#CHROM] header read: metadata lines, headers,
    and data lines with a reference and an alternative field, one
    genotype per sample, and genotype tokens the normaliser accepts.
    [vcf_okb] decides it.  The theorems: the loop over the lines returns
    exactly on the well-formed files (so every exception of the loop is
    a malformation of the file), and on such a file the whole calculator
    can only end normally, by a division by zero in the table or the
    summary, or by [StatisticsError]; a ['#'] comment line that is not
    metadata or the header is read as data and raises [IndexError]. *)
From S2P Require Import Prelude PyStr PyNum Genotype HetTally HetReport CalcDriver.
From Stdlib Require Import Bool.
Import Genotype HetTally HetReport CalcDriver.

Module VcfWf.

(** ** The description of a well-formed file *)

(** A token [simplify_genotype_str] accepts: its genotype part holds a
    separator and no numeric field past the second. *)
Definition genotype_okb (tok : string) : bool :=
  match allele_fields tok with
  | Some (_ :: _ :: ws) => negb (existsb py_isnumeric ws)
  | _ => false
  end.

(** A data line read with [n] samples: fields 3 and 4 exist, and the
    fields from the tenth on are [n] accepted genotype tokens. *)
Definition record_okb (n : nat) (line : string) : bool :=
  let fields := line_fields line in
  match fields !! 3, fields !! 4 with
  | Some _, Some _ =>
      Nat.eqb (length (drop 9 fields)) n && forallb genotype_okb (drop 9 fields)
  | _, _ => false
  end.

Definition is_meta (line : string) : bool := String.prefix "##" line.
Definition is_header (line : string) : bool := String.prefix "#CHROM" line.

(** The samples a [#CHROM] line declares. *)
Definition header_samples (line : string) : list string := drop 9 (line_fields line).

Inductive vcf_ok : nat -> list string -> Prop :=
| vcf_ok_nil n : vcf_ok n []
| vcf_ok_meta n l ls :
    is_meta l = true -> vcf_ok n ls -> vcf_ok n (l :: ls)
| vcf_ok_header n l ls :
    is_meta l = false -> is_header l = true ->
    vcf_ok (length (header_samples l)) ls -> vcf_ok n (l :: ls)
| vcf_ok_record n l ls :
    is_meta l = false -> is_header l = false ->
    record_okb n l = true -> vcf_ok n ls -> vcf_ok n (l :: ls).

(** The recogniser. *)
Fixpoint vcf_okb (n : nat) (lines : list string) : bool :=
  match lines with
  | [] => true
  | l :: ls =>
      if is_meta l then vcf_okb n ls
      else if is_header l then vcf_okb (length (header_samples l)) ls
      else record_okb n l && vcf_okb n ls
  end.

(** ** The recogniser decides the description *)

Lemma vcf_okb_reflect n lines : reflect (vcf_ok n lines) (vcf_okb n lines).
Proof.
  revert n. induction lines as [|l ls IH]; intros n; simpl; [left; constructor|].
  destruct (is_meta l) eqn:Hm.
  - destruct (IH n); [left; by constructor|right; intros H; inversion H; congruence].
  - destruct (is_header l) eqn:Hh.
    + destruct (IH (length (header_samples l))); [left; by constructor|].
      right. intros H. inversion H; congruence.
    + destruct (record_okb n l) eqn:Hr; simpl.
      * destruct (IH n); [left; by constructor|right; intros H; inversion H; congruence].
      * right. intros H. inversion H; congruence.
Qed.

#[export] Instance vcf_ok_dec n lines : Decision (vcf_ok n lines).
Proof.
  refine (cast_if (decide (vcf_okb n lines = true)));
    by rewrite (reflect_iff _ _ (vcf_okb_reflect n lines)).
Defined.

(** ** Each line returns exactly when it is well formed *)

Lemma forallb_eq {A} (f g : A -> bool) xs :
  (forall x, x ∈ xs -> f x = g x) -> forallb f xs = forallb g xs.
Proof.
  induction xs as [|x xs IH]; intros H; [done|]. simpl.
  rewrite (H x), IH; [done| |]; set_solver.
Qed.

Lemma genotype_okb_is_ok tok : is_ok (simplify_genotype_str tok) = genotype_okb tok.
Proof.
  rewrite simplify_genotype_str_closed. unfold simplify_spec, genotype_okb.
  destruct (allele_fields tok) as [[|w0 [|w1 ws]]|]; try done.
  by destruct (existsb py_isnumeric ws).
Qed.

Lemma process_record_is_ok st line :
  tallies_len (length (samples st)) (tallies st) ->
  is_ok (process_record st line) = record_okb (length (samples st)) line.
Proof.
  intros Ht. rewrite process_record_closed by done. unfold record_spec, record_okb.
  destruct (line_fields line !! 3), (line_fields line !! 4); try done.
  destruct (Nat.eqb _ _); simpl; [|done].
  rewrite is_ok_bind. transitivity (is_ok (mapM simplify_genotype_str (drop 9 (line_fields line))));
    [by destruct (mapM simplify_genotype_str _)|].
  rewrite mapM_is_ok. apply forallb_eq. intros tok _. apply genotype_okb_is_ok.
Qed.

Lemma process_record_samples st line st' :
  process_record st line = Ok st' -> samples st' = samples st.
Proof. unfold process_record. intros H. inv_res. by subst. Qed.

(** From any well-formed state, the loop returns exactly on the lines
    that are well formed for its sample count. *)
Lemma foldM_process_line_is_ok st lines :
  vcf_wf st ->
  is_ok (foldM process_line lines st) = vcf_okb (length (samples st)) lines.
Proof.
  revert st. induction lines as [|l ls IH]; intros st Hwf; [done|]. simpl.
  assert (Hstep : forall st', process_line st l = Ok st' -> vcf_wf st')
    by (intros; by eapply process_line_wf).
  unfold process_line in *. fold (is_meta l) (is_header l) in *.
  destruct (is_meta l); simpl; [by apply IH|].
  destruct (is_header l); simpl; [by apply IH, Hstep|].
  pose proof (process_record_is_ok st l (proj1 Hwf)) as Hok.
  destruct (process_record st l) as [st'|e] eqn:Hr; simpl in *.
  - rewrite <-Hok. simpl. rewrite IH by (by apply Hstep).
    by rewrite (process_record_samples _ _ _ Hr).
  - by rewrite <-Hok.
Qed.

(** ** Progress and safety of the calculator *)

(** C9: the loop of [process_vcf] over the lines of a file returns
    exactly when the file is well formed: every exception it raises
    ([IndexError] on a short line, [AssertionError] on a wrong genotype
    count, [UnboundLocalError] or [IndexError] from the normaliser)
    comes from a malformed line, and a well-formed file is always read
    to the end. *)
Theorem process_lines_ok_iff lines :
  (exists st, process_lines lines = Ok st) <-> vcf_ok 0 lines.
Proof.
  rewrite <-is_ok_exists. unfold process_lines.
  rewrite (foldM_process_line_is_ok vcf_init lines vcf_init_wf).
  symmetry. apply reflect_iff, vcf_okb_reflect.
Qed.

(** C10: on a well-formed file, with both paths present, the calculator
    ends normally or by one of the two faults of its report: a division
    by zero (an individual without called variant genotypes, or a file
    without data lines) or [StatisticsError] (fewer than two samples);
    never by a parse error, an index error or an assertion. *)
Theorem calc_main_safe a path_exists lines p rows r :
  vcf a = Some p -> path_exists p = true -> path_exists (outdir a) = true ->
  vcf_ok 0 lines -> calc_main a path_exists lines = (rows, r) ->
  (exists sm, r = Ok sm) \/ r = Raise ZeroDivisionError \/ r = Raise StatisticsError.
Proof.
  intros Hv Hp Ho Hok. unfold calc_main, parse_command_line, os_path_exists.
  rewrite Hv. simpl. rewrite Hp, Ho. simpl.
  apply (reflect_iff _ _ (vcf_okb_reflect 0 lines)) in Hok.
  pose proof (foldM_process_line_is_ok vcf_init lines vcf_init_wf) as Hl. simpl in Hl.
  rewrite Hok in Hl. apply is_ok_exists in Hl as [st Hst].
  pose proof (process_lines_inv lines st Hst) as Hwf.
  unfold process_vcf, process_lines. rewrite Hst. unfold process_report.
  destruct (write_table st) as [rows' [e|]] eqn:Ht; intros [= _ <-].
  - rewrite (write_table_Raise st rows' e Hwf Ht). by right; left.
  - destruct (report_summary st) as [sm|e] eqn:Hs; [left; by exists sm|].
    right. by destruct (report_summary_Raise st e Hs) as [-> | ->]; [left|right].
Qed.

(** ** Examples *)

(** The toy file is well formed; a bare ["."] genotype is not (the
    normaliser finds no separator). *)
Example toy_vcf_ok : vcf_ok 0 toy_vcf /\ ~ vcf_ok 0 (toy_vcf ++ ["1	50	.	A	G	.	PASS	.	GT	.	0/0	0/0"]).
Proof. split; [apply (bool_decide_unpack _)|apply (bool_decide_unpack (~ _))]; vm_compute; exact I. Qed.

Lemma calc_main_safe_witness :
  exists rows r, calc_main (mk_calc_args (Some "toy.vcf") ".") (fun _ => true) toy_vcf = (rows, r) /\
    ((exists sm, r = Ok sm) \/ r = Raise ZeroDivisionError \/ r = Raise StatisticsError).
Proof.
  destruct (calc_main (mk_calc_args (Some "toy.vcf") ".") (fun _ => true) toy_vcf) as [rows r] eqn:H.
  exists rows, r. split; [done|].
  apply (calc_main_safe (mk_calc_args (Some "toy.vcf") ".") (fun _ => true) toy_vcf "toy.vcf" rows r);
    [reflexivity|reflexivity|reflexivity| |exact H].
  apply (bool_decide_unpack _). vm_compute. exact I.
Defined.

(** C34: a comment line that starts with ['#'] but is neither metadata
    ([##]) nor the header ([#CHROM]) is read as a data line: with fewer
    than five tab-separated fields it stops the calculator with
    [IndexError] on [fields[3]] or [fields[4]], whatever was read before. *)
Theorem comment_line_raises st line :
  String.prefix "#" line = true -> is_meta line = false -> is_header line = false ->
  line_fields line !! 4 = None -> process_line st line = Raise IndexError.
Proof.
  intros _ Hm Hh H4. unfold process_line. fold (is_meta line) (is_header line). rewrite Hm, Hh.
  unfold process_record, py_index. fold (line_fields line).
  destruct (line_fields line !! 3); simpl; [|done]. by rewrite H4.
Qed.

Lemma comment_line_raises_witness :
  process_line vcf_init "# filtered with bcftools" = Raise IndexError.
Proof. apply comment_line_raises; reflexivity. Defined.

End VcfWf.
