(* ===== verification/Sumstats.v ===== *)
(** * Records of the sumstats table and the per-record filter

    [src/filter_sumstats_to_whitelist.py]: the class [SumstatsSite]
    (lines 29-40), the parsing of one record with its [int()]/[float()]
    conversions and its SNP key [f'{locid}_{locol}'] (lines 59-68), and the
    minor-allele-frequency and HWE tests (lines 48-50, 69-78).  The
    results: the MAF test is [min(p, 1-p) < maf] on finite values and
    never rejects a NaN frequency; the HWE test rejects [hwe_p < 0.05]
    when enabled and still rejects negative p-values when disabled; the
    SNP key decodes back to the pair of integers it was built from. *)
From S2P Require Import Prelude PyStr PyNum.
From Stdlib Require Import Ascii QArith Qminmax Lqa.

Local Close Scope Q_scope.
Local Open Scope string_scope.

Module Sumstats.

(** [class SumstatsSite]. *)
Record SumstatsSite := mk_site {
  locid : Z;
  locol : Z;
  chrom : string;
  bp : Z;
  popid : string;
  p : pyfloat;
  hwe : pyfloat;
  priv : Z
}.

(** [f'{locid}_{locol}'], line 68. *)
Definition snp_key (locid locol : Z) : string :=
  str_of_Z locid +:+ String "_" (str_of_Z locol).

(** Lines 59-68: the fields, in the order the code converts them. *)
Definition parse_site (line : string) : result (string * SumstatsSite) :=
  let fields := py_split TAB (strip_nl line) in
  locid ← (f ← py_index fields 0; py_int f);
  locol ← (f ← py_index fields 3; py_int f);
  chrom ← py_index fields 1;
  bp ← (f ← py_index fields 2; py_int f);
  popid ← py_index fields 4;
  p ← (f ← py_index fields 8; py_float f);
  hwe_p ← (f ← py_index fields 19; py_float f);
  priv ← (f ← py_index fields 20; py_int f);
  let snp := snp_key locid locol in
  Ok (snp, mk_site locid locol chrom bp popid p hwe_p priv).

(** Lines 48-50. *)
Definition max_hwe_p (hwe : bool) : pyfloat :=
  if hwe then PFin (5 # 100) else PFin 0.

(** Lines 69-75: [True] when the record is dropped for its MAF. *)
Definition maf_filtered (maf p : pyfloat) : bool :=
  if fge p (PFin (1 # 2)) then flt (fsub (PFin 1) p) maf else flt p maf.

(** Lines 76-78: [True] when the record is dropped for its HWE p-value. *)
Definition hwe_filtered (max_hwe : pyfloat) (hwe_p : pyfloat) : bool :=
  flt hwe_p max_hwe.

(** The SNP key of a site. *)
Definition site_key (s : SumstatsSite) : Z * Z := (locid s, locol s).

(** ** The SNP key *)

Lemma snp_key_split a b : py_split "_" (snp_key a b) = [str_of_Z a; str_of_Z b].
Proof.
  unfold snp_key. rewrite py_split_app_sep by (apply str_has_str_of_Z; done).
  rewrite py_split_no_sep by (apply str_has_str_of_Z; done). done.
Qed.

(** Injectivity of the SNP key (used to compare keys as strings). *)
Lemma snp_key_injective a b c d : snp_key a b = snp_key c d -> a = c /\ b = d.
Proof.
  intros H. pose proof (f_equal (py_split "_") H) as Hs.
  rewrite !snp_key_split in Hs. injection Hs as Ha Hb.
  pose proof (py_int_str_of_Z a) as Ea. pose proof (py_int_str_of_Z b) as Eb.
  rewrite Ha in Ea. rewrite Hb in Eb. rewrite py_int_str_of_Z in Ea, Eb.
  split; congruence.
Qed.

(** C20: the SNP key [f'{locid}_{locol}'] determines the pair of integers
    it is built from (so comparing keys as strings compares the pairs). *)
Theorem snp_key_inj a b c d : snp_key a b = snp_key c d -> a = c /\ b = d.
Proof. apply snp_key_injective. Qed.

Lemma parse_site_key line snp s :
  parse_site line = Ok (snp, s) -> snp = snp_key (locid s) (locol s).
Proof. unfold parse_site. intros H. inv_res. by subst. Qed.

(** ** The filters *)

(** C15: on finite values, a record is dropped for its allele frequency
    [p] exactly when the minor-allele frequency [min(p, 1-p)] is below
    [maf]. *)
Theorem maf_filtered_fin (maf q : Q) :
  maf_filtered (PFin maf) (PFin q) = true <-> (Qmin q (1 - q) < maf)%Q.
Proof.
  unfold maf_filtered. rewrite fge_fin. destruct (Qle_bool (1 # 2) q) eqn:E.
  - apply Qle_bool_iff in E. simpl fsub. rewrite flt_fin.
    rewrite Q.min_r by lra. reflexivity.
  - assert (Hq : ~ (1 # 2 <= q)%Q) by (intros Hle; apply Qle_bool_iff in Hle; congruence).
    apply Qnot_le_lt in Hq. rewrite flt_fin. rewrite Q.min_l by lra. reflexivity.
Qed.

(** A NaN frequency fails both comparisons and is never dropped. *)
Lemma maf_filtered_nan maf : maf_filtered maf PNaN = false.
Proof. reflexivity. Qed.

(** C19: with [--hwe] a finite p-value is dropped exactly below 0.05;
    without it, exactly below 0. *)
Theorem hwe_filtered_fin (hwe_on : bool) (h : Q) :
  hwe_filtered (max_hwe_p hwe_on) (PFin h) = true <->
  (h < if hwe_on then 5 # 100 else 0)%Q.
Proof. unfold hwe_filtered, max_hwe_p. destruct hwe_on; apply flt_fin. Qed.

Lemma snp_key_inj_witness : (2 = 2 /\ 7 = 7)%Z.
Proof. apply (snp_key_inj 2 7 2 7). reflexivity. Defined.

(** A record at [p = 0.05] is dropped under [--maf 0.1]; one at
    [p = 0.95] too; one at [p = 0.3] is kept. *)
Example maf_filtered_examples :
  maf_filtered (PFin (1 # 10)) (PFin (5 # 100)) = true /\
  maf_filtered (PFin (1 # 10)) (PFin (95 # 100)) = true /\
  maf_filtered (PFin (1 # 10)) (PFin (3 # 10)) = false.
Proof. split_and!; reflexivity. Qed.

End Sumstats.
