(* ===== verification/Grouper.v ===== *)
(** * The cross-population grouper of [parse_sumstats]

    [src/filter_sumstats_to_whitelist.py], lines 45-102.  The loop keeps
    the nested dict [sites_dict] (locus -> column -> list of records), the
    key [prev_snp] of the group being read and the group [pops_in_site];
    [group_site] is the body of the loop for a record that passed the
    filters, [group_finish] the flush after the loop, [parse_sumstats]
    the whole function.  The abstract specification groups the
    surviving records into maximal runs of one SNP key ([runs]) and
    stores the runs of exactly [n_pops] records ([store_runs]); the
    refinement theorem says the streaming loop computes it.  From it:
    the index invariant, the SNPs kept on contiguous input, the
    [AttributeError] when nothing passes, and that every kept record
    was read from the file and passed both filters. *)
From S2P Require Import Prelude PyStr PyNum PyDict Sumstats.
From Stdlib Require Import Ascii QArith.
Import Sumstats.

Local Close Scope Q_scope.

Module Grouper.

Abbreviation site_dict := (dict Z (dict Z (list SumstatsSite))) (only parsing).

(** The locals of [parse_sumstats] that the loop updates (lines 52-54). *)
Record group_state := mk_gstate {
  sites_dict : site_dict;
  prev_snp : option string;
  pops_in_site : list SumstatsSite
}.

Definition group_init : group_state := mk_gstate [] None [].

(** [int(prev_snp.split('_')[0])], [int(prev_snp.split('_')[1])]. *)
Definition decode_snp (snp : string) : result (Z * Z) :=
  f0 ← py_index (py_split "_" snp) 0;
  prev_loc ← py_int f0;
  f1 ← py_index (py_split "_" snp) 1;
  prev_col ← py_int f1;
  Ok (prev_loc, prev_col).

(** Lines 90-92 and 99-101: a group of exactly [n_pops] records is
    stored under [sites_dict[prev_loc][prev_col]]. *)
Definition store_group (n_pops : Z) (prev_loc prev_col : Z) (pops : list SumstatsSite)
    (d : site_dict) : site_dict :=
  if Z.eqb (Z.of_nat (length pops)) n_pops then
    dict_alter (dict_set prev_col pops) prev_loc (dict_setdefault prev_loc [] d)
  else d.

(** Lines 80-96, for a record [site] with key [snp] that passed the
    filters. *)
Definition group_site (n_pops : Z) (gs : group_state) (snp : string) (site : SumstatsSite)
    : result group_state :=
  let prev := match prev_snp gs with Some s => s | None => snp end in
  if String.eqb snp prev then Ok (mk_gstate (sites_dict gs) (Some snp) (pops_in_site gs ++ [site]))
  else
    '(prev_loc, prev_col) ← decode_snp prev;
    Ok (mk_gstate (store_group n_pops prev_loc prev_col (pops_in_site gs) (sites_dict gs))
          (Some snp) [site]).

(** The body of the loop, lines 57-96. *)
Definition sumstats_line (n_pops : Z) (maf max_hwe : pyfloat) (gs : group_state)
    (line : string) : result group_state :=
  if String.prefix "#" line then Ok gs else
  '(snp, site) ← parse_site line;
  if maf_filtered maf (p site) then Ok gs else
  if hwe_filtered max_hwe (hwe site) then Ok gs else
  group_site n_pops gs snp site.

(** Lines 97-102: the last group; [prev_snp] is [None] when no record
    passed, and [None.split] raises [AttributeError]. *)
Definition group_finish (n_pops : Z) (gs : group_state) : result site_dict :=
  match prev_snp gs with
  | None => Raise AttributeError
  | Some prev =>
      '(prev_loc, prev_col) ← decode_snp prev;
      Ok (store_group n_pops prev_loc prev_col (pops_in_site gs) (sites_dict gs))
  end.

(** [parse_sumstats(sumstats_f, n_pops, maf, hwe)], lines 45-102. *)
Definition parse_sumstats (lines : list string) (n_pops : Z) (maf : pyfloat) (hwe : bool)
    : result site_dict :=
  assert (fle (PFin 0) maf && fle maf (PFin (1 # 2))) ;;
  let max_hwe := max_hwe_p hwe in
  gs ← foldM (sumstats_line n_pops maf max_hwe) lines group_init;
  group_finish n_pops gs.

(** ** Abstract specification *)

(** The records of the file that pass both filters, in file order, or
    the first exception of the parser. *)
Fixpoint passing_sites (maf max_hwe : pyfloat) (lines : list string)
    : result (list SumstatsSite) :=
  match lines with
  | [] => Ok []
  | line :: rest =>
      if String.prefix "#" line then passing_sites maf max_hwe rest else
      '(_, site) ← parse_site line;
      let keep := negb (maf_filtered maf (p site)) && negb (hwe_filtered max_hwe (hwe site)) in
      ps ← passing_sites maf max_hwe rest;
      Ok (if keep then site :: ps else ps)
  end.

(** Extend the runs of a sequence of records by one record: it joins the
    last run when it has the same SNP key, else it opens a run. *)
Definition add_run (rs : list (list SumstatsSite)) (s : SumstatsSite)
    : list (list SumstatsSite) :=
  match last rs with
  | Some r =>
      match last r with
      | Some t => if decide (site_key s = site_key t) then (removelast rs ++ [r ++ [s]])%list
                  else (rs ++ [[s]])%list
      | None => (rs ++ [[s]])%list
      end
  | None => [[s]]
  end.

(** The maximal runs of consecutive records with one SNP key. *)
Definition runs (ps : list SumstatsSite) : list (list SumstatsSite) :=
  fold_left add_run ps [].

(** Store a run under its key when it has exactly [n_pops] records. *)
Definition store_run (n_pops : Z) (d : site_dict) (r : list SumstatsSite) : site_dict :=
  match r with
  | [] => d
  | s :: _ => store_group n_pops (locid s) (locol s) r d
  end.

Definition store_runs (n_pops : Z) (rs : list (list SumstatsSite)) : site_dict :=
  fold_left (store_run n_pops) rs [].

(** What [parse_sumstats] returns, in terms of the runs. *)
Definition parse_sumstats_spec (lines : list string) (n_pops : Z) (maf : pyfloat)
    (hwe : bool) : result site_dict :=
  assert (fle (PFin 0) maf && fle maf (PFin (1 # 2))) ;;
  ps ← passing_sites maf (max_hwe_p hwe) lines;
  match ps with
  | [] => Raise AttributeError
  | _ => Ok (store_runs n_pops (runs ps))
  end.

(** ** The streaming state of a prefix *)

(** The state of the loop after the records [ps] have passed: the runs
    before the last are stored, the last is pending. *)
Definition gstate_of (n_pops : Z) (ps : list SumstatsSite) : group_state :=
  let rs := runs ps in
  match last rs with
  | None => group_init
  | Some r =>
      mk_gstate (store_runs n_pops (removelast rs))
        (option_map (fun t => snp_key (locid t) (locol t)) (last r)) r
  end.

(** ** Lemmas on runs *)

(** A run is non-empty and all its records have one SNP key. *)
Definition run_ok (r : list SumstatsSite) : Prop :=
  r <> [] /\ forall x y, x ∈ r -> y ∈ r -> site_key x = site_key y.

Lemma runs_snoc ps s : runs (ps ++ [s]) = add_run (runs ps) s.
Proof. unfold runs. by rewrite fold_left_app. Qed.

Lemma store_runs_snoc n rs r : store_runs n (rs ++ [r]) = store_run n (store_runs n rs) r.
Proof. unfold store_runs. by rewrite fold_left_app. Qed.

Lemma add_run_ok rs s : Forall run_ok rs -> Forall run_ok (add_run rs s).
Proof.
  intros Hok. unfold add_run.
  assert (run_ok [s]) as Hs.
  { split; [done|]. intros x y Hx%list_elem_of_singleton Hy%list_elem_of_singleton. by subst. }
  destruct (last rs) as [r|] eqn:Hl; [|by apply Forall_singleton].
  apply last_Some in Hl as [rs0 ->]. apply Forall_app in Hok as [Hok Hr].
  apply Forall_singleton in Hr as [Hne Hr].
  destruct (last r) as [t|] eqn:Ht; [|by apply last_None in Ht].
  apply last_Some in Ht as [r0 ->].
  destruct (decide (site_key s = site_key t)) as [E|E].
  - rewrite removelast_last. apply Forall_app. split; [done|]. apply Forall_singleton.
    split; [by destruct r0|]. intros x y Hx Hy.
    assert (Hk : forall z, z ∈ ((r0 ++ [t]) ++ [s])%list -> site_key z = site_key t).
    { intros z Hz. apply elem_of_app in Hz as [Hz|Hz%list_elem_of_singleton].
      - apply Hr; set_solver.
      - by subst. }
    by rewrite (Hk x Hx), (Hk y Hy).
  - apply Forall_app. split; [apply Forall_app; split; [done|by apply Forall_singleton]|].
    by apply Forall_singleton.
Qed.

Lemma runs_ok ps : Forall run_ok (runs ps).
Proof.
  induction ps as [|s ps IH] using rev_ind; [constructor|].
  rewrite runs_snoc. by apply add_run_ok.
Qed.

Lemma store_run_last n d r t :
  run_ok r -> last r = Some t -> store_run n d r = store_group n (locid t) (locol t) r d.
Proof.
  intros [Hne Hr] Ht. destruct r as [|h r]; [done|]. simpl.
  assert (Hk : site_key h = site_key t).
  { apply Hr; [set_solver|]. apply last_Some in Ht as [l' Hl']. rewrite Hl'. set_solver. }
  unfold site_key in Hk. by injection Hk as -> ->.
Qed.

Lemma decode_snp_key a b : decode_snp (snp_key a b) = Ok (a, b).
Proof.
  unfold decode_snp. rewrite snp_key_split. simpl. by rewrite !py_int_str_of_Z.
Qed.

Lemma snp_key_eqb s t :
  String.eqb (snp_key (locid s) (locol s)) (snp_key (locid t) (locol t)) =
  bool_decide (site_key s = site_key t).
Proof.
  apply Bool.eq_iff_eq_true. rewrite String.eqb_eq, bool_decide_eq_true.
  unfold site_key. split.
  - intros [H1 H2]%snp_key_injective. by rewrite H1, H2.
  - intros H. injection H as H1 H2. by rewrite H1, H2.
Qed.

(** One record that passed the filters moves the streaming state of a
    prefix to the streaming state of the longer prefix. *)
Lemma group_site_snoc n ps s :
  group_site n (gstate_of n ps) (snp_key (locid s) (locol s)) s = Ok (gstate_of n (ps ++ [s])).
Proof.
  unfold gstate_of. rewrite runs_snoc. pose proof (runs_ok ps) as Hok.
  destruct (last (runs ps)) as [r|] eqn:Hl.
  - apply last_Some in Hl as [rs0 Hrs]. rewrite Hrs in Hok |- *.
    apply Forall_app in Hok as [_ Hr]. rewrite Forall_singleton in Hr.
    destruct (last r) as [t|] eqn:Ht.
    2:{ unfold run_ok in Hr. apply last_None in Ht. destruct Hr as [Hne _]. contradiction. }
    unfold add_run. rewrite last_snoc, Ht, removelast_last.
    unfold group_site. simpl. rewrite snp_key_eqb.
    destruct (decide (site_key s = site_key t)) as [E|E].
    + rewrite bool_decide_eq_true_2 by done.
      by rewrite removelast_last, !last_snoc.
    + rewrite bool_decide_eq_false_2 by done. rewrite decode_snp_key. simpl.
      rewrite removelast_last, last_snoc. simpl.
      rewrite store_runs_snoc. by rewrite (store_run_last _ _ r t).
  - apply last_None in Hl. rewrite Hl. unfold group_site. simpl.
    by rewrite String.eqb_refl.
Qed.

Lemma sumstats_line_eq n maf mh gs line :
  sumstats_line n maf mh gs line =
  if String.prefix "#" line then Ok gs else
  '(snp, site) ← parse_site line;
  if maf_filtered maf (p site) then Ok gs else
  if hwe_filtered mh (hwe site) then Ok gs else
  group_site n gs snp site.
Proof. reflexivity. Qed.

(** The loop over the lines from the state of a prefix [ps] reaches the
    state of [ps] followed by the records of these lines that pass. *)
Lemma foldM_sumstats_line n maf mh lines ps :
  foldM (sumstats_line n maf mh) lines (gstate_of n ps) =
  (ps' ← passing_sites maf mh lines; Ok (gstate_of n (ps ++ ps'))).
Proof.
  revert ps. induction lines as [|line lines IH]; intros ps; simpl.
  - by rewrite app_nil_r.
  - rewrite sumstats_line_eq. destruct (String.prefix "#" line); simpl; [apply IH|].
    destruct (parse_site line) as [[snp site]|e] eqn:Hp; simpl; [|done].
    rewrite (parse_site_key _ _ _ Hp).
    destruct (maf_filtered maf (p site)), (hwe_filtered mh (hwe site)); simpl;
      try (rewrite IH; by destruct (passing_sites maf mh lines)).
    rewrite group_site_snoc. simpl. rewrite IH.
    destruct (passing_sites maf mh lines); simpl; [|done].
    by rewrite <-app_assoc.
Qed.

Lemma group_finish_gstate n ps :
  group_finish n (gstate_of n ps) =
  match ps with [] => Raise AttributeError | _ => Ok (store_runs n (runs ps)) end.
Proof.
  destruct ps as [|s ps]; [done|].
  unfold gstate_of. pose proof (runs_ok (s :: ps)) as Hok.
  destruct (last (runs (s :: ps))) as [r|] eqn:Hl.
  - apply last_Some in Hl as [rs0 Hrs]. rewrite Hrs in Hok |- *.
    apply Forall_app in Hok as [_ Hr]. rewrite Forall_singleton in Hr.
    destruct (last r) as [t|] eqn:Ht.
    2:{ unfold run_ok in Hr. apply last_None in Ht. destruct Hr as [Hne _]. contradiction. }
    unfold group_finish. simpl. rewrite decode_snp_key. simpl.
    rewrite removelast_last, store_runs_snoc. by rewrite (store_run_last _ _ r t).
  - exfalso. apply last_None in Hl.
    assert (Hne : runs ((s :: ps) ++ []) <> []).
    { rewrite app_nil_r. replace (s :: ps) with ([s] ++ ps) by done.
      clear Hl. induction ps as [|s' ps IH] using rev_ind; [done|].
      rewrite app_assoc, runs_snoc. unfold add_run.
      destruct (last (runs ([s] ++ ps))); [|done].
      destruct (last l); [case_decide|]; intros Hc; by apply app_nil in Hc as [_ ?]. }
    by rewrite app_nil_r in Hne.
Qed.

(** The streaming loop against the specification by runs. *)
Lemma parse_sumstats_runs lines n_pops maf hwe :
  parse_sumstats lines n_pops maf hwe = parse_sumstats_spec lines n_pops maf hwe.
Proof.
  unfold parse_sumstats, parse_sumstats_spec.
  destruct (py_assert _); simpl; [|done].
  change group_init with (gstate_of n_pops []). rewrite foldM_sumstats_line.
  destruct (passing_sites maf (max_hwe_p hwe) lines) as [ps|e]; simpl; [|done].
  apply group_finish_gstate.
Qed.

(** C3: refinement.  [parse_sumstats] computes its specification: after
    the assertion on [maf], the records that pass both filters (or the
    first parse error), an [AttributeError] when none passes, else the
    dict of the maximal runs of one SNP key that have exactly [n_pops]
    records. *)
Theorem parse_sumstats_refines lines n_pops maf hwe :
  parse_sumstats lines n_pops maf hwe = parse_sumstats_spec lines n_pops maf hwe.
Proof. apply parse_sumstats_runs. Qed.

(** ** The kept-sites index *)

(** [sites_dict[loc][col]], or [None]. *)
Definition lookup2 (d : site_dict) (loc col : Z) : option (list SumstatsSite) :=
  dict_get loc d ≫= dict_get col.

Lemma lookup2_store_group n l c g d l' c' :
  lookup2 (store_group n l c g d) l' c' =
  if bool_decide ((l', c') = (l, c)) && Z.eqb (Z.of_nat (length g)) n then Some g
  else lookup2 d l' c'.
Proof.
  unfold store_group, lookup2. destruct (Z.eqb _ n); rewrite ?andb_false_r; [|done].
  rewrite andb_true_r, dict_get_alter, dict_get_setdefault.
  destruct (decide (l' = l)) as [->|Hl].
  - destruct (dict_get l d) as [inner|] eqn:Hd; simpl;
      destruct (decide (c' = c)) as [->|Hc].
    + by rewrite dict_get_set_eq, bool_decide_eq_true_2.
    + by rewrite dict_get_set_ne, bool_decide_eq_false_2 by congruence.
    + by rewrite bool_decide_eq_true_2.
    + by rewrite bool_decide_eq_false_2 by congruence.
  - rewrite bool_decide_eq_false_2 by congruence. by destruct (dict_get l' d).
Qed.

Lemma lookup2_store_runs_snoc n rs r l c :
  lookup2 (store_runs n (rs ++ [r])) l c =
  match r with
  | [] => lookup2 (store_runs n rs) l c
  | s :: _ => if bool_decide ((l, c) = site_key s) && Z.eqb (Z.of_nat (length r)) n
              then Some r else lookup2 (store_runs n rs) l c
  end.
Proof.
  rewrite store_runs_snoc. destruct r as [|s r]; [done|]. simpl.
  by rewrite lookup2_store_group.
Qed.

(** Every entry of the index is one of the runs, has [n_pops] records,
    and sits under the key of its records. *)
Lemma lookup2_store_runs n rs l c g :
  Forall run_ok rs ->
  lookup2 (store_runs n rs) l c = Some g ->
  g ∈ rs /\ Z.of_nat (length g) = n /\ g <> [] /\ Forall (fun s => site_key s = (l, c)) g.
Proof.
  induction rs as [|r rs IH] using rev_ind; [done|].
  intros [Hok Hr]%Forall_app. rewrite lookup2_store_runs_snoc.
  rewrite Forall_singleton in Hr. destruct r as [|s r]; [by destruct Hr|].
  destruct (bool_decide _ && _) eqn:E.
  - intros [= <-]. apply andb_true_iff in E as [E1 E2].
    apply bool_decide_eq_true in E1. apply Z.eqb_eq in E2.
    split_and!; [set_solver|done|done|]. apply Forall_forall. intros x Hx.
    rewrite E1. destruct Hr as [_ Hr]. apply Hr; [|set_solver].
    done.
  - intros Hg. destruct (IH Hok Hg) as (? & ? & ? & ?). split_and!; [set_solver|done..].
Qed.

(** ** Contiguous input *)

Definition run_key (r : list SumstatsSite) : option (Z * Z) :=
  match r with [] => None | s :: _ => Some (site_key s) end.

(** The records of [ps] with SNP key [k], in order. *)
Definition records_of (k : Z * Z) (ps : list SumstatsSite) : list SumstatsSite :=
  List.filter (fun s => bool_decide (site_key s = k)) ps.

Lemma add_run_concat rs s :
  Forall run_ok rs -> concat (add_run rs s) = concat rs ++ [s].
Proof.
  intros Hok. unfold add_run. destruct (last rs) as [r|] eqn:Hl.
  - apply last_Some in Hl as [rs0 ->]. rewrite removelast_last.
    destruct (last r); [case_decide|]; rewrite !concat_app; simpl;
      rewrite ?app_nil_r, ?app_assoc; done.
  - apply last_None in Hl as ->. done.
Qed.

Lemma runs_concat ps : concat (runs ps) = ps.
Proof.
  induction ps as [|s ps IH] using rev_ind; [done|].
  rewrite runs_snoc, add_run_concat by apply runs_ok. by rewrite IH.
Qed.

Lemma records_of_run k r :
  run_ok r -> records_of k r = if bool_decide (run_key r = Some k) then r else [].
Proof.
  intros [Hne Hr]. destruct r as [|s r]; [done|]. simpl run_key.
  assert (Hall : forall x, x ∈ s :: r -> site_key x = site_key s) by (intros; apply Hr; set_solver).
  unfold records_of. destruct (decide (site_key s = k)) as [<-|Hk].
  - rewrite bool_decide_eq_true_2 by done. apply filter_all_true.
    intros x Hx. apply bool_decide_eq_true. auto.
  - rewrite bool_decide_eq_false_2 by congruence. apply filter_all_false.
    intros x Hx. apply bool_decide_eq_false. rewrite Hall by done. done.
Qed.

Lemma records_of_concat_none k rs :
  Forall run_ok rs -> (forall r, r ∈ rs -> run_key r <> Some k) ->
  records_of k (concat rs) = [].
Proof.
  induction rs as [|r rs IH]; intros Hok Hk; [done|].
  apply Forall_cons in Hok as [Hr Hok]. simpl. unfold records_of.
  rewrite List.filter_app. fold (records_of k r) (records_of k (concat rs)).
  rewrite records_of_run, bool_decide_eq_false_2, IH by (try done; set_solver). done.
Qed.

(** With the runs' keys all distinct, the records of a key are its run. *)
Lemma records_of_runs k rs r :
  Forall run_ok rs -> NoDup (map run_key rs) -> r ∈ rs -> run_key r = Some k ->
  records_of k (concat rs) = r.
Proof.
  induction rs as [|r' rs IH]; [set_solver|].
  intros Hok Hnd Hin Hk. apply Forall_cons in Hok as [Hr' Hok].
  cbn [map] in Hnd. apply NoDup_cons in Hnd as [Hnin Hnd].
  cbn [concat]. unfold records_of. rewrite List.filter_app.
  fold (records_of k r') (records_of k (concat rs)). rewrite records_of_run by done.
  apply elem_of_cons in Hin as [->|Hin].
  - rewrite bool_decide_eq_true_2 by done.
    rewrite records_of_concat_none; [by rewrite app_nil_r|done|].
    intros r'' Hr'' Hk''. apply Hnin. rewrite Hk, <-Hk''. by apply list_elem_of_fmap_2.
  - rewrite bool_decide_eq_false_2; [by apply IH|].
    intros Hk'. apply Hnin. rewrite Hk', <-Hk. by apply list_elem_of_fmap_2.
Qed.

Lemma run_key_member r x :
  run_ok r -> x ∈ r -> run_key r = Some (site_key x).
Proof.
  intros [Hne Hr] Hx. destruct r as [|s r]; [done|]. simpl. f_equal.
  apply Hr; [set_solver|done].
Qed.

Lemma lookup2_store_runs_in n rs r l c :
  Forall run_ok rs -> NoDup (map run_key rs) -> r ∈ rs -> run_key r = Some (l, c) ->
  Z.of_nat (length r) = n -> lookup2 (store_runs n rs) l c = Some r.
Proof.
  induction rs as [|r' rs IH] using rev_ind; [set_solver|].
  intros [Hok Hr']%Forall_app Hnd Hin Hk Hlen.
  rewrite map_app in Hnd. apply NoDup_app in Hnd as (Hnd & Hdis & _).
  rewrite lookup2_store_runs_snoc. rewrite Forall_singleton in Hr'.
  destruct r' as [|s r'']; [by destruct Hr'|].
  apply elem_of_app in Hin as [Hin|Hin%list_elem_of_singleton].
  - rewrite bool_decide_eq_false_2; [by apply IH|].
    intros Heq. apply (Hdis (Some (l, c))); [rewrite <-Hk; by apply list_elem_of_fmap_2|].
    simpl. rewrite Heq. set_solver.
  - subst r. simpl in Hk. injection Hk as <- <-.
    rewrite bool_decide_eq_true_2 by reflexivity. rewrite (proj2 (Z.eqb_eq _ _) Hlen). done.
Qed.

(** The reference grouping on records whose keys each form one run. *)
Lemma store_runs_contiguous n ps l c g :
  NoDup (map run_key (runs ps)) ->
  lookup2 (store_runs n (runs ps)) l c = Some g <->
  g = records_of (l, c) ps /\ g <> [] /\ Z.of_nat (length g) = n.
Proof.
  intros Hnd. pose proof (runs_ok ps) as Hok. split.
  - intros Hg. destruct (lookup2_store_runs _ _ _ _ _ Hok Hg) as (Hin & Hlen & Hne & Hall).
    split_and!; [|done|done].
    destruct g as [|x g]; [done|]. apply Forall_cons in Hall as [Hx _].
    rewrite <-(runs_concat ps). symmetry. apply records_of_runs; [done..|].
    simpl. by rewrite Hx.
  - intros (-> & Hne & Hlen).
    destruct (records_of (l, c) ps) as [|x xs] eqn:E; [done|].
    assert (Hx : x ∈ records_of (l, c) ps) by (rewrite E; set_solver).
    unfold records_of in Hx. apply list_elem_of_In, List.filter_In in Hx as [Hx Hkx].
    apply bool_decide_eq_true in Hkx. rewrite <-(runs_concat ps) in Hx.
    apply in_concat in Hx as (r & Hr & Hxr). apply list_elem_of_In in Hr, Hxr.
    assert (Hrk : run_key r = Some (l, c)).
    { rewrite <-Hkx. apply run_key_member; [|done]. by eapply Forall_forall in Hok. }
    rewrite <-E. rewrite <-(runs_concat ps) at 2. rewrite (records_of_runs _ _ r) by done.
    apply lookup2_store_runs_in; try done.
    rewrite <-(records_of_runs (l, c) (runs ps) r), runs_concat, E by done. done.
Qed.

(** C4: on a file whose surviving records of each SNP are contiguous
    (every key forms one run of [passing_sites]), the dict
    [parse_sumstats] returns holds a list under [sites_dict[loc][col]]
    exactly when that list is the non-empty list of the surviving
    records of SNP [(loc, col)], in file order, and it has [n_pops]
    records: "exactly", not "at least". *)
Theorem kept_contiguous lines n maf hwe_on ps d l c g :
  parse_sumstats lines n maf hwe_on = Ok d ->
  passing_sites maf (max_hwe_p hwe_on) lines = Ok ps ->
  NoDup (map run_key (runs ps)) ->
  lookup2 d l c = Some g <-> g = records_of (l, c) ps /\ g <> [] /\ Z.of_nat (length g) = n.
Proof.
  intros Hd Hps Hnd. rewrite parse_sumstats_runs in Hd. unfold parse_sumstats_spec in Hd.
  rewrite Hps in Hd. destruct (py_assert _); simpl in Hd; [|discriminate].
  destruct ps as [|s0 ps']; [discriminate|]. injection Hd as <-. by apply store_runs_contiguous.
Qed.

(** ** The invariant of the index *)

(** No key twice at either level, no empty inner dict, and every list
    has [n_pops] records, all of the key it is stored under. *)
Definition index_ok (n : Z) (d : site_dict) : Prop :=
  dict_wf d /\
  forall l inner, dict_get l d = Some inner ->
    dict_wf inner /\ inner <> [] /\
    forall c g, dict_get c inner = Some g ->
      Z.of_nat (length g) = n /\ g <> [] /\ Forall (fun s => site_key s = (l, c)) g.

Lemma index_ok_empty n : index_ok n [].
Proof. split; [constructor|done]. Qed.

Lemma dict_set_not_nil {K V} `{EqDecision K} (k : K) (v : V) d : dict_set k v d <> [].
Proof. destruct d as [|[k' v'] d]; simpl; [done|]. by case_decide. Qed.

Lemma store_group_ok n l c g d :
  g <> [] -> Forall (fun s => site_key s = (l, c)) g ->
  index_ok n d -> index_ok n (store_group n l c g d).
Proof.
  intros Hne Hg [Hwf Hin]. unfold store_group.
  destruct (Z.eqb_spec (Z.of_nat (length g)) n) as [Hlen|]; [|done].
  split; [by apply dict_wf_alter, dict_wf_setdefault|].
  intros l' inner'. rewrite dict_get_alter, dict_get_setdefault.
  destruct (decide (l' = l)) as [->|Hl].
  - destruct (dict_get l d) as [inner|] eqn:Hd; simpl; intros [= <-].
    + destruct (Hin _ _ Hd) as (Hiwf & _ & Hic).
      split_and!; [by apply dict_wf_set|apply dict_set_not_nil|].
      intros c' g'. destruct (decide (c' = c)) as [->|Hc].
      * rewrite dict_get_set_eq. by intros [= <-].
      * rewrite dict_get_set_ne by done. apply Hic.
    + split_and!; [unfold dict_wf, dict_keys; simpl; apply NoDup_singleton|done|].
      intros c' g'. simpl. case_decide; [subst; by intros [= <-]|done].
  - destruct (dict_get l' d) as [inner|] eqn:Hd; [intros [= <-]; by apply Hin|].
    discriminate.
Qed.

Lemma store_runs_ok n rs : Forall run_ok rs -> index_ok n (store_runs n rs).
Proof.
  induction rs as [|r rs IH] using rev_ind; [intros; apply index_ok_empty|].
  intros [Hok Hr]%Forall_app. rewrite store_runs_snoc. rewrite Forall_singleton in Hr.
  destruct r as [|s r]; [by destruct Hr|]. simpl. apply store_group_ok; [done| |by apply IH].
  apply Forall_forall. intros x Hx. destruct Hr as [_ Hr].
  change (locid s, locol s) with (site_key s). apply Hr; [done|set_solver].
Qed.

Lemma parse_sumstats_index lines n maf hwe d :
  parse_sumstats lines n maf hwe = Ok d -> index_ok n d.
Proof.
  rewrite parse_sumstats_runs. unfold parse_sumstats_spec. intros H. inv_res.
  destruct x0 as [|s ps]; [discriminate|]. injection H1 as <-.
  apply store_runs_ok, runs_ok.
Qed.

(** C6: the dict [parse_sumstats] returns is a well-formed index: no
    locus or column twice, no locus without a column, and every stored
    list holds exactly [n_pops] records of the SNP it is stored under. *)
Theorem parse_sumstats_index_ok lines n maf hwe d :
  parse_sumstats lines n maf hwe = Ok d -> index_ok n d.
Proof. apply parse_sumstats_index. Qed.

(** C18: once the [maf] assertion holds and every record parses, the
    function raises [AttributeError] exactly when no record survives the
    filters: the final flush reads [prev_snp], still [None]. *)
Corollary parse_sumstats_attribute_error lines n maf hwe ps :
  fle (PFin 0) maf && fle maf (PFin (1 # 2)) = true ->
  passing_sites maf (max_hwe_p hwe) lines = Ok ps ->
  parse_sumstats lines n maf hwe = Raise AttributeError <-> ps = [].
Proof.
  intros Hm Hps. rewrite parse_sumstats_runs. unfold parse_sumstats_spec, py_assert.
  rewrite Hm, Hps. simpl. destruct ps; simpl; split; congruence.
Qed.

(** ** Every kept record passed the filters *)

(** A record of [passing_sites] is parsed from a non-comment line and
    passes both filters. *)
Lemma passing_sites_sound maf mh lines ps s :
  passing_sites maf mh lines = Ok ps -> s ∈ ps ->
  maf_filtered maf (p s) = false /\ hwe_filtered mh (hwe s) = false /\
  exists line snp, line ∈ lines /\ String.prefix "#" line = false /\ parse_site line = Ok (snp, s).
Proof.
  revert ps. induction lines as [|line rest IH]; intros ps H Hs; simpl in H.
  - injection H as <-. by apply elem_of_nil in Hs.
  - destruct (String.prefix "#" line) eqn:Hc.
    + destruct (IH ps H Hs) as (? & ? & l & snp & ? & ? & ?). split_and!; [done|done|].
      exists l, snp. split_and!; [set_solver|done|done].
    + destruct (parse_site line) as [[snp site]|e] eqn:Hp; simpl in H; [|done].
      destruct (passing_sites maf mh rest) as [ps'|e] eqn:Hr; simpl in H; [|done].
      injection H as <-.
      destruct (negb (maf_filtered maf (p site)) && negb (hwe_filtered mh (hwe site))) eqn:Hk.
      * apply elem_of_cons in Hs as [->|Hs].
        -- apply andb_true_iff in Hk as [H1 H2]. apply negb_true_iff in H1, H2.
           split_and!; [done|done|]. exists line, snp. split_and!; [set_solver|done|done].
        -- destruct (IH ps' eq_refl Hs) as (? & ? & l & snp' & ? & ? & ?). split_and!; [done|done|].
           exists l, snp'. split_and!; [set_solver|done|done].
      * destruct (IH ps' eq_refl Hs) as (? & ? & l & snp' & ? & ? & ?). split_and!; [done|done|].
        exists l, snp'. split_and!; [set_solver|done|done].
Qed.

Lemma elem_of_runs ps r s : r ∈ runs ps -> s ∈ r -> s ∈ ps.
Proof.
  intros Hr Hs. rewrite <-(runs_concat ps). apply list_elem_of_In, in_concat.
  exists r. split; by apply list_elem_of_In.
Qed.

(** C11: every record of every group [parse_sumstats] keeps was read from
    a non-comment line of the file and passes both filters: its allele
    frequency is not below [maf] (nor above [1 - maf]) and, with the
    HWE threshold in force, its p-value is not below it. *)
Theorem parse_sumstats_kept_pass lines n maf hwe_on d l c g s :
  parse_sumstats lines n maf hwe_on = Ok d -> lookup2 d l c = Some g -> s ∈ g ->
  maf_filtered maf (p s) = false /\ hwe_filtered (max_hwe_p hwe_on) (hwe s) = false /\
  exists line snp, line ∈ lines /\ String.prefix "#" line = false /\ parse_site line = Ok (snp, s).
Proof.
  rewrite parse_sumstats_runs. unfold parse_sumstats_spec. intros H Hg Hs. inv_res.
  destruct x0 as [|s0 ps]; [discriminate|]. injection H1 as <-.
  destruct (lookup2_store_runs _ _ _ _ _ (runs_ok _) Hg) as (Hin & _).
  eapply passing_sites_sound; [done|]. by eapply elem_of_runs.
Qed.

(** ** A small sumstats table: three SNPs seen in one, two and two
    populations *)

Definition sumstats_row (loc col pop freq hwe_p : string) : string :=
  py_join TAB [loc; "chr1"; "100"; col; pop; "."; "."; "."; freq; "."; "."; "."; ".";
               "."; "."; "."; "."; "."; "."; hwe_p; "0"].

Definition toy_sumstats : list string := [
  "# Locus ID	Chr	BP	Col	Pop ID";
  sumstats_row "1" "5" "popA" "0.3" "0.5";
  sumstats_row "2" "7" "popA" "0.2" "0.9";
  sumstats_row "2" "7" "popB" "0.4" "0.9";
  sumstats_row "3" "1" "popA" "0.5" "0.01";
  sumstats_row "3" "1" "popB" "0.95" "0.2"].

Definition toy_passing : list SumstatsSite :=
  match passing_sites (PFin 0) (max_hwe_p false) toy_sumstats with
  | Ok ps => ps
  | Raise _ => []
  end.

(** With [--n-populations 2] the two SNPs seen twice are kept; with
    [--maf 0.1] the record at [p = 0.95] goes and only locus 2 is left. *)
Example toy_sumstats_kept :
  (fun d => map fst d) <$> parse_sumstats toy_sumstats 2 (PFin 0) false = Ok [2; 3]%Z /\
  (fun d => map fst d) <$> parse_sumstats toy_sumstats 2 (PFin (1 # 10)) false = Ok [2]%Z /\
  parse_sumstats ["# only a header"] 2 (PFin 0) false = Raise AttributeError.
Proof. split_and!; vm_compute; reflexivity. Qed.



Lemma parse_sumstats_index_ok_witness :
  exists d, parse_sumstats toy_sumstats 2 (PFin 0) false = Ok d /\ index_ok 2 d.
Proof.
  eexists. split; [vm_compute; reflexivity|].
  apply (parse_sumstats_index_ok toy_sumstats 2 (PFin 0) false). vm_compute. reflexivity.
Defined.

Lemma parse_sumstats_attribute_error_witness :
  parse_sumstats ["# only a header"] 2 (PFin 0) false = Raise AttributeError.
Proof.
  apply (parse_sumstats_attribute_error ["# only a header"] 2 (PFin 0) false []);
    reflexivity.
Defined.

(** The index of the toy table with [n_pops = 2], and the first record
    stored for the SNP [(2, 7)]. *)
Definition toy_index : site_dict :=
  match parse_sumstats toy_sumstats 2 (PFin 0) false with Ok d => d | Raise _ => [] end.

Definition toy_group : list SumstatsSite := default [] (lookup2 toy_index 2 7).

Definition toy_record : SumstatsSite :=
  default (mk_site 0 0 "" 0 "" PNaN PNaN 0) (head toy_group).

Lemma parse_sumstats_kept_pass_witness :
  maf_filtered (PFin 0) (p (toy_record)) = false /\
  hwe_filtered (max_hwe_p false) (hwe (toy_record)) = false /\
  exists line snp, line ∈ toy_sumstats /\ String.prefix "#" line = false /\
    parse_site line = Ok (snp, toy_record).
Proof.
  apply (parse_sumstats_kept_pass toy_sumstats 2 (PFin 0) false toy_index 2 7 toy_group).
  - vm_compute. reflexivity.
  - vm_compute. reflexivity.
  - vm_compute. apply elem_of_cons. by left.
Defined.

Lemma kept_contiguous_witness :
  lookup2 toy_index 2 7 = Some (records_of (2, 7)%Z toy_passing).
Proof.
  apply (kept_contiguous toy_sumstats 2 (PFin 0) false toy_passing toy_index 2 7
           (records_of (2, 7)%Z toy_passing)).
  - vm_compute. reflexivity.
  - vm_compute. reflexivity.
  - vm_compute. repeat constructor; set_solver.
  - split_and!; [reflexivity| vm_compute; discriminate | vm_compute; reflexivity].
Defined.

End Grouper.
