(* ===== verification/RandomSource.v ===== *)
(** * The interface of Python's [random] module as the filter uses it

    [sample_kept_sites] calls [random.sample(population, k)] and
    [random.choice(seq)] on a process-wide generator.  [RandomSource] is
    that interface over an explicit generator state [G] (the injectable
    seed the spec asks for); [RandomSourceLaws] is what the client relies
    on: a sample of [k <= len(population)] elements is a sub-multiset of
    the population of length [k], [ValueError] for [k] out of range; a
    choice from a non-empty sequence is one of its elements,
    [IndexError] on an empty one.  The client theorems of [Whitelist] are
    proved against these laws only.  [lcg_source] is one executable
    instance (a linear congruential generator drawing without
    replacement), proved to satisfy the laws, used for the witnesses. *)
From S2P Require Import Prelude.

Class RandomSource (G : Type) := {
  rand_sample : forall {A}, list A -> Z -> G -> result (list A * G);
  rand_choice : forall {A}, list A -> G -> result (A * G)
}.

Class RandomSourceLaws (G : Type) `{RandomSource G} := {
  rand_sample_ok : forall A (l : list A) (k : Z) g,
    (0 <= k <= Z.of_nat (length l))%Z ->
    exists r g', rand_sample l k g = Ok (r, g') /\ Z.of_nat (length r) = k /\ r ⊆+ l;
  rand_sample_range : forall A (l : list A) (k : Z) g,
    (k < 0 \/ Z.of_nat (length l) < k)%Z -> rand_sample l k g = Raise ValueError;
  rand_choice_ok : forall A (l : list A) g,
    l <> [] -> exists x g', rand_choice l g = Ok (x, g') /\ x ∈ l;
  rand_choice_nil : forall A g, rand_choice (@nil A) g = Raise IndexError
}.

Lemma submseteq_NoDup {A} (r l : list A) : r ⊆+ l -> NoDup l -> NoDup r.
Proof.
  intros [k Hk]%submseteq_Permutation Hl. rewrite Hk in Hl.
  by apply NoDup_app in Hl as [? _].
Qed.

(** ** An executable instance *)

Module Lcg.

(** The generator state and its step. *)
Definition next (g : N) : N := (1103515245 * g + 12345) mod 2147483648.

(** [_randbelow(n)] for [n > 0]. *)
Definition randbelow (n : nat) (g : N) : nat * N :=
  (N.to_nat (g mod N.of_nat n), next g).

(** Draw [k] elements without replacement. *)
Fixpoint draw {A} (pool : list A) (k : nat) (g : N) : list A * N :=
  match k with
  | 0 => ([], g)
  | S k' =>
      let '(j, g1) := randbelow (length pool) g in
      match pool !! j with
      | Some x => let '(rest, g2) := draw (delete j pool) k' g1 in (x :: rest, g2)
      | None => ([], g1)
      end
  end.

Definition sample {A} (l : list A) (k : Z) (g : N) : result (list A * N) :=
  if decide (0 <= k <= Z.of_nat (length l))%Z then Ok (draw l (Z.to_nat k) g)
  else Raise ValueError.

Definition choice {A} (l : list A) (g : N) : result (A * N) :=
  let '(j, g1) := randbelow (length l) g in
  match l !! j with Some x => Ok (x, g1) | None => Raise IndexError end.

Lemma randbelow_lt n g : 0 < n -> fst (randbelow n g) < n.
Proof.
  intros Hn. unfold randbelow. simpl.
  pose proof (N.mod_lt g (N.of_nat n)) as H. lia.
Qed.

Lemma draw_ok {A} (pool : list A) k g :
  k <= length pool ->
  length (fst (draw pool k g)) = k /\ fst (draw pool k g) ⊆+ pool.
Proof.
  revert pool g. induction k as [|k IH]; intros pool g Hk; cbn [draw];
    [split; [done|apply submseteq_nil_l]|].
  pose proof (randbelow_lt (length pool) g) as Hj.
  destruct (randbelow (length pool) g) as [j g1]. simpl in Hj.
  destruct (lookup_lt_is_Some_2 pool j) as [x Hx]; [lia|]. rewrite Hx.
  destruct (IH (delete j pool) g1) as [Hlen Hsub]; [rewrite length_delete by done; lia|].
  destruct (draw (delete j pool) k g1) as [rest g2]. simpl in *. split; [lia|].
  rewrite (delete_Permutation pool j x Hx). by apply submseteq_skip.
Qed.

End Lcg.

#[export] Instance lcg_source : RandomSource N := {
  rand_sample := @Lcg.sample;
  rand_choice := @Lcg.choice
}.

#[export] Instance lcg_source_laws : RandomSourceLaws N.
Proof.
  split.
  - intros A l k g Hk. simpl. unfold Lcg.sample. rewrite decide_True by done.
    destruct (Lcg.draw_ok l (Z.to_nat k) g) as [Hlen Hsub]; [lia|].
    destruct (Lcg.draw l (Z.to_nat k) g) as [r g'] eqn:E. simpl in *.
    exists r, g'. split_and!; [done|lia|done].
  - intros A l k g Hk. simpl. unfold Lcg.sample. rewrite decide_False by lia. done.
  - intros A l g Hl. simpl. unfold Lcg.choice.
    pose proof (Lcg.randbelow_lt (length l) g) as Hj.
    destruct (Lcg.randbelow (length l) g) as [j g1]. simpl in Hj.
    destruct (lookup_lt_is_Some_2 l j) as [x Hx]; [destruct l; simpl in *; [done|lia]|].
    rewrite Hx. exists x, g1. split; [done|]. by eapply list_elem_of_lookup_2.
  - intros A g. reflexivity.
Qed.
