(* ===== verification/Whitelist.v ===== *)
(** * The random sampler, the whitelist writer and the driver of the filter

    [src/filter_sumstats_to_whitelist.py]: [sample_kept_sites] (lines
    105-116), the options with argparse's declared types and defaults
    ([convert_filter_args], lines 8-16), [parse_args]' checks on the
    converted values (lines 16-26), [main] (lines 118-130) and
    [filter_cli], the whole from the command line.  Randomness is the interface [RandomSource]
    with its laws; the file written is the list of its rows [(loc, col)]
    and [whitelist_text] their text.  The results: the rows are in
    strictly increasing locus order, there are [min(n_sites, #loci)] of
    them, and each names a SNP the index holds; end to end, each SNP of
    the whitelist passed the filters in exactly [n_populations]
    populations; the text written reads back as the rows; a
    non-positive [-n] exits; a negative [--maf] passes [parse_args] and stops the run
    with [AssertionError]. *)
From S2P Require Import Prelude PyStr PyNum PyDict Sumstats Grouper RandomSource.
From stdpp Require Import sorting.
From Stdlib Require Import Ascii QArith.
Import Sumstats Grouper.

Local Close Scope Q_scope.

Module Whitelist.

Section WithRandom.
Context {G : Type} `{RandomSource G}.

Abbreviation site_dict := (dict Z (dict Z (list SumstatsSite))) (only parsing).

(** [sites_dict[loc]]. *)
Definition dict_index {V} (d : dict Z V) (loc : Z) : result V :=
  match dict_get loc d with Some v => Ok v | None => Raise KeyError end.

(** Lines 113-115: for each locus in order, a random column of it. *)
Fixpoint write_rows (d : site_dict) (locs : list Z) (g : G) : result (list (Z * Z) * G) :=
  match locs with
  | [] => Ok ([], g)
  | loc :: locs' =>
      inner ← dict_index d loc;
      '(col, g1) ← rand_choice (dict_keys inner) g;
      '(rows, g2) ← write_rows d locs' g1;
      Ok ((loc, col) :: rows, g2)
  end.

(** [sample_kept_sites(sites_dict, n_sites, outd)]: [None] when it
    returns before opening the output file, else the rows it writes. *)
Definition sample_kept_sites (d : site_dict) (n_sites : Z) (g : G)
    : result (option (list (Z * Z)) * G) :=
  if Nat.eqb (length d) 0 then Ok (None, g) else
  let n_sites := if Z.ltb (Z.of_nat (length d)) n_sites then Z.of_nat (length d) else n_sites in
  '(kept_loci, g1) ← rand_sample (dict_keys d) n_sites g;
  '(rows, g2) ← write_rows d (merge_sort Z.le kept_loci) g1;
  Ok (Some rows, g2).

End WithRandom.

(** [out.write(f'{loc}\t{col}\n')] for every row. *)
Definition whitelist_line (row : Z * Z) : string :=
  (str_of_Z (fst row) +:+ String TAB (str_of_Z (snd row)) +:+ String NL EmptyString)%string.

Definition whitelist_text (rows : list (Z * Z)) : string :=
  foldr (fun row acc => (whitelist_line row +:+ acc)%string) EmptyString rows.

(** A reader of the whitelist format (two tab-separated integers per
    line, each line ended by a newline), the specification of the file. *)
Definition read_row (line : string) : result (Z * Z) :=
  match py_split TAB line with
  | [a; b] => x ← py_int a; y ← py_int b; Ok (x, y)
  | _ => Raise ValueError
  end.

Definition read_whitelist (text : string) : result (list (Z * Z)) :=
  mapM read_row (removelast (py_split NL text)).

(** The arguments after argparse has converted them. *)
Record filter_args := mk_args {
  sumstats : string;
  n_populations : Z;
  number_sites : Z;
  hwe_flag : bool;
  maf_cutoff : pyfloat;
  outd : string
}.

(** Lines 16-26 of [parse_args]; [path_exists] is [os.path.exists]. *)
Definition parse_args (a : filter_args) (path_exists : string -> bool) : result filter_args :=
  let a := mk_args (sumstats a) (n_populations a) (number_sites a) (hwe_flag a)
             (maf_cutoff a) (rstrip_char "/" (outd a)) in
  if negb (path_exists (sumstats a)) then Raise SystemExit else
  if negb (path_exists (outd a)) then Raise SystemExit else
  if flt (PFin (1 # 2)) (maf_cutoff a) then Raise SystemExit else
  if Z.leb (number_sites a) 0 then Raise SystemExit else
  Ok a.

(** The options as the command line gives them, before argparse
    converts them: absent ([None]) or the text after the flag. *)
Record raw_filter_args := mk_raw {
  raw_sumstats : option string;
  raw_n_populations : option string;
  raw_number_sites : option string;
  raw_hwe : bool;
  raw_maf : option string;
  raw_outd : option string
}.

(** An option with [type=conv] and a non-string default: argparse turns
    the [ValueError] of the conversion into its usage error, which exits. *)
Definition argparse_conv {A} (conv : string -> result A) (o : option string) (dflt : A)
    : result A :=
  match o with
  | None => Ok dflt
  | Some s => match conv s with Ok v => Ok v | Raise _ => Raise SystemExit end
  end.

(** Lines 8-16: the declared types and defaults, and the exit on a
    missing required [--sumstats]. *)
Definition convert_filter_args (r : raw_filter_args) : result filter_args :=
  sumstats ← (match raw_sumstats r with Some s => Ok s | None => Raise SystemExit end);
  n_populations ← argparse_conv py_int (raw_n_populations r) 1%Z;
  number_sites ← argparse_conv py_int (raw_number_sites r) 1000%Z;
  maf ← argparse_conv py_float (raw_maf r) (PFin 0);
  Ok (mk_args sumstats n_populations number_sites (raw_hwe r) maf (default "." (raw_outd r))).

Section Main.
Context {G : Type} `{RandomSource G}.

(** [main()], lines 118-130: the counts it prints and the rows written. *)
Definition main (a : filter_args) (path_exists : string -> bool) (lines : list string) (g : G)
    : result (nat * nat * option (list (Z * Z)) * G) :=
  args ← parse_args a path_exists;
  sites_dict ← parse_sumstats lines (n_populations args) (maf_cutoff args) (hwe_flag args);
  let nlocs := length sites_dict in
  let nsnps := sum_list (map (fun e => length (snd e)) sites_dict) in
  '(out, g') ← sample_kept_sites sites_dict (number_sites args) g;
  Ok (nlocs, nsnps, out, g').

(** [main()] from the command line: argparse, then lines 119-130. *)
Definition filter_cli (r : raw_filter_args) (path_exists : string -> bool) (lines : list string)
    (g : G) : result (nat * nat * option (list (Z * Z)) * G) :=
  a ← convert_filter_args r;
  main a path_exists lines g.

End Main.

(** ** The whitelist file *)

Definition row_text (row : Z * Z) : string :=
  str_of_Z (fst row) +:+ String TAB (str_of_Z (snd row)).

Lemma str_has_str_of_Z_ctrl c z : (nat_of_ascii c < 32)%nat -> str_has c (str_of_Z z) = false.
Proof.
  intros Hc. apply str_has_str_of_Z.
  - unfold is_digit. apply andb_false_iff. left. apply Nat.leb_gt. lia.
  - intros ->. vm_compute in Hc. lia.
Qed.

Lemma py_split_whitelist_text rows :
  py_split NL (whitelist_text rows) = (map row_text rows ++ [""])%list.
Proof.
  induction rows as [|r rows IH]; [done|]. simpl.
  assert (E : whitelist_line r +:+ whitelist_text rows = row_text r +:+ String NL (whitelist_text rows)).
  { unfold whitelist_line, row_text. rewrite <-!str_append_assoc. reflexivity. }
  rewrite E, py_split_app_sep, IH; [done|].
  unfold row_text. rewrite str_has_app. cbn [str_has].
  rewrite !str_has_str_of_Z_ctrl by (vm_compute; lia). reflexivity.
Qed.

Lemma read_row_text r : read_row (row_text r) = Ok r.
Proof.
  destruct r as [loc col]. unfold read_row, row_text. simpl.
  rewrite py_split_app_sep, py_split_no_sep by (apply str_has_str_of_Z_ctrl; vm_compute; lia).
  simpl. by rewrite !py_int_str_of_Z.
Qed.

(** C33: the whitelist file reads back: split into lines, each line split
    on the tab and read with [int()], the text [sample_kept_sites]
    writes gives back its rows, in order. *)
Theorem whitelist_text_roundtrip rows : read_whitelist (whitelist_text rows) = Ok rows.
Proof.
  unfold read_whitelist. rewrite py_split_whitelist_text, removelast_last.
  induction rows as [|r rows IH]; [done|]. simpl. by rewrite read_row_text, IH.
Qed.

(** ** Properties, against the laws of the random source *)

Lemma sorted_nodup_strict (l : list Z) :
  Sorted Z.le l -> NoDup l -> StronglySorted Z.lt l.
Proof.
  intros Hs Hnd. apply Sorted_StronglySorted in Hs; [|intros ???; lia].
  induction Hs as [|x l Hs IH Hall]; [constructor|constructor].
  - apply IH. by apply NoDup_cons in Hnd as [_ ?].
  - apply NoDup_cons in Hnd as [Hx _]. apply Forall_forall. intros y Hy.
    eapply Forall_forall in Hall; [|done]. assert (x <> y) by (intros ->; contradiction). lia.
Qed.

Section Laws.
Context {G : Type} `{RandomSourceLaws G}.

Lemma write_rows_ok (d : site_dict) locs g :
  (forall loc, loc ∈ locs -> exists inner, dict_get loc d = Some inner /\ inner <> []) ->
  exists rows g', write_rows d locs g = Ok (rows, g') /\ map fst rows = locs /\
    forall loc col, (loc, col) ∈ rows -> exists grp, lookup2 d loc col = Some grp.
Proof.
  revert g. induction locs as [|loc locs IH]; intros g Hlocs; simpl.
  - exists [], g. split_and!; [done|done|set_solver].
  - destruct (Hlocs loc) as (inner & Hin & Hne); [set_solver|].
    unfold dict_index. rewrite Hin. simpl.
    destruct (rand_choice_ok _ (dict_keys inner) g) as (col & g1 & Hc & Hcol).
    { by rewrite dict_keys_nil. }
    rewrite Hc. simpl.
    destruct (IH g1) as (rows & g2 & Hw & Hfst & Hrows); [intros; apply Hlocs; set_solver|].
    rewrite Hw. simpl. exists ((loc, col) :: rows), g2. split_and!; [done|simpl; congruence|].
    intros l c [[= -> ->]|Hr]%elem_of_cons; [|by apply Hrows].
    destruct (dict_keys_get _ _ Hcol) as [grp Hg]. exists grp. unfold lookup2. by rewrite Hin.
Qed.

(** The sampler on a well-formed non-empty index and [n_sites >= 0]. *)
Lemma sample_kept_sites_rows (d : site_dict) n_pops n_sites g :
  index_ok n_pops d -> d <> [] -> (0 <= n_sites)%Z ->
  exists rows g', sample_kept_sites d n_sites g = Ok (Some rows, g') /\
    Z.of_nat (length rows) = Z.min n_sites (Z.of_nat (length d)) /\
    StronglySorted Z.lt (map fst rows) /\
    forall loc col, (loc, col) ∈ rows ->
      exists grp, lookup2 d loc col = Some grp /\ Z.of_nat (length grp) = n_pops /\
        Forall (fun s => site_key s = (loc, col)) grp.
Proof.
  intros [Hwf Hin] Hne Hn. unfold sample_kept_sites.
  destruct (Nat.eqb_spec (length d) 0) as [Hl|_]; [by destruct d|].
  set (k := if Z.ltb (Z.of_nat (length d)) n_sites then Z.of_nat (length d) else n_sites).
  assert (Hk : k = Z.min n_sites (Z.of_nat (length d))) by (subst k; destruct (Z.ltb_spec (Z.of_nat (length d)) n_sites); lia).
  destruct (rand_sample_ok _ (dict_keys d) k g) as (kept & g1 & Hs & Hlen & Hsub).
  { unfold dict_keys. rewrite length_map. lia. }
  rewrite Hs. simpl.
  assert (Hkeys : forall loc, loc ∈ merge_sort Z.le kept -> loc ∈ dict_keys d).
  { intros loc Hloc. rewrite (merge_sort_Permutation _ kept) in Hloc.
    eapply elem_of_submseteq; eauto. }
  destruct (write_rows_ok d (merge_sort Z.le kept) g1) as (rows & g2 & Hw & Hfst & Hrows).
  { intros loc Hloc. destruct (dict_keys_get _ _ (Hkeys _ Hloc)) as [inner Hinner].
    exists inner. split; [done|]. by destruct (Hin _ _ Hinner) as (_ & ? & _). }
  rewrite Hw. simpl. exists rows, g2. split_and!; [done| | |].
  - rewrite <-Hk, <-Hlen. rewrite <-(length_map fst rows), Hfst.
    by rewrite (merge_sort_Permutation _ kept).
  - rewrite Hfst. apply sorted_nodup_strict; [apply Sorted_merge_sort; intros ??; lia|].
    rewrite (merge_sort_Permutation _ kept). by eapply submseteq_NoDup.
  - intros loc col Hr. destruct (Hrows _ _ Hr) as [grp Hg]. exists grp. split; [done|].
    unfold lookup2 in Hg. destruct (dict_get loc d) as [inner|] eqn:Hi; [|done].
    simpl in Hg. destruct (Hin _ _ Hi) as (_ & _ & Hc). by destruct (Hc _ _ Hg) as (? & _ & ?).
Qed.

End Laws.

Lemma parse_args_Ok a path_exists a' :
  parse_args a path_exists = Ok a' ->
  n_populations a' = n_populations a /\ number_sites a' = number_sites a /\
  maf_cutoff a' = maf_cutoff a /\ hwe_flag a' = hwe_flag a /\ (0 < number_sites a)%Z.
Proof.
  unfold parse_args. simpl.
  repeat match goal with |- context [if ?b then _ else _] => destruct b eqn:? end;
    intros; simplify_eq/=; try lia; split_and!; auto; lia.
Qed.

Lemma argparse_conv_int z dflt : argparse_conv py_int (Some (str_of_Z z)) dflt = Ok z.
Proof. unfold argparse_conv. by rewrite py_int_str_of_Z. Qed.

Section MainLaws.
Context {G : Type} `{RandomSourceLaws G}.

(** C8: end to end.  When the arguments are accepted and the table
    parses to the index [d], [main] succeeds: it reports [len(d)] loci
    and the number of SNPs [d] holds, writes nothing when [d] is empty,
    and otherwise writes [min(number_sites, len(d))] rows in strictly
    increasing locus order, each a SNP that passed the filters in exactly
    [n_populations] populations, whose records all carry that SNP's key. *)
Theorem main_spec a path_exists lines (g : G) a' d :
  parse_args a path_exists = Ok a' ->
  parse_sumstats lines (n_populations a) (maf_cutoff a) (hwe_flag a) = Ok d ->
  exists out g', main a path_exists lines g =
      Ok (length d, sum_list (map (fun e => length (snd e)) d), out, g') /\
    (d = [] -> out = None) /\
    (d <> [] -> exists rows, out = Some rows /\
       Z.of_nat (length rows) = Z.min (number_sites a) (Z.of_nat (length d)) /\
       StronglySorted Z.lt (map fst rows) /\
       forall loc col, (loc, col) ∈ rows ->
         exists grp, lookup2 d loc col = Some grp /\
           Z.of_nat (length grp) = n_populations a /\
           Forall (fun s => site_key s = (loc, col)) grp).
Proof.
  intros Ha Hd. destruct (parse_args_Ok _ _ _ Ha) as (Hn & Hs & Hm & Hh & Hpos).
  unfold main. rewrite Ha. simpl. rewrite Hn, Hm, Hh, Hd. simpl. rewrite Hs.
  destruct d as [|e d]; [by eexists _, g|].
  destruct (sample_kept_sites_rows (e :: d) (n_populations a) (number_sites a) g)
    as (rows & g' & Hsk & Hrows); [by eapply parse_sumstats_index|done|lia|].
  rewrite Hsk. simpl. exists (Some rows), g'. split_and!; [done|done|]. intros _. by exists rows.
Qed.

(** C25: a negative finite [--maf] passes [parse_args], whose only check
    is [maf > 0.5], and the run stops on the assertion of
    [parse_sumstats], whatever the table holds. *)
Theorem main_negative_maf a path_exists lines (g : G) q :
  path_exists (sumstats a) = true ->
  path_exists (rstrip_char "/" (outd a)) = true ->
  (0 < number_sites a)%Z -> maf_cutoff a = PFin q -> (q < 0)%Q ->
  main a path_exists lines g = Raise AssertionError.
Proof.
  intros Hs Ho Hn Hm Hq.
  assert (Hhalf : Qle_bool q (1 # 2) = true).
  { apply Qle_bool_iff, Qlt_le_weak. eapply Qlt_trans; [done|reflexivity]. }
  assert (H0q : Qle_bool 0 q = false).
  { apply not_true_iff_false. rewrite Qle_bool_iff. intros ?. eapply Qlt_not_le; eauto. }
  unfold main, parse_args. simpl. rewrite Hs, Ho, Hm. simpl. rewrite Hhalf.
  destruct (Z.leb_spec (number_sites a) 0); [lia|]. simpl.
  unfold parse_sumstats. simpl. by rewrite H0q.
Qed.

(** C32: a number of sites that is not positive, given on the command
    line as [-n 0] or [-n -5], stops the filter with [SystemExit] before
    the table is read. *)
Theorem filter_cli_nonpositive_sites s ns h o path_exists lines (g : G) :
  (ns <= 0)%Z ->
  filter_cli (mk_raw (Some s) None (Some (str_of_Z ns)) h None o) path_exists lines g =
    Raise SystemExit.
Proof.
  intros Hns. unfold filter_cli, convert_filter_args.
  cbn [raw_sumstats raw_n_populations raw_number_sites raw_hwe raw_maf raw_outd].
  rewrite argparse_conv_int. simpl.
  unfold main, parse_args. simpl.
  destruct (path_exists s), (path_exists _); simpl; [|done..].
  destruct (Z.leb_spec ns 0); [done|lia].
Qed.

End MainLaws.

(** ** The driver on the toy table, with the LCG source seeded with 7 *)

Definition toy_args (n_sites : Z) (maf : pyfloat) : filter_args :=
  mk_args "sumstats.tsv" 2 n_sites false maf "out//".

Example toy_main :
  (fun r => let '(nl, ns, out, _) := r in (nl, ns, out))
    <$> main (G := N) (toy_args 5 (PFin 0)) (fun _ => true) toy_sumstats 7%N
  = Ok (2%nat, 2%nat, Some [(2, 7); (3, 1)]%Z) /\
  whitelist_text [(2, 7); (3, 1)]%Z = "2	7
3	1
"%string.
Proof. split; vm_compute; reflexivity. Qed.

Definition toy_index : dict Z (dict Z (list SumstatsSite)) :=
  match parse_sumstats toy_sumstats 2 (PFin 0) false with Ok d => d | Raise _ => [] end.

Lemma main_spec_witness :
  exists out (g' : N), main (toy_args 1 (PFin 0)) (fun _ => true) toy_sumstats 7%N =
    Ok (2%nat, 2%nat, out, g') /\
    exists rows, out = Some rows /\ Z.of_nat (length rows) = 1%Z.
Proof.
  destruct (main_spec (toy_args 1 (PFin 0)) (fun _ => true) toy_sumstats 7%N
              (mk_args "sumstats.tsv" 2 1 false (PFin 0) "out") toy_index)
    as (out & g' & Hm & _ & Hrows); [vm_compute; reflexivity|vm_compute; reflexivity|].
  replace (length toy_index) with 2%nat in Hm by (vm_compute; reflexivity).
  replace (sum_list _) with 2%nat in Hm by (vm_compute; reflexivity).
  exists out, g'. split; [exact Hm|].
  destruct Hrows as (rows & -> & Hlen & _); [vm_compute; discriminate|].
  exists rows. split; [done|]. rewrite Hlen. reflexivity.
Defined.

Lemma main_negative_maf_witness :
  main (G := N) (toy_args 5 (PFin (-1 # 10))) (fun _ => true) toy_sumstats 7%N
  = Raise AssertionError.
Proof.
  apply (main_negative_maf (toy_args 5 (PFin (-1 # 10))) (fun _ => true) toy_sumstats 7%N (-1 # 10));
    [reflexivity|reflexivity|reflexivity|reflexivity|reflexivity].
Defined.

Lemma filter_cli_nonpositive_sites_witness :
  filter_cli (mk_raw (Some "sumstats.tsv") None (Some "0") false None None) (fun _ => true)
    toy_sumstats 7%N = Raise SystemExit.
Proof. apply (filter_cli_nonpositive_sites "sumstats.tsv" 0 false None (fun _ => true) toy_sumstats 7%N). lia. Defined.

End Whitelist.
